(** * generate_version_table.py: version extraction and table assembly

    A shallow embedding of [version-table/generate_version_table.py] and the
    properties of its specification.

    Conventions of the embedding.
    - A Python [str] is a [string]; its characters stand for the code points
      U+0000..U+00FF.  On that range the Unicode classes used by [re] and by
      [str.strip]/[str.split] are finite and written out below.
    - A decoded JSON body is a [json] value; JSON numbers are integers.
    - The network, the notes file, [base64.b64decode(..).decode('utf-8')]
      and the encoding of [sys.stdout] form the environment [world] of a
      run.  [sys.stdout] is open and writable; what [print] can fail on is
      a character that the encoding of the stream lacks.
    - A computation threads the diagnostics written to [sys.stderr] and the
      HTTP requests sent so far, and ends by returning, by raising an
      exception that nothing catches, or by running out of fuel (the paging
      loop of [get_branches] is the only unbounded loop). *)

From Stdlib Require Import String Ascii List Bool Arith ZArith Lia.
From Stdlib Require Import DecimalString.
Import ListNotations.
Open Scope list_scope.
Open Scope string_scope.

Set Implicit Arguments.
Set Warnings "-register-all".

(* ================================================================== *)
(** ** Python strings *)

Module PyStr.

(** Code point of a character. *)
Definition code (c : ascii) : nat := nat_of_ascii c.

(** [Py_UNICODE_ISDECIMAL] on U+0000..U+00FF: the class [\d]. *)
Definition is_digit (c : ascii) : bool :=
  ((48 <=? code c) && (code c <=? 57))%nat.

(** [Py_UNICODE_ISSPACE] on U+0000..U+00FF: the class [\s], and the
    whitespace of [str.strip] and [str.split]. *)
Definition is_space (c : ascii) : bool :=
  (((9 <=? code c) && (code c <=? 13))
   || ((28 <=? code c) && (code c <=? 32))
   || (code c =? 133) || (code c =? 160))%nat.

(** The class [[\d\.]]. *)
Definition is_digit_or_dot (c : ascii) : bool :=
  is_digit c || Ascii.eqb c ".".

Definition newline : ascii := ascii_of_nat 10.

(** [s.startswith(p)] *)
Definition startswith (p s : string) : bool := String.prefix p s.

(** [s[n:]] *)
Fixpoint drop (n : nat) (s : string) : string :=
  match n, s with
  | O, _ => s
  | S _, EmptyString => EmptyString
  | S n', String _ s' => drop n' s'
  end.

(** [s[:n]] *)
Fixpoint take (n : nat) (s : string) : string :=
  match n, s with
  | O, _ => EmptyString
  | S _, EmptyString => EmptyString
  | S n', String c s' => String c (take n' s')
  end.

(** [s.lstrip()] *)
Fixpoint lstrip (s : string) : string :=
  match s with
  | String c s' => if is_space c then lstrip s' else s
  | EmptyString => EmptyString
  end.

(** Strips from the right every character of the class [p]. *)
Fixpoint rstrip_by (p : ascii -> bool) (s : string) : string :=
  match s with
  | EmptyString => EmptyString
  | String c s' =>
      match rstrip_by p s' with
      | EmptyString => if p c then EmptyString else String c EmptyString
      | r => String c r
      end
  end.

(** [s.strip()] *)
Definition strip (s : string) : string := rstrip_by is_space (lstrip s).

(** [s.rstrip('/')] *)
Definition rstrip_slash (s : string) : string :=
  rstrip_by (fun c => Ascii.eqb c "/") s.

(** The maximal prefix without whitespace, and what follows it. *)
Fixpoint span_word (s : string) : string * string :=
  match s with
  | String c s' =>
      if is_space c then (EmptyString, s)
      else let (w, r) := span_word s' in (String c w, r)
  | EmptyString => (EmptyString, EmptyString)
  end.

(** [s.split(maxsplit=1)]: leading whitespace is skipped, the first word is
    cut off, the whitespace after it is skipped and the remainder, when not
    empty, is the second part. *)
Definition split_maxsplit1 (s : string) : list string :=
  match lstrip s with
  | EmptyString => []
  | s1 =>
      let (w, r) := span_word s1 in
      match lstrip r with
      | EmptyString => [w]
      | rest => [w; rest]
      end
  end.

(** [s.replace(old, new)] for a non-empty [old]: non-overlapping occurrences
    from the left; [skip] counts the characters of an occurrence still to be
    passed over. *)
Fixpoint replace_from (old new : string) (skip : nat) (s : string) : string :=
  match s with
  | EmptyString => EmptyString
  | String c s' =>
      match skip with
      | S k => replace_from old new k s'
      | O =>
          if String.prefix old s
          then new ++ replace_from old new (String.length old - 1) s'
          else String c (replace_from old new 0 s')
      end
  end.

Definition replace (old new s : string) : string := replace_from old new 0 s.

(** [str(n)] for a length. *)
Definition of_nat (n : nat) : string := NilEmpty.string_of_uint (Nat.to_uint n).

(** [str(z)] for an [int]. *)
Definition of_Z (z : Z) : string := NilEmpty.string_of_int (Z.to_int z).

End PyStr.

(* ================================================================== *)
(** ** The fragment of [re] the script uses *)

Module Re.
Import PyStr.

(** Patterns.  Every repetition of the script is [c+] for a character class
    [c]; [Grp] is the capturing group 1. *)
Inductive regex : Type :=
| Eps
| Bol                              (* ^ *)
| Eol                              (* $ *)
| Chr (c : ascii)
| Plus (p : ascii -> bool)         (* c+, greedy *)
| Opt (r : regex)                  (* r?, greedy *)
| Seq (r1 r2 : regex)
| Alt (r1 r2 : regex)
| Grp (r : regex).

(** The characters of a literal, in sequence. *)
Fixpoint Lit (s : string) : regex :=
  match s with
  | EmptyString => Eps
  | String c s' => Seq (Chr c) (Lit s')
  end.

Fixpoint Cat (rs : list regex) : regex :=
  match rs with
  | [] => Eps
  | [r] => r
  | r :: rs' => Seq r (Cat rs')
  end.

(** A position is the character before it ([None] at the start of the
    string) and the text after it. *)
Section Matcher.
Variable multiline : bool.       (* re.MULTILINE *)
Variable R : Type.

(** What remains to be matched: previous character, remaining text and
    the text of group 1 so far. *)
Definition kont := option ascii -> string -> option string -> option R.

(** [^]: at the start, and under MULTILINE after each newline. *)
Definition at_bol (prev : option ascii) : bool :=
  match prev with
  | None => true
  | Some c => multiline && Ascii.eqb c newline
  end.

(** [$]: at the end and before a newline that ends the string; under
    MULTILINE before every newline. *)
Definition at_eol (s : string) : bool :=
  match s with
  | EmptyString => true
  | String c s' =>
      Ascii.eqb c newline
      && (multiline || match s' with EmptyString => true | _ => false end)
  end.

(** [c+]: the longest run first, then each shorter one. *)
Fixpoint plus_cls (p : ascii -> bool) (s : string) (g : option string)
         (k : kont) : option R :=
  match s with
  | String c s' =>
      if p c then
        match plus_cls p s' g k with
        | Some r => Some r
        | None => k (Some c) s' g
        end
      else None
  | EmptyString => None
  end.

(** The backtracking matcher: the first way to match [r] and then the
    continuation, in the order [re] tries them. *)
Fixpoint m (r : regex) (prev : option ascii) (s : string)
         (g : option string) (k : kont) : option R :=
  match r with
  | Eps => k prev s g
  | Bol => if at_bol prev then k prev s g else None
  | Eol => if at_eol s then k prev s g else None
  | Chr c =>
      match s with
      | String c' s' => if Ascii.eqb c c' then k (Some c') s' g else None
      | EmptyString => None
      end
  | Plus p => plus_cls p s g k
  | Opt r1 =>
      match m r1 prev s g k with
      | Some x => Some x
      | None => k prev s g
      end
  | Seq r1 r2 => m r1 prev s g (fun prev' s' g' => m r2 prev' s' g' k)
  | Alt r1 r2 =>
      match m r1 prev s g k with
      | Some x => Some x
      | None => m r2 prev s g k
      end
  | Grp r1 =>
      m r1 prev s g
        (fun prev' s' _ =>
           k prev' s' (Some (take (String.length s - String.length s') s)))
  end.
End Matcher.

(** A match object, as far as the script looks at it: [group(1)]. *)
Definition match_obj := option string.

(** A match beginning at the given position. *)
Definition match_at (ml : bool) (r : regex) (prev : option ascii) (s : string)
  : option match_obj :=
  m ml r prev s None (fun _ _ g => Some g).

(** The leftmost position from here on at which the pattern matches. *)
Fixpoint search_from (ml : bool) (r : regex) (prev : option ascii) (s : string)
  : option match_obj :=
  match match_at ml r prev s with
  | Some g => Some g
  | None =>
      match s with
      | String c s' => search_from ml r (Some c) s'
      | EmptyString => None
      end
  end.

(** [re.search(r, s, flags)] *)
Definition search (ml : bool) (r : regex) (s : string) : option match_obj :=
  search_from ml r None s.

(** [re.match(r, s)] *)
Definition match_ (r : regex) (s : string) : option match_obj :=
  match_at false r None s.

End Re.

(* ================================================================== *)
(** ** The patterns of the script *)

Import PyStr Re.

(** [r'^go\s+(\d+\.\d+(?:\.\d+)?)'] *)
Definition go_pattern : regex :=
  Cat [Bol; Lit "go"; Plus is_space;
       Grp (Cat [Plus is_digit; Chr "."; Plus is_digit;
                 Opt (Cat [Chr "."; Plus is_digit])])].

(** [r'github\.com/redhat-cne/rest-api\s+(v[\d\.]+)'] *)
Definition rest_api_pattern : regex :=
  Cat [Lit "github.com/redhat-cne/rest-api"; Plus is_space;
       Grp (Cat [Chr "v"; Plus is_digit_or_dot])].

(** [r'github\.com/redhat-cne/sdk-go\s+(v[\d\.]+)'] *)
Definition sdk_go_pattern : regex :=
  Cat [Lit "github.com/redhat-cne/sdk-go"; Plus is_space;
       Grp (Cat [Chr "v"; Plus is_digit_or_dot])].

(** [r'^(v?[\d\.]+|release-[\d\.]+|4\.\d+)$'] *)
Definition tag_pattern : regex :=
  Cat [Bol;
       Grp (Alt (Cat [Opt (Chr "v"); Plus is_digit_or_dot])
                (Alt (Cat [Lit "release-"; Plus is_digit_or_dot])
                     (Cat [Lit "4."; Plus is_digit])));
       Eol].

(** [normalize_version_name] *)
Definition normalize_version_name (tag_name : string) : string :=
  if startswith "v" tag_name then drop 1 tag_name else tag_name.

(** The three searches of [parse_go_mod] on a non-empty text: a field is
    [group(1)] of its match, and [None] without a match. *)
Definition group1 (mo : option match_obj) : option string :=
  match mo with
  | Some g => g
  | None => None
  end.

Definition versions : Type := option string * option string * option string.

Definition parse_go_mod_text (content : string) : versions :=
  let golang_version := group1 (search true go_pattern content) in
  let rest_api_version := group1 (search true rest_api_pattern content) in
  let sdk_go_version := group1 (search true sdk_go_pattern content) in
  (golang_version, rest_api_version, sdk_go_version).

Definition nl : string := String newline EmptyString.

(* ================================================================== *)
(** ** Python values *)

(** What [response.json()] returns. *)
Inductive json : Type :=
| JNull
| JBool (b : bool)
| JNum (n : Z)
| JStr (s : string)
| JArr (l : list json)
| JObj (fields : list (string * json)).

(** The exceptions the script can raise and does not catch. *)
Inductive exn : Type :=
| KeyError | TypeError | AttributeError | ValueError | UnicodeEncodeError.

(** How a call ends. *)
Inductive outcome (A : Type) : Type :=
| Ret (a : A)
| Raise (e : exn)
| OutOfFuel.
Arguments Ret {A} a.
Arguments Raise {A} e.
Arguments OutOfFuel {A}.

(** The hashable values among them: what a [set] can hold and a [dict] can
    have as a key. *)
Inductive scalar : Type :=
| SNone
| SBool (b : bool)
| SInt (n : Z)
| SStr (s : string).

Module Py.

(** [bool(v)] *)
Definition truthy (v : json) : bool :=
  match v with
  | JNull => false
  | JBool b => b
  | JNum n => negb (Z.eqb n 0)
  | JStr s => negb (String.eqb s "")
  | JArr l => match l with [] => false | _ => true end
  | JObj f => match f with [] => false | _ => true end
  end.

Fixpoint chars (s : string) : list json :=
  match s with
  | EmptyString => []
  | String c s' => JStr (String c EmptyString) :: chars s'
  end.

(** [iter(v)]: the elements of a list, the keys of a dict, the characters of
    a string. *)
Definition iter (v : json) : outcome (list json) :=
  match v with
  | JArr l => Ret l
  | JObj f => Ret (map (fun kv => JStr (fst kv)) f)
  | JStr s => Ret (chars s)
  | _ => Raise TypeError
  end.

(** [v[:n]]; a dict cannot be sliced ([TypeError]; from Python 3.12 on the
    slice is looked up as a key and the exception is [KeyError]). *)
Definition slice_to (n : nat) (v : json) : outcome json :=
  match v with
  | JArr l => Ret (JArr (firstn n l))
  | JStr s => Ret (JStr (take n s))
  | _ => Raise TypeError
  end.

Fixpoint lookup (key : string) (f : list (string * json)) : option json :=
  match f with
  | [] => None
  | (k, v) :: f' => if String.eqb k key then Some v else lookup key f'
  end.

(** [v[key]] for a string [key]. *)
Definition subscript (v : json) (key : string) : outcome json :=
  match v with
  | JObj f =>
      match lookup key f with
      | Some x => Ret x
      | None => Raise KeyError
      end
  | _ => Raise TypeError
  end.

(** [v.get(key, default)]; only a dict has the method. *)
Definition get (v : json) (key : string) (default : json) : outcome json :=
  match v with
  | JObj f =>
      match lookup key f with
      | Some x => Ret x
      | None => Ret default
      end
  | _ => Raise AttributeError
  end.

(** [hash(v)], as far as it succeeds. *)
Definition hash (v : json) : outcome scalar :=
  match v with
  | JNull => Ret SNone
  | JBool b => Ret (SBool b)
  | JNum n => Ret (SInt n)
  | JStr s => Ret (SStr s)
  | JArr _ | JObj _ => Raise TypeError
  end.

(** [a == b]: [True] and [False] are the integers 1 and 0. *)
Definition eqb (a b : scalar) : bool :=
  match a, b with
  | SNone, SNone => true
  | SStr s, SStr t => String.eqb s t
  | SBool x, SBool y => Bool.eqb x y
  | SInt x, SInt y => Z.eqb x y
  | SBool x, SInt y | SInt y, SBool x => Z.eqb (if x then 1 else 0) y
  | _, _ => false
  end.

(** [x in s] for a set [s]. *)
Definition mem (x : scalar) (s : list scalar) : bool := existsb (eqb x) s.

(** [str(x)], the text an f-string puts for [x]. *)
Definition str (x : scalar) : string :=
  match x with
  | SNone => "None"
  | SBool true => "True"
  | SBool false => "False"
  | SInt n => PyStr.of_Z n
  | SStr s => s
  end.

End Py.

(* ================================================================== *)
(** ** The environment and the computations *)

Record request : Type := {
  url : string;
  params : list (string * nat)
}.

(** [requests.get] followed by [raise_for_status] and [json()]: a
    [requests.RequestException] (a failed connection, an error status, a
    body that is not JSON), or the decoded body. *)
Inductive response : Type :=
| RequestException (msg : string)
| Body (j : json).

(** Reading [version-notes.txt]: the file is missing, or it yields lines
    and then perhaps fails with another error. *)
Inductive notes_source : Type :=
| FileNotFound
| FileLines (lines : list string) (err : option string).

Record world : Type := {
  (** the answer to a request, given the requests sent before it *)
  http : list request -> request -> response;
  notes_file : notes_source;
  (** [base64.b64decode(s).decode('utf-8')]; [None] where it raises
      [ValueError] *)
  b64decode_utf8 : string -> option string;
  (** whether the encoding of [sys.stdout] has the character; asked from
      U+0080 on, the encodings of a terminal or a pipe ([ascii], [latin-1],
      [utf-8], [cp1252], [cp932], ...) all having U+0000..U+007F *)
  stdout_charset : ascii -> bool
}.

Record io : Type := {
  stderr : list string;
  sent : list request
}.

Definition M (A : Type) : Type := io -> outcome A * io.

Definition ret {A} (a : A) : M A := fun s => (Ret a, s).

Definition bind {A B} (c : M A) (k : A -> M B) : M B :=
  fun s =>
    match c s with
    | (Ret a, s') => k a s'
    | (Raise e, s') => (Raise e, s')
    | (OutOfFuel, s') => (OutOfFuel, s')
    end.

Definition lift {A} (o : outcome A) : M A := fun s => (o, s).

Notation "x <- c ;; k" := (bind c (fun x => k))
  (at level 61, c at next level, right associativity).
Notation "c ;;; k" := (bind c (fun _ => k))
  (at level 61, right associativity).

(** [print(line, file=sys.stderr)] *)
Definition eprint (line : string) : M unit :=
  fun s => (Ret tt, {| stderr := (stderr s ++ [line])%list; sent := sent s |}).

(** [requests.get(url, params=...)] with the two calls that follow it. *)
Definition http_get (w : world) (rq : request) : M response :=
  fun s => (Ret (http w (sent s) rq),
            {| stderr := stderr s; sent := (sent s ++ [rq])%list |}).

(** A [for] loop over a list, threading the variables it assigns. *)
Fixpoint for_each {A S} (body : S -> A -> M S) (l : list A) (s : S) : M S :=
  match l with
  | [] => ret s
  | x :: l' => s' <- body s x ;; for_each body l' s'
  end.

(* ================================================================== *)
(** ** The script *)

(** [repo_url.replace('github.com', 'api.github.com/repos').rstrip('/')] *)
Definition api_url (repo_url : string) : string :=
  rstrip_slash (replace "github.com" "api.github.com/repos" repo_url).

Definition releases_request (repo_url : string) : request :=
  {| url := api_url repo_url ++ "/releases"; params := [] |}.

Definition tags_request (repo_url : string) : request :=
  {| url := api_url repo_url ++ "/tags"; params := [] |}.

(** [get_releases] *)
Definition get_releases (w : world) (repo_url : string) : M json :=
  r <- http_get w (releases_request repo_url) ;;
  match r with
  | Body j => ret j
  | RequestException e =>
      eprint ("Error fetching releases: " ++ e) ;;; ret (JArr [])
  end.

(** [get_tags] *)
Definition get_tags (w : world) (repo_url : string) : M json :=
  r <- http_get w (tags_request repo_url) ;;
  match r with
  | Body j => ret j
  | RequestException e =>
      eprint ("Error fetching tags: " ++ e) ;;; ret (JArr [])
  end.

(** The request for one page of branches. *)
Definition branches_request (repo_url : string) (page : nat) : request :=
  {| url := api_url repo_url ++ "/branches";
     params := [("page", page); ("per_page", 100)] |}.

(** The [while True] loop of [get_branches] inside its [try]; each turn
    costs one unit of fuel. *)
Fixpoint get_branches_from (w : world) (repo_url : string) (fuel : nat)
         (page : nat) (all_branches : list json) : M (list json) :=
  match fuel with
  | O => lift OutOfFuel
  | S fuel' =>
      r <- http_get w (branches_request repo_url page) ;;
      match r with
      | RequestException e =>
          eprint ("Error fetching branches: " ++ e) ;;; ret []
      | Body branches =>
          if negb (Py.truthy branches) then ret all_branches
          else
            items <- lift (Py.iter branches) ;;
            get_branches_from w repo_url fuel' (S page)
                              (all_branches ++ items)%list
      end
  end.

(** [get_branches] *)
Definition get_branches (w : world) (fuel : nat) (repo_url : string)
  : M (list json) :=
  get_branches_from w repo_url fuel 1 [].

(** The request of [get_go_mod_content]. *)
Definition go_mod_request (repo_url : string) (ref : scalar) : request :=
  {| url := api_url repo_url ++ "/contents/go.mod?ref=" ++ Py.str ref;
     params := [] |}.

(** [encoding == 'base64'] *)
Definition is_base64 (encoding : json) : bool :=
  match encoding with
  | JStr s => String.eqb s "base64"
  | _ => false
  end.

(** The body of a contents answer, as [get_go_mod_content] reads it. *)
Definition decode_content (w : world) (content_data : json) : outcome json :=
  match Py.get content_data "encoding" JNull with
  | Ret encoding =>
      if is_base64 encoding then
        match Py.subscript content_data "content" with
        | Ret (JStr c) =>
            match b64decode_utf8 w c with
            | Some text => Ret (JStr text)
            | None => Raise ValueError
            end
        | Ret _ => Raise TypeError
        | Raise e => Raise e
        | OutOfFuel => OutOfFuel
        end
      else Py.get content_data "content" (JStr "")
  | Raise e => Raise e
  | OutOfFuel => OutOfFuel
  end.

(** [get_go_mod_content]; [JNull] is its [None]. *)
Definition get_go_mod_content (w : world) (repo_url : string) (ref : scalar)
  : M json :=
  r <- http_get w (go_mod_request repo_url ref) ;;
  match r with
  | Body content_data => lift (decode_content w content_data)
  | RequestException e =>
      eprint ("Error fetching go.mod for " ++ Py.str ref ++ ": " ++ e) ;;;
      ret JNull
  end.

(** [parse_go_mod] *)
Definition parse_go_mod (content : json) : outcome versions :=
  if negb (Py.truthy content) then Ret (None, None, None)
  else
    match content with
    | JStr text => Ret (parse_go_mod_text text)
    | _ => Raise TypeError
    end.

(** [get_main_branch_info] *)
Definition get_main_branch_info (w : world) (repo_url : string) : M versions :=
  content <- get_go_mod_content w repo_url (SStr "main") ;;
  lift (parse_go_mod content).

(** The notes dict, latest binding of a key first. *)
Definition notes : Type := list (string * string).

(** [notes.get(key, '')] *)
Fixpoint notes_get (ns : notes) (key : scalar) : string :=
  match ns with
  | [] => ""
  | (k, v) :: ns' => if Py.eqb (SStr k) key then v else notes_get ns' key
  end.

(** One turn of the loop over the lines of the notes file. *)
Definition add_note_line (ns : notes) (line : string) : notes :=
  match split_maxsplit1 (strip line) with
  | [version; note] => (version, note) :: ns
  | _ => ns
  end.

(** [load_version_notes] *)
Definition load_version_notes (w : world) (notes_name : string) : M notes :=
  match notes_file w with
  | FileNotFound =>
      eprint ("Warning: " ++ notes_name ++ " not found") ;;; ret []
  | FileLines lines err =>
      let ns := fold_left add_note_line lines [] in
      match err with
      | None => ret ns
      | Some e =>
          eprint ("Error reading " ++ notes_name ++ ": " ++ e) ;;; ret ns
      end
  end.

(** An element of [version_data]. *)
Record entry : Type := {
  proxy_version : scalar;
  golang : string;
  rest_api : string;
  sdk_go : string;
  note : string
}.

(** [v or ''] *)
Definition or_empty (v : option string) : string :=
  match v with
  | Some s => s
  | None => ""
  end.

Definition truthy_opt (v : option string) : bool :=
  match v with
  | Some (String _ _) => true
  | _ => false
  end.

(** [golang_ver or rest_api_ver or sdk_go_ver] as a condition. *)
Definition any_version (v : versions) : bool :=
  let '(golang_ver, rest_api_ver, sdk_go_ver) := v in
  truthy_opt golang_ver || truthy_opt rest_api_ver || truthy_opt sdk_go_ver.

Definition make_entry (name : scalar) (v : versions) (n : string) : entry :=
  let '(golang_ver, rest_api_ver, sdk_go_ver) := v in
  {| proxy_version := name;
     golang := or_empty golang_ver;
     rest_api := or_empty rest_api_ver;
     sdk_go := or_empty sdk_go_ver;
     note := n |}.

(** [normalize_version_name] applied to a value: only a [str] has
    [startswith]. *)
Definition normalize_value (tag_name : scalar) : outcome scalar :=
  match tag_name with
  | SStr s => Ret (SStr (normalize_version_name s))
  | _ => Raise AttributeError
  end.

(** The test of the tag loop, [re.match(tag_pattern, tag_name)]. *)
Definition tag_allowed (tag_name : string) : bool :=
  match match_ tag_pattern tag_name with
  | Some _ => true
  | None => false
  end.

Definition tag_allowed_value (tag_name : scalar) : outcome bool :=
  match tag_name with
  | SStr s => Ret (tag_allowed s)
  | _ => Raise TypeError
  end.

(** The two variables the phases update: [version_data] and
    [processed_refs]. *)
Record acc : Type := {
  version_data : list entry;
  processed_refs : list scalar
}.

Definition append_entry (a : acc) (e : entry) : acc :=
  {| version_data := (version_data a ++ [e])%list;
     processed_refs := processed_refs a |}.

Definition add_processed (a : acc) (name : scalar) : acc :=
  {| version_data := version_data a;
     processed_refs := name :: processed_refs a |}.

(** [tag_to_release = {rel['tag_name']: rel for rel in releases}] *)
Definition tag_to_release_item (d : list (scalar * json)) (rel : json)
  : M (list (scalar * json)) :=
  t <- lift (Py.subscript rel "tag_name") ;;
  k <- lift (Py.hash t) ;;
  ret ((k, rel) :: d).

Definition build_tag_to_release (releases : json) : M (list (scalar * json)) :=
  rels <- lift (Py.iter releases) ;;
  for_each tag_to_release_item rels [].

(** Phase 1: the main branch. *)
Definition main_phase (w : world) (repo_url : string) (a : acc) : M acc :=
  eprint "Processing main branch..." ;;;
  v <- get_main_branch_info w repo_url ;;
  let a1 := if any_version v
            then append_entry a (make_entry (SStr "main") v "")
            else a in
  ret (add_processed a1 (SStr "main")).

(** Phase 2: the body of the loop over the branches. *)
Definition branch_step (w : world) (repo_url : string) (version_notes : notes)
           (a : acc) (branch : json) : M acc :=
  b <- lift (Py.subscript branch "name") ;;
  branch_name <- lift (Py.hash b) ;;
  if Py.mem branch_name (processed_refs a) then ret a
  else
    eprint ("Processing branch " ++ Py.str branch_name ++ "...") ;;;
    content <- get_go_mod_content w repo_url branch_name ;;
    v <- lift (parse_go_mod content) ;;
    let a1 := if any_version v
              then append_entry a
                     (make_entry branch_name v
                                 (notes_get version_notes branch_name))
              else a in
    ret (add_processed a1 branch_name).

(** Phase 3: the body of the loop over the releases. *)
Definition release_step (w : world) (repo_url : string) (version_notes : notes)
           (a : acc) (release : json) : M acc :=
  t <- lift (Py.subscript release "tag_name") ;;
  tag_name <- lift (Py.hash t) ;;
  if Py.mem tag_name (processed_refs a) then ret a
  else
    eprint ("Processing release " ++ Py.str tag_name ++ "...") ;;;
    content <- get_go_mod_content w repo_url tag_name ;;
    v <- lift (parse_go_mod content) ;;
    a1 <- (if any_version v
           then
             shown <- lift (normalize_value tag_name) ;;
             ret (append_entry a
                    (make_entry shown v (notes_get version_notes tag_name)))
           else ret a) ;;
    ret (add_processed a1 tag_name).

(** Phase 4: the body of the loop over the tags. *)
Definition tag_step (w : world) (repo_url : string) (version_notes : notes)
           (a : acc) (tag : json) : M acc :=
  t <- lift (Py.subscript tag "name") ;;
  tag_name <- lift (Py.hash t) ;;
  if Py.mem tag_name (processed_refs a) then ret a
  else
    ok <- lift (tag_allowed_value tag_name) ;;
    if negb ok then ret a
    else
      eprint ("Processing tag " ++ Py.str tag_name ++ "...") ;;;
      content <- get_go_mod_content w repo_url tag_name ;;
      v <- lift (parse_go_mod content) ;;
      a1 <- (if any_version v
             then
               shown <- lift (normalize_value tag_name) ;;
               ret (append_entry a
                      (make_entry shown v (notes_get version_notes tag_name)))
             else ret a) ;;
      ret (add_processed a1 tag_name).

(** The four phases, from the empty [version_data] and [processed_refs]. *)
Definition run_phases (w : world) (repo_url : string) (version_notes : notes)
           (branches : list json) (releases tags : json) : M acc :=
  a1 <- main_phase w repo_url {| version_data := []; processed_refs := [] |} ;;
  eprint ("Processing " ++ PyStr.of_nat (List.length branches)
          ++ " branches...") ;;;
  a2 <- for_each (branch_step w repo_url version_notes) branches a1 ;;
  eprint "Processing releases..." ;;;
  rs <- lift (Py.slice_to 10 releases) ;;
  rl <- lift (Py.iter rs) ;;
  a3 <- for_each (release_step w repo_url version_notes) rl a2 ;;
  eprint "Processing tags..." ;;;
  ts <- lift (Py.slice_to 20 tags) ;;
  tl <- lift (Py.iter ts) ;;
  for_each (tag_step w repo_url version_notes) tl a3.

(** Everything [generate_version_table] does before it renders: the three
    listings, the notes, [tag_to_release] and the four phases. *)
Definition collect_version_data (w : world) (fuel : nat) (repo_url : string)
  : M acc :=
  eprint "Fetching branches, releases and tags..." ;;;
  branches <- get_branches w fuel repo_url ;;
  releases <- get_releases w repo_url ;;
  tags <- get_tags w repo_url ;;
  version_notes <- load_version_notes w "version-notes.txt" ;;
  build_tag_to_release releases ;;;
  run_phases w repo_url version_notes branches releases tags.

Definition table_header : string :=
  "| cloud-event-proxy | golang | rest-api | sdk-go  | note         |" ++ nl
  ++ "| ----------------- | ------ | -------- | ------- | ------------ |" ++ nl.

Definition table_row (e : entry) : string :=
  "| " ++ Py.str (proxy_version e) ++ " | " ++ golang e ++ " | "
  ++ rest_api e ++ " | " ++ sdk_go e ++ " | " ++ note e ++ " |" ++ nl.

Definition no_data : string := "No version data found.".

(** The end of [generate_version_table]: the sentinel, or the table. *)
Definition render_table (vd : list entry) : string :=
  match vd with
  | [] => no_data
  | _ => fold_left (fun table e => table ++ table_row e) vd table_header
  end.

(** [generate_version_table] *)
Definition generate_version_table (w : world) (fuel : nat) (repo_url : string)
  : M string :=
  a <- collect_version_data w fuel repo_url ;;
  ret (render_table (version_data a)).

Definition default_repo_url : string :=
  "https://github.com/redhat-cne/cloud-event-proxy".

(** What a run of the process leaves: what the script printed on both
    streams, and the exit status ([None] while it has not ended). *)
Record run : Type := {
  run_stdout : list string;
  run_stderr : list string;
  exit_code : option Z
}.

(** [sys.argv[1]] if there is one, the default otherwise. *)
Definition repo_url_of (argv : list string) : string :=
  match argv with
  | _ :: a :: _ => a
  | _ => default_repo_url
  end.

(** The encoding of [sys.stdout] has the character. *)
Definition stdout_encodes (w : world) (c : ascii) : bool :=
  (code c <? 128)%nat || stdout_charset w c.

(** [sys.stdout] can encode the text. *)
Fixpoint encodable (w : world) (text : string) : bool :=
  match text with
  | EmptyString => true
  | String c text' => stdout_encodes w c && encodable w text'
  end.

(** [print(text)]: [sys.stdout] encodes the text, then the newline, with
    the error handler [strict]; a character that the encoding lacks raises
    [UnicodeEncodeError] and nothing of the text is written.  (The prints
    to [sys.stderr] cannot fail so: its error handler is
    [backslashreplace].) *)
Definition print (w : world) (text : string) : outcome unit :=
  if encodable w text then Ret tt else Raise UnicodeEncodeError.

(** [main], and the interpreter's handling of what it raises: an uncaught
    exception ends the process with status 1, a normal return with 0. *)
Definition main (w : world) (fuel : nat) (argv : list string) : run :=
  let repo_url := repo_url_of argv in
  let c := eprint ("Generating version table for " ++ repo_url ++ "...") ;;;
           generate_version_table w fuel repo_url in
  match c {| stderr := []; sent := [] |} with
  | (Ret table, s) =>
      match print w table with
      | Ret _ =>
          {| run_stdout := [table]; run_stderr := stderr s;
             exit_code := Some 0%Z |}
      | _ =>
          {| run_stdout := []; run_stderr := stderr s; exit_code := Some 1%Z |}
      end
  | (Raise _, s) =>
      {| run_stdout := []; run_stderr := stderr s; exit_code := Some 1%Z |}
  | (OutOfFuel, s) =>
      {| run_stdout := []; run_stderr := stderr s; exit_code := None |}
  end.

(* ================================================================== *)
(** ** Vocabulary of the statements *)

(** The last character of a text, as a position sees it. *)
Fixpoint last_char (s : string) (prev : option ascii) : option ascii :=
  match s with
  | EmptyString => prev
  | String c s' => last_char s' (Some c)
  end.

Fixpoint all_chars (p : ascii -> bool) (s : string) : bool :=
  match s with
  | EmptyString => true
  | String c s' => p c && all_chars p s'
  end.

(** A non-empty run of characters of the class [p]. *)
Definition run_of (p : ascii -> bool) (s : string) : bool :=
  match s with
  | EmptyString => false
  | _ => all_chars p s
  end.

(** No match of [r] begins at any of the first [n] positions of [s]. *)
Fixpoint no_match_before (ml : bool) (r : regex) (prev : option ascii)
         (s : string) (n : nat) : bool :=
  match n with
  | O => true
  | S n' =>
      match match_at ml r prev s with
      | Some _ => false
      | None =>
          match s with
          | String c s' => no_match_before ml r (Some c) s' n'
          | EmptyString => true
          end
      end
  end.

(** The text does not go on with a further digit or a further component of
    a dotted version. *)
Definition ends_version (post : string) : bool :=
  match post with
  | EmptyString => true
  | String c rest =>
      negb (is_digit c)
      && negb (Ascii.eqb c "."
               && match rest with
                  | String d _ => is_digit d
                  | EmptyString => false
                  end)
  end.

(** The components of a dotted text. *)
Fixpoint split_dots (s : string) : list string :=
  match s with
  | EmptyString => [EmptyString]
  | String c s' =>
      if Ascii.eqb c "." then EmptyString :: split_dots s'
      else match split_dots s' with
           | [] => [String c EmptyString]
           | w :: ws => String c w :: ws
           end
  end.

(** A dotted numeric version of two or three components. *)
Definition dotted_2_or_3 (v : string) : bool :=
  let cs := split_dots v in
  ((List.length cs =? 2)%nat || (List.length cs =? 3)%nat)
  && forallb (run_of is_digit) cs.

(** The text without the one newline that may end it. *)
Fixpoint chomp (s : string) : string :=
  match s with
  | EmptyString => EmptyString
  | String c s' =>
      match s' with
      | EmptyString => if Ascii.eqb c newline then EmptyString else s
      | _ => String c (chomp s')
      end
  end.

(** The allow-pattern of the tag phase in the words of the specification:
    purely numeric/dotted (optionally [v]-prefixed), or
    [release-<dotted-numeric>], or [4.<number>]. *)
Definition spec_tag_allowed (s : string) : bool :=
  run_of is_digit_or_dot s
  || (startswith "v" s && run_of is_digit_or_dot (drop 1 s))
  || (startswith "release-" s && run_of is_digit_or_dot (drop 8 s))
  || (startswith "4." s && run_of is_digit (drop 2 s)).

Definition is_some {A} (o : option A) : bool :=
  match o with
  | Some _ => true
  | None => false
  end.

Definition rest_api_line : string :=
  "github.com/redhat-cne/rest-api v1.2.3-rc1".

(** The state after the requests for [n] pages from page [p] on. *)
Definition after_pages (repo_url : string) (p n : nat) (s : io) : io :=
  {| stderr := stderr s;
     sent := (sent s ++ map (branches_request repo_url) (seq p n))%list |}.

(** The answers to the requests for the pages from [p] on are the
    non-empty lists [pages], in this order. *)
Definition serves_pages (w : world) (repo_url : string) (p : nat)
           (pages : list (list json)) (s : io) : Prop :=
  forall i page,
    nth_error pages i = Some page ->
    page <> []
    /\ http w (sent (after_pages repo_url p i s))
              (branches_request repo_url (p + i))
       = Body (JArr page).

(** The name of a listed item as the loops read it: [item[key]], hashed
    by the membership test. *)
Definition item_name (key : string) (item : json) : outcome scalar :=
  match Py.subscript item key with
  | Ret v => Py.hash v
  | Raise e => Raise e
  | OutOfFuel => OutOfFuel
  end.

(** The names a listing gives. *)
Fixpoint names (key : string) (items : list json) : list scalar :=
  match items with
  | [] => []
  | item :: items' =>
      match item_name key item with
      | Ret n => n :: names key items'
      | _ => names key items'
      end
  end.

(** The items of [v[:n]]. *)
Definition first_items (n : nat) (v : json) : list json :=
  match Py.slice_to n v with
  | Ret v' => match Py.iter v' with Ret l => l | _ => [] end
  | _ => []
  end.

(** What one turn of a phase loop does for the item named [name]. *)
Inductive step_result (version_notes : notes)
          (shown : scalar -> outcome scalar) (check : scalar -> outcome bool)
          (name : scalar) (a a' : acc) : Prop :=
| step_seen :
    Py.mem name (processed_refs a) = true -> a' = a ->
    step_result version_notes shown check name a a'
| step_rejected :
    Py.mem name (processed_refs a) = false -> check name = Ret false ->
    a' = a ->
    step_result version_notes shown check name a a'
| step_marked :
    Py.mem name (processed_refs a) = false -> check name = Ret true ->
    a' = add_processed a name ->
    step_result version_notes shown check name a a'
| step_recorded d v :
    Py.mem name (processed_refs a) = false -> check name = Ret true ->
    shown name = Ret d ->
    a' = add_processed
           (append_entry a (make_entry d v (notes_get version_notes name)))
           name ->
    step_result version_notes shown check name a a'.

Definition always (_ : scalar) : outcome bool := Ret true.

Definition as_is (name : scalar) : outcome scalar := Ret name.

(** Python's equality on hashable values is Leibniz equality once [True]
    and [False] are read as 1 and 0. *)
Definition as_number (x : scalar) : scalar :=
  match x with
  | SBool b => SInt (if b then 1 else 0)
  | _ => x
  end.

(** What a phase that leads from [a] to [a'] has done with the names
    [listed]; [raws] are the names it made records for, in order. *)
Record phase_spec (ns : notes) (shown : scalar -> outcome scalar)
       (check : scalar -> outcome bool) (listed : list scalar)
       (a a' : acc) (raws : list scalar) (es : list entry) : Prop := {
  ph_data : version_data a' = (version_data a ++ es)%list;
  ph_records :
    Forall2 (fun x e => shown x = Ret (proxy_version e)
                        /\ note e = notes_get ns x) raws es;
  ph_nodup : NoDup raws;
  ph_new : forall x, In x raws ->
             In x listed /\ Py.mem x (processed_refs a) = false
             /\ check x = Ret true;
  ph_mono : forall y, Py.mem y (processed_refs a) = true ->
              Py.mem y (processed_refs a') = true;
  ph_keep : forall y, In y (processed_refs a) -> In y (processed_refs a');
  ph_marked : forall x, In x raws -> In x (processed_refs a');
  ph_covered : forall y, In y listed -> check y = Ret true ->
                 Py.mem y (processed_refs a') = true
}.

(** The outcome of the four phases: the names that got a record in each
    phase ([pm], [pb], [pr], [pt]) and their records. *)
Record assembly (ns : notes) (branches : list json) (releases tags : json)
       (a : acc) (pm pb pr pt : list scalar) (em eb er et : list entry)
  : Prop := {
  asm_data : version_data a = (em ++ eb ++ er ++ et)%list;
  asm_main :
    Forall2 (fun x e => proxy_version e = x /\ note e = "") pm em;
  asm_branches :
    Forall2 (fun x e => as_is x = Ret (proxy_version e)
                        /\ note e = notes_get ns x) pb eb;
  asm_releases :
    Forall2 (fun x e => normalize_value x = Ret (proxy_version e)
                        /\ note e = notes_get ns x) pr er;
  asm_tags :
    Forall2 (fun x e => normalize_value x = Ret (proxy_version e)
                        /\ note e = notes_get ns x) pt et;
  asm_nodup : NoDup (pm ++ pb ++ pr ++ pt);
  asm_main_name : incl pm [SStr "main"];
  asm_branch_names :
    forall x, In x pb ->
      In x (names "name" branches) /\ Py.mem x [SStr "main"] = false;
  asm_release_names :
    forall x, In x pr ->
      In x (names "tag_name" (first_items 10 releases))
      /\ Py.mem x (SStr "main" :: names "name" branches) = false;
  asm_tag_names :
    forall x, In x pt ->
      In x (names "name" (first_items 20 tags))
      /\ tag_allowed_value x = Ret true
      /\ Py.mem x (SStr "main" :: names "name" branches
                   ++ names "tag_name" (first_items 10 releases))%list
         = false
}.

Fixpoint params_eqb (a b : list (string * nat)) : bool :=
  match a, b with
  | [], [] => true
  | (k, v) :: a', (k', v') :: b' =>
      String.eqb k k' && Nat.eqb v v' && params_eqb a' b'
  | _, _ => false
  end.

Definition request_eqb (a b : request) : bool :=
  String.eqb (url a) (url b) && params_eqb (params a) (params b).

(** A server that answers from a table and has nothing else. *)
Fixpoint answer (table : list (request * response)) (rq : request)
  : response :=
  match table with
  | [] => RequestException "404 Client Error: Not Found"
  | (q, r) :: table' => if request_eqb q rq then r else answer table' rq
  end.

Definition demo_repo : string :=
  "https://github.com/redhat-cne/cloud-event-proxy/".

Definition named (key name : string) : json := JObj [(key, JStr name)].

(** Two branches, the release [v1.2.3], and the tags [1.2.3], [v1.2.3] and
    [feature-x]; the manifest of the release is served in base64, the
    others as text; the notes file has a line for [main]. *)
Definition demo_world : world :=
  {| http := fun _ =>
       answer
         [ (branches_request demo_repo 1,
            Body (JArr [named "name" "main"; named "name" "release-4.18"]));
           (branches_request demo_repo 2, Body (JArr []));
           (releases_request demo_repo,
            Body (JArr [named "tag_name" "v1.2.3"]));
           (tags_request demo_repo,
            Body (JArr [named "name" "1.2.3"; named "name" "v1.2.3";
                        named "name" "feature-x"]));
           (go_mod_request demo_repo (SStr "main"),
            Body (JObj [("content", JStr ("go 1.22" ++ nl))]));
           (go_mod_request demo_repo (SStr "release-4.18"),
            Body (JObj [("content",
                         JStr ("go 1.20" ++ nl
                               ++ "github.com/redhat-cne/sdk-go v1.0.0"))]));
           (go_mod_request demo_repo (SStr "v1.2.3"),
            Body (JObj [("encoding", JStr "base64");
                        ("content", JStr "Z28gMS4yMAo=")]));
           (go_mod_request demo_repo (SStr "1.2.3"),
            Body (JObj [("content",
                         JStr ("go 1.21" ++ nl
                               ++ "github.com/redhat-cne/sdk-go v0.1.0"))])) ];
     notes_file :=
       FileLines ["main  the trunk " ++ nl; "release-4.18 maintained" ++ nl;
                  "v1.2.3 first"; "  "; "lonely" ++ nl] None;
     (* the one value of the decoder this run asks for *)
     b64decode_utf8 := fun s =>
       if String.eqb s "Z28gMS4yMAo=" then Some ("go 1.20" ++ nl) else None;
     stdout_charset := fun _ => true |}.

Definition start : io := {| stderr := []; sent := [] |}.

Definition demo_notes : notes :=
  [("v1.2.3", "first"); ("release-4.18", "maintained"); ("main", "the trunk")].

Definition demo_branches : list json :=
  [named "name" "main"; named "name" "release-4.18"].

Definition demo_releases : json := JArr [named "tag_name" "v1.2.3"].

Definition demo_tags : json :=
  JArr [named "name" "1.2.3"; named "name" "v1.2.3"; named "name" "feature-x"].

(** The computation returns from [s], with a value and a state in [Q]. *)
Definition returns {A} (c : M A) (s : io) (Q : A -> io -> Prop) : Prop :=
  exists a s', c s = (Ret a, s') /\ Q a s'.

(** A text, or a value that [parse_go_mod] takes for no content. *)
Definition parsable (c : json) : bool :=
  negb (Py.truthy c) || match c with JStr _ => true | _ => false end.

(** An item of a listing with a text under [key]. *)
Definition named_item (key : string) (item : json) : bool :=
  match Py.subscript item key with
  | Ret (JStr _) => true
  | _ => false
  end.

(** A listing answer of the expected shape: a failure, or a list of items
    named under [key]. *)
Definition listing_ok (key : string) (r : response) : bool :=
  match r with
  | RequestException _ => true
  | Body (JArr l) => forallb (named_item key) l
  | Body _ => false
  end.

(** A contents answer of the expected shape: a failure, or an object whose
    content is absent or parsable, or marked base64 and decodable. *)
Definition content_ok (w : world) (r : response) : bool :=
  match r with
  | RequestException _ => true
  | Body (JObj f) =>
      if is_base64 match Py.lookup "encoding" f with
                   | Some e => e
                   | None => JNull
                   end
      then match Py.lookup "content" f with
           | Some (JStr c) => is_some (b64decode_utf8 w c)
           | _ => false
           end
      else match Py.lookup "content" f with
           | Some c => parsable c
           | None => true
           end
  | Body _ => false
  end.

(** The answers of the server have the expected shapes. *)
Record well_shaped (w : world) (repo_url : string) : Prop := {
  ws_branches : forall h page,
      listing_ok "name" (http w h (branches_request repo_url page)) = true;
  ws_releases : forall h,
      listing_ok "tag_name" (http w h (releases_request repo_url)) = true;
  ws_tags : forall h,
      listing_ok "name" (http w h (tags_request repo_url)) = true;
  ws_contents : forall h name,
      content_ok w (http w h (go_mod_request repo_url (SStr name))) = true
}.

(** The request for page [n + 1] of the branches fails or gets nothing. *)
Definition pages_end (w : world) (repo_url : string) (n : nat) : Prop :=
  forall h,
    match http w h (branches_request repo_url (S n)) with
    | RequestException _ => True
    | Body j => Py.truthy j = false
    end.

(** A listing is a list of items named under [key]. *)
Definition listing (key : string) (j : json) : Prop :=
  exists l, j = JArr l /\ Forall (fun i => named_item key i = true) l.

(** A server whose list of releases holds an object without [tag_name]. *)
Definition nameless_release_world : world :=
  {| http := fun _ =>
       answer [(releases_request demo_repo, Body (JArr [JObj []]))];
     notes_file := FileNotFound;
     b64decode_utf8 := fun _ => None;
     stdout_charset := fun _ => true |}.

(** The answer carries the manifest [text]. *)
Definition manifest_of (w : world) (r : response) (text : string) : Prop :=
  exists content_data,
    r = Body content_data /\ decode_content w content_data = Ret (JStr text).

(** None of the three patterns matches anywhere in the text. *)
Definition no_pattern_matches (text : string) : Prop :=
  search true go_pattern text = None
  /\ search true rest_api_pattern text = None
  /\ search true sdk_go_pattern text = None.

(** A repository without branches, releases and tags, whose main manifest
    names only its module. *)
Definition quiet_world : world :=
  {| http := fun _ =>
       answer
         [ (branches_request demo_repo 1, Body (JArr []));
           (releases_request demo_repo, Body (JArr []));
           (tags_request demo_repo, Body (JArr []));
           (go_mod_request demo_repo (SStr "main"),
            Body (JObj [("content", JStr ("module m" ++ nl))])) ];
     notes_file := FileNotFound;
     b64decode_utf8 := fun _ => None;
     stdout_charset := fun _ => true |}.

(** The state after a diagnostic. *)
Definition logged (line : string) (s : io) : io :=
  {| stderr := (stderr s ++ [line])%list; sent := sent s |}.

(** The state after a request. *)
Definition requested (rq : request) (s : io) : io :=
  {| stderr := stderr s; sent := (sent s ++ [rq])%list |}.

(** The tag name [1.0] followed by a line feed. *)
Definition tag_with_newline : string := "1.0" ++ nl.

(** The state in which [main] calls [generate_version_table]. *)
Definition main_start (argv : list string) : io :=
  {| stderr := ["Generating version table for " ++ repo_url_of argv ++ "..."];
     sent := [] |}.

(** The text [caf] followed by U+00E9. *)
Definition cafe : string := "caf" ++ String (ascii_of_nat 233) EmptyString.

(** A repository whose one branch besides [main] is named with a letter
    outside ASCII, and a standard output that encodes ASCII only. *)
Definition ascii_stdout_world : world :=
  {| http := fun _ =>
       answer
         [ (branches_request demo_repo 1, Body (JArr [named "name" cafe]));
           (branches_request demo_repo 2, Body (JArr []));
           (releases_request demo_repo, Body (JArr []));
           (tags_request demo_repo, Body (JArr []));
           (go_mod_request demo_repo (SStr cafe),
            Body (JObj [("content", JStr ("go 1.22" ++ nl))])) ];
     notes_file := FileNotFound;
     b64decode_utf8 := fun _ => None;
     stdout_charset := fun _ => false |}.

(** The tag pattern without its third alternative,
    [r'^(v?[\d\.]+|release-[\d\.]+)$']. *)
Definition tag_pattern_without_third : regex :=
  Cat [Bol;
       Grp (Alt (Cat [Opt (Chr "v"); Plus is_digit_or_dot])
                (Cat [Lit "release-"; Plus is_digit_or_dot]));
       Eol].

(** A non-empty text without whitespace. *)
Definition word (s : string) : bool :=
  run_of (fun c => negb (is_space c)) s.

(** A non-empty text that neither begins nor ends with whitespace. *)
Definition trimmed (s : string) : bool :=
  match s with
  | EmptyString => false
  | String c _ =>
      negb (is_space c)
      && match last_char s None with
         | Some d => negb (is_space d)
         | None => false
         end
  end.

(** A request of the script for the repository: a page of its branches,
    its releases, its tags, or the manifest at a ref. *)
Definition api_request (repo_url : string) (rq : request) : Prop :=
  (exists page, rq = branches_request repo_url page)
  \/ rq = releases_request repo_url
  \/ rq = tags_request repo_url
  \/ exists ref, rq = go_mod_request repo_url ref.

(** However the computation ends, the requests it sends are in [P]. *)
Definition sends_only (P : request -> Prop) {A} (c : M A) : Prop :=
  forall s, exists rqs,
    sent (snd (c s)) = (sent s ++ rqs)%list /\ Forall P rqs.

(** A binding of the notes map: a word, and a text without whitespace
    around it. *)
Definition note_binding (kv : string * string) : Prop :=
  word (fst kv) = true /\ trimmed (snd kv) = true.

(** The rows of a table, one after the other. *)
Fixpoint table_rows (vd : list entry) : string :=
  match vd with
  | [] => EmptyString
  | e :: vd' => table_row e ++ table_rows vd'
  end.

(* ================================================================== *)
(** ** The patterns at work *)

Example go_121 :
  parse_go_mod_text ("module x" ++ nl ++ nl ++ "go 1.21" ++ nl)
  = (Some "1.21", None, None).
Proof. reflexivity. Qed.

Example go_first :
  parse_go_mod_text ("go 1.20" ++ nl ++ "go 1.21.3" ++ nl ++
     "  github.com/redhat-cne/rest-api v1.2.3-rc1" ++ nl ++
     "  github.com/redhat-cne/sdk-go v0.1.0 // indirect")
  = (Some "1.20", Some "v1.2.3", Some "v0.1.0").
Proof. reflexivity. Qed.

Example tag_examples :
  map (fun s => match match_ tag_pattern s with Some _ => true | None => false end)
      ["v1.0.0"; "feature-x"; "release-4.18"; "4.19"; "1.0" ++ nl; "v"; "";
       "1.0" ++ nl ++ nl; "release-"; "v1.0-rc"]
  = [true; false; true; true; true; false; false; false; false; false].
Proof. reflexivity. Qed.

(* ================================================================== *)
(** ** Strings *)

Lemma append_nil_r (s : string) : s ++ "" = s.
Proof. induction s; simpl; congruence. Qed.

Lemma append_assoc' (a b c : string) : (a ++ b) ++ c = a ++ b ++ c.
Proof. induction a; simpl; congruence. Qed.

Lemma length_append (a b : string) :
  String.length (a ++ b) = String.length a + String.length b.
Proof. induction a; simpl; congruence. Qed.

Lemma take_append_exact (a b : string) :
  take (String.length (a ++ b) - String.length b) (a ++ b) = a.
Proof.
  rewrite length_append.
  replace (String.length a + String.length b - String.length b)
    with (String.length a) by lia.
  induction a; simpl.
  - destruct b; reflexivity.
  - congruence.
Qed.

Lemma prefix_split (l s : string) :
  String.prefix l s = true -> s = l ++ drop (String.length l) s.
Proof.
  revert s; induction l as [|c l IH]; intros s H.
  - reflexivity.
  - destruct s as [|d s]; simpl in H; [discriminate|].
    destruct (ascii_dec c d) as [->|]; [|discriminate].
    simpl. f_equal. auto.
Qed.

Lemma prefix_append (l t : string) : String.prefix l (l ++ t) = true.
Proof.
  induction l as [|c l IH]; simpl.
  - destruct t; reflexivity.
  - destruct (ascii_dec c c); congruence.
Qed.

Lemma drop_append (l t : string) : drop (String.length l) (l ++ t) = t.
Proof. induction l; simpl; auto. Qed.

Lemma all_chars_append p (a b : string) :
  all_chars p (a ++ b) = all_chars p a && all_chars p b.
Proof. induction a; simpl; [reflexivity|]. rewrite IHa. apply andb_assoc. Qed.

(* ================================================================== *)
(** ** How the matcher runs *)

Section MatcherFacts.
Variable ml : bool.
Variable R : Type.
Implicit Types (k : kont R) (s : string) (g : option string).

(** A literal is matched by comparing it with the text. *)
Lemma m_Lit (l : string) prev s g k :
  m ml (Lit l) prev s g k
  = if String.prefix l s
    then k (last_char l prev) (drop (String.length l) s) g
    else None.
Proof.
  revert prev s; induction l as [|c l IH]; intros prev s.
  - destruct s; reflexivity.
  - destruct s as [|d s]; simpl; [reflexivity|].
    destruct (ascii_dec c d) as [->|ne].
    + rewrite Ascii.eqb_refl. apply IH.
    + destruct (Ascii.eqb_spec c d); [contradiction|reflexivity].
Qed.

(** A repetition that succeeds took a non-empty run of its class and left
    the rest to its continuation. *)
Lemma plus_cls_inv p s g k x :
  plus_cls p s g k = Some x ->
  exists run rest,
    s = run ++ rest /\ run_of p run = true
    /\ k (last_char run None) rest g = Some x.
Proof.
  revert x; induction s as [|c s IH]; intros x H; simpl in H.
  - discriminate.
  - destruct (p c) eqn:Hc; [|discriminate].
    destruct (plus_cls p s g k) as [y|] eqn:Hs.
    + destruct (IH y eq_refl) as (run & rest & -> & Hrun & Hk).
      exists (String c run), rest. split; [reflexivity|].
      split.
      * simpl. rewrite Hc. destruct run; [discriminate|exact Hrun].
      * inversion H; subst y.
        destruct run; [discriminate|]. exact Hk.
    + exists (String c ""), s. simpl. rewrite Hc. auto.
Qed.

(** A repetition fails at a text that does not begin in its class. *)
Lemma plus_cls_stop p s g k :
  match s with String c _ => p c = false | EmptyString => True end ->
  plus_cls p s g k = None.
Proof. destruct s; simpl; intros H; [reflexivity|now rewrite H]. Qed.

(** A repetition takes the whole run before a text at which it stops,
    when its continuation accepts there. *)
Lemma plus_cls_run p run rest g k x :
  run_of p run = true ->
  match rest with String c _ => p c = false | EmptyString => True end ->
  k (last_char run None) rest g = Some x ->
  plus_cls p (run ++ rest) g k = Some x.
Proof.
  induction run as [|c run IH]; intros Hrun Hrest Hk; [discriminate|].
  simpl in Hrun |- *.
  apply andb_true_iff in Hrun as [Hc Hall]. rewrite Hc.
  destruct run as [|d run].
  - simpl. rewrite (plus_cls_stop p rest g k Hrest). exact Hk.
  - rewrite IH; auto.
Qed.
End MatcherFacts.

(** Skipping the positions at which nothing matches. *)
Lemma search_from_skip ml r (pre s : string) prev :
  no_match_before ml r prev (pre ++ s) (String.length pre) = true ->
  search_from ml r prev (pre ++ s) = search_from ml r (last_char pre prev) s.
Proof.
  revert prev; induction pre as [|c pre IH]; intros prev H; simpl in *.
  - reflexivity.
  - destruct (match_at ml r prev (String c (pre ++ s))); [discriminate|].
    apply IH, H.
Qed.

(** A search that succeeds found its match at some position. *)
Lemma search_from_inv ml r s prev g :
  search_from ml r prev s = Some g ->
  exists prev' s', match_at ml r prev' s' = Some g.
Proof.
  revert prev; induction s as [|c s IH]; intros prev H; simpl in H.
  - destruct (match_at ml r prev "") eqn:E; [|discriminate].
    inversion H; subst. eauto.
  - destruct (match_at ml r prev (String c s)) eqn:E.
    + inversion H; subst. eauto.
    + eapply IH, H.
Qed.

(* ================================================================== *)
(** ** The patterns of [parse_go_mod] *)

Lemma digit_not_space c : is_digit c = true -> is_space c = false.
Proof.
  unfold is_digit, is_space. intros H.
  apply andb_true_iff in H as [H1 H2].
  apply Nat.leb_le in H1, H2.
  repeat (apply orb_false_iff; split);
    try (apply andb_false_iff); try (apply Nat.eqb_neq; lia).
  - right. apply Nat.leb_gt. lia.
  - right. apply Nat.leb_gt. lia.
Qed.

Lemma run_head p s :
  run_of p s = true -> exists c s', s = String c s' /\ p c = true.
Proof.
  destruct s as [|c s']; [discriminate|]. simpl. intros H.
  apply andb_true_iff in H as [H _]. eauto.
Qed.

Lemma run_all p s : run_of p s = true -> all_chars p s = true.
Proof. destruct s; [discriminate|auto]. Qed.

Lemma ends_version_head post :
  ends_version post = true ->
  match post with String c _ => is_digit c = false | EmptyString => True end.
Proof.
  destruct post as [|c r]; [trivial|]. simpl. intros H.
  apply andb_true_iff in H as [H _]. now apply negb_true_iff in H.
Qed.

(** The go directive with a version of two components, at a line start. *)
Lemma go_match_two prev ws d1 d2 post :
  at_bol true prev = true ->
  run_of is_space ws = true ->
  run_of is_digit d1 = true -> run_of is_digit d2 = true ->
  ends_version post = true ->
  match_at true go_pattern prev ("go" ++ ws ++ d1 ++ "." ++ d2 ++ post)
  = Some (Some (d1 ++ "." ++ d2)).
Proof.
  intros Hb Hws Hd1 Hd2 He.
  unfold match_at, go_pattern. cbn [Cat m]. rewrite Hb, m_Lit.
  rewrite prefix_append, drop_append.
  apply plus_cls_run; [exact Hws| |].
  { destruct (run_head _ _ Hd1) as (c & s' & -> & Hc). simpl.
    now apply digit_not_space. }
  apply plus_cls_run; [exact Hd1|reflexivity|].
  cbn [append]. rewrite Ascii.eqb_refl.
  apply plus_cls_run; [exact Hd2|now apply ends_version_head|].
  replace (d1 ++ String "." (d2 ++ post)) with ((d1 ++ String "." d2) ++ post)
    by (rewrite append_assoc'; reflexivity).
  rewrite take_append_exact.
  destruct post as [|c r]; [reflexivity|].
  simpl in He. apply andb_true_iff in He as [_ He].
  destruct (Ascii.eqb_spec "." c) as [<-|]; [|reflexivity].
  simpl in He. rewrite plus_cls_stop; [reflexivity|].
  destruct r; [trivial|]. now apply negb_true_iff in He.
Qed.

Lemma split_dots_digits d :
  all_chars is_digit d = true -> split_dots d = [d].
Proof.
  induction d as [|c d IH]; simpl; intros H; [reflexivity|].
  apply andb_true_iff in H as [Hc Hd].
  destruct (Ascii.eqb_spec c ".") as [->|]; [discriminate|].
  now rewrite IH.
Qed.

Lemma split_dots_component d t :
  all_chars is_digit d = true ->
  split_dots (d ++ String "." t) = d :: split_dots t.
Proof.
  induction d as [|c d IH]; simpl; intros H; [reflexivity|].
  apply andb_true_iff in H as [Hc Hd].
  destruct (Ascii.eqb_spec c ".") as [->|]; [discriminate|].
  now rewrite IH.
Qed.

Lemma dotted_two d1 d2 :
  run_of is_digit d1 = true -> run_of is_digit d2 = true ->
  dotted_2_or_3 (d1 ++ String "." d2) = true.
Proof.
  intros H1 H2. unfold dotted_2_or_3.
  rewrite split_dots_component, split_dots_digits by now apply run_all.
  simpl. now rewrite H1, H2.
Qed.

Lemma dotted_three d1 d2 d3 :
  run_of is_digit d1 = true -> run_of is_digit d2 = true ->
  run_of is_digit d3 = true ->
  dotted_2_or_3 (d1 ++ String "." (d2 ++ String "." d3)) = true.
Proof.
  intros H1 H2 H3. unfold dotted_2_or_3.
  rewrite !split_dots_component, split_dots_digits by now apply run_all.
  simpl. now rewrite H1, H2, H3.
Qed.

(** What the go directive pattern captures, wherever it matches. *)
Lemma go_match_inv prev s g :
  match_at true go_pattern prev s = Some g ->
  exists v, g = Some v /\ dotted_2_or_3 v = true.
Proof.
  unfold match_at, go_pattern. cbn [Cat m].
  destruct (at_bol true prev); [|discriminate].
  rewrite m_Lit. destruct (String.prefix "go" s); [|discriminate].
  intros H.
  apply plus_cls_inv in H as (ws & r0 & _ & _ & H).
  apply plus_cls_inv in H as (d1 & r1 & -> & Hd1 & H).
  destruct r1 as [|c r1]; [discriminate|].
  destruct (Ascii.eqb_spec "." c) as [<-|]; [|discriminate].
  apply plus_cls_inv in H as (d2 & r2 & -> & Hd2 & H).
  match type of H with
  | match ?inner with _ => _ end = _ => destruct inner as [x|] eqn:Hin
  end.
  - destruct r2 as [|c2 r2]; [discriminate|].
    destruct (Ascii.eqb_spec "." c2) as [<-|]; [|discriminate].
    apply plus_cls_inv in Hin as (d3 & r3 & -> & Hd3 & Hin).
    inversion H; subst g. inversion Hin; subst x.
    replace (d1 ++ String "." (d2 ++ String "." (d3 ++ r3)))
      with ((d1 ++ String "." (d2 ++ String "." d3)) ++ r3)
      by (rewrite !append_assoc'; simpl; rewrite !append_assoc'; reflexivity).
    rewrite take_append_exact. eexists; split; [reflexivity|].
    now apply dotted_three.
  - inversion H; subst g.
    replace (d1 ++ String "." (d2 ++ r2))
      with ((d1 ++ String "." d2) ++ r2)
      by (rewrite append_assoc'; reflexivity).
    rewrite take_append_exact. eexists; split; [reflexivity|].
    now apply dotted_two.
Qed.

(** A dependency line: the module path, whitespace, [v] and the maximal run
    of digits and dots. *)
Lemma dep_match (path : string) prev ws ver post :
  run_of is_space ws = true ->
  run_of is_digit_or_dot ver = true ->
  match post with
  | String c _ => is_digit_or_dot c = false
  | EmptyString => True
  end ->
  match_at true
    (Cat [Lit path; Plus is_space; Grp (Cat [Chr "v"; Plus is_digit_or_dot])])
    prev (path ++ ws ++ "v" ++ ver ++ post)
  = Some (Some ("v" ++ ver)).
Proof.
  intros Hws Hver Hpost.
  unfold match_at. cbn [Cat m]. rewrite m_Lit.
  rewrite prefix_append, drop_append.
  apply plus_cls_run; [exact Hws|reflexivity|].
  cbn [append]. rewrite Ascii.eqb_refl.
  apply plus_cls_run; [exact Hver|exact Hpost|].
  change (String "v" (ver ++ post)) with (String "v" ver ++ post).
  now rewrite take_append_exact.
Qed.

Lemma text_truthy (a b c : string) :
  b <> "" -> Py.truthy (JStr (a ++ b ++ c)) = true.
Proof.
  intros Hb. simpl. destruct a; simpl; [|reflexivity].
  destruct b; [contradiction|reflexivity].
Qed.

(** C7: [normalize_version_name] removes one leading [v] from a name that
    starts with [v] and returns every other name unchanged; so
    [normalize("v1.2.3") == "1.2.3"], [normalize("1.2.3") == "1.2.3"] and
    [normalize("main") == "main"]. *)
Theorem normalize_version_name_strips_one_v :
  (forall s, normalize_version_name ("v" ++ s) = s)
  /\ (forall s, startswith "v" s = false -> normalize_version_name s = s)
  /\ normalize_version_name "v1.2.3" = "1.2.3"
  /\ normalize_version_name "1.2.3" = "1.2.3"
  /\ normalize_version_name "main" = "main".
Proof.
  split; [intros s; now destruct s|].
  split; [|repeat split].
  intros s H. unfold normalize_version_name. now rewrite H.
Qed.

Lemma normalize_version_name_strips_one_v_witness :
  startswith "v" "release-v4" = false
  /\ normalize_version_name "release-v4" = "release-v4".
Proof.
  split; [reflexivity|].
  apply (proj1 (proj2 normalize_version_name_strips_one_v)). reflexivity.
Defined.

(** C3, as stated, fails: a text that contains a line-anchored [go 1.21]
    directive after a line [go 1.20] yields [1.20]. *)
Lemma go_121_not_always_found :
  ~ (forall pre post,
        at_bol true (last_char pre None) = true ->
        ends_version post = true ->
        exists r s,
          parse_go_mod (JStr (pre ++ "go 1.21" ++ post))
          = Ret (Some "1.21", r, s)).
Proof.
  intros H.
  destruct (H ("go 1.20" ++ nl) nl eq_refl eq_refl) as (r & s & E).
  vm_compute in E. discriminate E.
Qed.

Lemma search_from_here ml r prev s g :
  match_at ml r prev s = Some g -> search_from ml r prev s = Some g.
Proof. intros H. destruct s; simpl; now rewrite H. Qed.

Lemma go_match_needs_text prev : match_at true go_pattern prev "" = None.
Proof. unfold match_at, go_pattern. cbn. now destruct (at_bol true prev). Qed.

(** C3 (amended): the runtime version [parse_go_mod] returns is what the
    go directive pattern captures at the first position of the manifest at
    which it matches; so when no earlier position matches, a line-anchored
    [go 1.21] directive makes it return [1.21]; and whatever runtime
    version it returns is a dotted numeric version of two or three
    components. *)
Theorem parse_go_mod_first_go_directive :
  (forall pre rest g,
      no_match_before true go_pattern None (pre ++ rest)
                      (String.length pre) = true ->
      match_at true go_pattern (last_char pre None) rest = Some g ->
      exists r s, parse_go_mod (JStr (pre ++ rest)) = Ret (g, r, s))
  /\ (forall pre post,
         at_bol true (last_char pre None) = true ->
         no_match_before true go_pattern None (pre ++ "go 1.21" ++ post)
                         (String.length pre) = true ->
         ends_version post = true ->
         exists r s,
           parse_go_mod (JStr (pre ++ "go 1.21" ++ post))
           = Ret (Some "1.21", r, s))
  /\ (forall content v r s,
         parse_go_mod content = Ret (Some v, r, s) ->
         dotted_2_or_3 v = true).
Proof.
  assert (first_match : forall pre rest g,
             no_match_before true go_pattern None (pre ++ rest)
                             (String.length pre) = true ->
             match_at true go_pattern (last_char pre None) rest = Some g ->
             exists r s, parse_go_mod (JStr (pre ++ rest)) = Ret (g, r, s)).
  { intros pre rest g Hn Hm. unfold parse_go_mod.
    assert (Ht : Py.truthy (JStr (pre ++ rest)) = true).
    { destruct pre; [|reflexivity]. destruct rest; [|reflexivity].
      rewrite go_match_needs_text in Hm. discriminate. }
    rewrite Ht. cbn [negb]. unfold parse_go_mod_text, search.
    rewrite (search_from_skip _ _ _ _ _ Hn), (search_from_here _ _ _ _ Hm).
    cbn [group1]. eauto. }
  split; [exact first_match|]. split.
  - intros pre post Hb Hn He. apply first_match; [exact Hn|].
    apply (go_match_two _ " " "1" "21" post); auto.
  - intros content v r s H. unfold parse_go_mod in H.
    destruct (negb (Py.truthy content)); [discriminate|].
    destruct content; try discriminate.
    unfold parse_go_mod_text in H. inversion H as [[Hg Hr Hs]].
    unfold search in Hg.
    destruct (search_from true go_pattern None s0) as [g|] eqn:E;
      [|discriminate].
    apply search_from_inv in E as (prev' & s' & E).
    apply go_match_inv in E as (v' & -> & Hv). simpl in Hg.
    congruence.
Qed.

Lemma parse_go_mod_first_go_directive_witness :
  (exists r s,
      parse_go_mod (JStr (("// toolchain" ++ nl) ++ "go 1.19" ++ nl))
      = Ret (Some "1.19", r, s))
  /\ (exists r s,
         parse_go_mod (JStr (("module m" ++ nl ++ nl) ++ "go 1.21" ++ nl))
         = Ret (Some "1.21", r, s))
  /\ dotted_2_or_3 "1.21" = true.
Proof.
  split; [|split].
  - apply (proj1 parse_go_mod_first_go_directive); reflexivity.
  - apply (proj1 (proj2 parse_go_mod_first_go_directive)); reflexivity.
  - apply (proj2 (proj2 parse_go_mod_first_go_directive)
             (JStr ("go 1.21" ++ nl)) "1.21" None None).
    reflexivity.
Defined.

(** C10, as stated, fails: an earlier line naming the module decides. *)
Lemma rest_api_line_not_always_found :
  ~ (forall pre post,
        exists g s,
          parse_go_mod (JStr (pre ++ rest_api_line ++ post))
          = Ret (g, Some "v1.2.3", s)).
Proof.
  intros H.
  destruct (H ("github.com/redhat-cne/rest-api v1.0.0" ++ nl) nl)
    as (g & s & E).
  vm_compute in E. discriminate E.
Qed.

Lemma rest_api_match_needs_text prev :
  match_at true rest_api_pattern prev "" = None.
Proof. reflexivity. Qed.

(** C10 (amended): the dependency patterns capture [v] and the maximal run
    of digits and dots after it, and the rest-api version [parse_go_mod]
    returns is what the rest-api pattern captures at the first position of
    the manifest at which it matches; so when no earlier position matches,
    the line [github.com/redhat-cne/rest-api v1.2.3-rc1] makes the rest-api
    extraction yield [v1.2.3], without the pre-release suffix. *)
Theorem parse_go_mod_drops_prerelease_suffix :
  (forall prev ws ver post,
      run_of is_space ws = true ->
      run_of is_digit_or_dot ver = true ->
      run_of is_digit_or_dot (PyStr.take 1 post) = false ->
      match_at true rest_api_pattern prev
        ("github.com/redhat-cne/rest-api" ++ ws ++ "v" ++ ver ++ post)
      = Some (Some ("v" ++ ver))
      /\ match_at true sdk_go_pattern prev
           ("github.com/redhat-cne/sdk-go" ++ ws ++ "v" ++ ver ++ post)
         = Some (Some ("v" ++ ver)))
  /\ (forall pre rest v,
         no_match_before true rest_api_pattern None (pre ++ rest)
                         (String.length pre) = true ->
         match_at true rest_api_pattern (last_char pre None) rest = Some v ->
         exists g s, parse_go_mod (JStr (pre ++ rest)) = Ret (g, v, s))
  /\ (forall pre post,
         no_match_before true rest_api_pattern None
           (pre ++ rest_api_line ++ post) (String.length pre) = true ->
         exists g s,
           parse_go_mod (JStr (pre ++ rest_api_line ++ post))
           = Ret (g, Some "v1.2.3", s)).
Proof.
  assert (first_match : forall pre rest v,
             no_match_before true rest_api_pattern None (pre ++ rest)
                             (String.length pre) = true ->
             match_at true rest_api_pattern (last_char pre None) rest
             = Some v ->
             exists g s, parse_go_mod (JStr (pre ++ rest)) = Ret (g, v, s)).
  { intros pre rest v Hn Hm. unfold parse_go_mod.
    assert (Ht : Py.truthy (JStr (pre ++ rest)) = true).
    { destruct pre; [|reflexivity]. destruct rest; [|reflexivity].
      rewrite rest_api_match_needs_text in Hm. discriminate. }
    rewrite Ht. cbn [negb]. unfold parse_go_mod_text, search.
    rewrite (search_from_skip _ _ _ _ _ Hn), (search_from_here _ _ _ _ Hm).
    cbn [group1]. eauto. }
  split; [|split; [exact first_match|]].
  - intros prev ws ver post Hws Hver Hpost.
    assert (Hp : match post with
                 | String c _ => is_digit_or_dot c = false
                 | EmptyString => True
                 end).
    { destruct post as [|c r]; [trivial|]. simpl in Hpost.
      now rewrite andb_true_r in Hpost. }
    split; apply dep_match; assumption.
  - intros pre post Hn. apply first_match; [exact Hn|].
    apply (dep_match "github.com/redhat-cne/rest-api" (last_char pre None)
                     " " "1.2.3" ("-rc1" ++ post)); reflexivity.
Qed.

Lemma parse_go_mod_drops_prerelease_suffix_witness :
  match_at true sdk_go_pattern None
    ("github.com/redhat-cne/sdk-go" ++ " " ++ "v" ++ "0.1.0" ++ "+incompatible")
  = Some (Some "v0.1.0")
  /\ (exists g s,
         parse_go_mod
           (JStr (("require " ++ nl)
                  ++ "github.com/redhat-cne/rest-api v0.9" ++ nl))
         = Ret (g, Some "v0.9", s))
  /\ exists g s,
      parse_go_mod
        (JStr (("require (" ++ nl) ++ rest_api_line ++ (nl ++ ")")))
      = Ret (g, Some "v1.2.3", s).
Proof.
  split; [|split].
  - apply (proj1 parse_go_mod_drops_prerelease_suffix
             None " " "0.1.0" "+incompatible"); reflexivity.
  - apply (proj1 (proj2 parse_go_mod_drops_prerelease_suffix));
      reflexivity.
  - apply (proj2 (proj2 parse_go_mod_drops_prerelease_suffix)).
    reflexivity.
Defined.

(* ================================================================== *)
(** ** The allow-pattern of the tag phase *)

Lemma chomp_cons c s :
  c <> newline -> chomp (String c s) = String c (chomp s).
Proof.
  intros Hc. simpl. destruct s; [|reflexivity].
  destruct (Ascii.eqb_spec c newline); [contradiction|reflexivity].
Qed.

Lemma chomp_append l t :
  all_chars (fun c => negb (Ascii.eqb c newline)) l = true ->
  chomp (l ++ t) = l ++ chomp t.
Proof.
  induction l as [|c l IH]; intros H; [reflexivity|].
  simpl in H. apply andb_true_iff in H as [Hc Hl].
  cbn [append]. rewrite chomp_cons, IH; auto.
  apply negb_true_iff in Hc. now destruct (Ascii.eqb_spec c newline).
Qed.

Lemma chomp_prefix s : exists t, s = chomp s ++ t.
Proof.
  induction s as [|c s [t IH]]; [now exists ""|].
  simpl. destruct s as [|d s].
  - destruct (Ascii.eqb c newline); [now exists (String c "")|now exists ""].
  - exists t. cbn [append]. now rewrite <- IH.
Qed.

Lemma prefix_weaken l a b :
  String.prefix l a = true -> String.prefix l (a ++ b) = true.
Proof.
  intros H. rewrite (prefix_split _ _ H), append_assoc'.
  apply prefix_append.
Qed.

(** A literal without newline is found at the start of a text and of the
    text without its final newline alike, and the two remainders agree. *)
Lemma chomp_literal l s (f : string -> bool) :
  all_chars (fun c => negb (Ascii.eqb c newline)) l = true ->
  startswith l (chomp s) && f (drop (String.length l) (chomp s))
  = startswith l s && f (chomp (drop (String.length l) s)).
Proof.
  intros Hl. unfold startswith.
  destruct (String.prefix l s) eqn:Hp.
  - rewrite (prefix_split _ _ Hp) at 1 2.
    rewrite chomp_append, prefix_append, drop_append by exact Hl.
    reflexivity.
  - destruct (String.prefix l (chomp s)) eqn:Hq; [|reflexivity].
    destruct (chomp_prefix s) as [t Ht].
    apply (prefix_weaken _ _ t) in Hq. rewrite <- Ht in Hq. congruence.
Qed.

Lemma chomp_empty c s :
  chomp (String c s) = ""
  -> Ascii.eqb c newline = true /\ s = "".
Proof.
  simpl. destruct s; [|discriminate].
  destruct (Ascii.eqb c newline); [auto|discriminate].
Qed.

(** A repetition followed by the end anchor accepts the runs of its class,
    with or without a final newline. *)
Lemma plus_then_eol (R : Type) p s g (k : kont R) :
  p newline = false ->
  (forall prev r g', is_some (k prev r g') = at_eol false r) ->
  is_some (plus_cls p s g k) = run_of p (chomp s).
Proof.
  intros Hp Hk. induction s as [|c s IH]; [reflexivity|].
  cbn [plus_cls]. destruct (p c) eqn:Hc.
  - assert (Hn : c <> newline) by congruence.
    rewrite chomp_cons by exact Hn. cbn [run_of all_chars]. rewrite Hc.
    cbn [andb].
    destruct (plus_cls p s g k) as [x|] eqn:E; cbn [is_some] in IH |- *.
    + symmetry. now apply run_all.
    + rewrite Hk. destruct s as [|d s]; [reflexivity|].
      destruct (chomp (String d s)) as [|e u] eqn:Ec.
      * apply chomp_empty in Ec as [Hd ->]. simpl. now rewrite Hd.
      * change (all_chars p (String e u)) with (run_of p (String e u)).
        rewrite <- IH. simpl.
        destruct (Ascii.eqb_spec d newline) as [->|]; [|reflexivity].
        destruct s; [|reflexivity]. simpl in Ec. discriminate.
  - cbn [is_some]. simpl. destruct s as [|d s].
    + destruct (Ascii.eqb c newline); simpl; [reflexivity|].
      now rewrite Hc.
    + cbn [run_of all_chars]. now rewrite Hc.
Qed.

Lemma is_some_orelse {A} (a b : option A) :
  is_some (match a with Some x => Some x | None => b end)
  = is_some a || is_some b.
Proof. now destruct a. Qed.

Lemma is_some_if {A} (b : bool) (a : option A) :
  is_some (if b then a else None) = b && is_some a.
Proof. now destruct b. Qed.

Lemma plus_eol_is_some p (t s : string) :
  p newline = false ->
  is_some
    (plus_cls p s None
       (fun _ s' _ =>
          if at_eol false s'
          then Some (Some (take (String.length t - String.length s') t))
          else None))
  = run_of p (chomp s).
Proof.
  intros Hp. apply plus_then_eol; [exact Hp|].
  intros _ r _. now destruct (at_eol false r).
Qed.

Lemma optional_v_is_some {A} (s : string) (f : string -> option A) :
  is_some
    match s with
    | "" => None
    | String c' s' => if Ascii.eqb "v" c' then f s' else None
    end
  = String.prefix "v" s && is_some (f (drop 1 s)).
Proof.
  destruct s as [|c s']; [reflexivity|]. cbn [String.prefix drop].
  destruct (Ascii.eqb_spec "v" c) as [<-|ne].
  - destruct (ascii_dec "v" "v"); [|congruence]. now destruct s'.
  - destruct (ascii_dec "v" c); [congruence|reflexivity].
Qed.

(** The test of the tag loop, in terms of the text without its final
    newline. *)
Lemma tag_allowed_chomp s : tag_allowed s = spec_tag_allowed (chomp s).
Proof.
  unfold tag_allowed, match_, match_at, tag_pattern.
  change (match ?o with Some _ => true | None => false end) with (is_some o).
  cbn [Cat m at_bol]. rewrite !is_some_orelse, !m_Lit.
  unfold spec_tag_allowed.
  pose proof (chomp_literal "v" s (run_of is_digit_or_dot) eq_refl) as L1.
  pose proof (chomp_literal "release-" s (run_of is_digit_or_dot) eq_refl)
    as L2.
  pose proof (chomp_literal "4." s (run_of is_digit) eq_refl) as L3.
  cbn [String.length] in L1, L2, L3 |- *. rewrite L1, L2, L3. clear L1 L2 L3.
  unfold startswith.
  rewrite (optional_v_is_some s
             (fun s' => plus_cls is_digit_or_dot s' None _)).
  rewrite !is_some_if, !plus_eol_is_some by reflexivity.
  destruct (String.prefix "v" s), (String.prefix "release-" s),
    (String.prefix "4." s), (run_of is_digit_or_dot (chomp s)),
    (run_of is_digit_or_dot (chomp (drop 1 s))),
    (run_of is_digit_or_dot (chomp (drop 8 s))),
    (run_of is_digit (chomp (drop 2 s))); reflexivity.
Qed.


(** The words of the claim and the test of the code differ at the name
    that is [1.0] followed by a newline: it is accepted, and is none of
    the three forms. *)
Lemma tag_pattern_accepts_final_newline :
  ~ (forall s, tag_allowed s = spec_tag_allowed s).
Proof.
  intros H. specialize (H tag_with_newline). vm_compute in H. discriminate H.
Qed.





(* ================================================================== *)
(** ** Branch enumeration *)

Lemma after_pages_0 repo_url p s : after_pages repo_url p 0 s = s.
Proof.
  destruct s. unfold after_pages. simpl. now rewrite app_nil_r.
Qed.

Lemma after_pages_S repo_url p n s :
  after_pages repo_url p (S n) s
  = after_pages repo_url (S p) n
      {| stderr := stderr s;
         sent := (sent s ++ [branches_request repo_url p])%list |}.
Proof.
  unfold after_pages. simpl. now rewrite <- app_assoc.
Qed.

(** While the pages are served the loop collects them. *)
Lemma get_branches_from_pages w repo_url pages :
  forall fuel p all_branches s,
    serves_pages w repo_url p pages s ->
    get_branches_from w repo_url (List.length pages + fuel) p all_branches s
    = get_branches_from w repo_url fuel (p + List.length pages)
        (all_branches ++ concat pages)%list
        (after_pages repo_url p (List.length pages) s).
Proof.
  induction pages as [|page pages IH]; intros fuel p all_branches s H.
  - simpl. now rewrite Nat.add_0_r, app_nil_r, after_pages_0.
  - destruct (H 0 page eq_refl) as [Hne Hpage].
    rewrite after_pages_0, Nat.add_0_r in Hpage.
    cbn [List.length Nat.add get_branches_from].
    unfold bind at 1. unfold http_get at 1. rewrite Hpage.
    destruct page as [|b page]; [contradiction|].
    cbn [Py.truthy negb]. unfold bind at 1, lift at 1. cbn [Py.iter].
    rewrite IH.
    + rewrite after_pages_S, <- app_assoc. cbn [concat].
      now rewrite Nat.add_succ_r.
    + intros i pg Hi. specialize (H (S i) pg Hi).
      rewrite after_pages_S, Nat.add_succ_r in H. exact H.
Qed.

(** C5: [get_branches] requests the pages with [per_page] 100 one after
    the other; when the pages served are followed by an empty page it
    returns their concatenation in order, and when they are followed by a
    failed request it returns the empty list, with the pages fetched so far
    discarded and the error written to the diagnostics instead of raised. *)
Theorem get_branches_paging w repo_url pages fuel s :
  serves_pages w repo_url 1 pages s ->
  let n := List.length pages in
  let last := http w (sent (after_pages repo_url 1 n s))
                   (branches_request repo_url (1 + n)) in
  (last = Body (JArr []) ->
   get_branches w (n + S fuel) repo_url s
   = (Ret (concat pages), after_pages repo_url 1 (S n) s))
  /\ (forall msg,
         last = RequestException msg ->
         get_branches w (n + S fuel) repo_url s
         = (Ret [],
            {| stderr :=
                 (stderr s ++ [("Error fetching branches: " ++ msg)%string])%list;
               sent := sent (after_pages repo_url 1 (S n) s) |}))
  /\ forall i, i <= n ->
       nth_error (sent (after_pages repo_url 1 (S n) s))
                 (List.length (sent s) + i)
       = Some {| url := api_url repo_url ++ "/branches";
                 params := [("page", 1 + i); ("per_page", 100)] |}.
Proof.
  intros H n last. unfold get_branches.
  assert (Hn : n = List.length pages) by reflexivity.
  clearbody n. subst n.
  rewrite (@get_branches_from_pages w repo_url pages (S fuel) 1 [] s H).
  set (n := List.length pages) in *.
  assert (Hs : forall t,
             {| stderr := t;
                sent := (sent (after_pages repo_url 1 n s)
                         ++ [branches_request repo_url (1 + n)])%list |}
             = {| stderr := t; sent := sent (after_pages repo_url 1 (S n) s) |}).
  { intros t. unfold after_pages. cbn [sent]. f_equal.
    rewrite seq_S, map_app, app_assoc. reflexivity. }
  split; [|split].
  - intros Hl. cbn [get_branches_from]. unfold bind, http_get.
    fold last. rewrite Hl. cbn. unfold ret. f_equal.
    apply (Hs (stderr s)).
  - intros msg Hl. cbn [get_branches_from]. unfold bind, http_get.
    fold last. rewrite Hl. cbn. unfold ret. f_equal.
    apply (Hs (stderr s ++ [("Error fetching branches: " ++ msg)%string])%list).
  - intros i Hi. unfold after_pages. cbn [sent].
    rewrite nth_error_app2 by lia.
    replace (List.length (sent s) + i - List.length (sent s)) with i by lia.
    rewrite nth_error_map, nth_error_seq.
    destruct (Nat.ltb_spec i (S n)); [reflexivity|lia].
Qed.

(* ================================================================== *)
(** ** The phases *)

Lemma bind_Ret {A B} (c : M A) (k : A -> M B) s b s' :
  bind c k s = (Ret b, s') ->
  exists a s1, c s = (Ret a, s1) /\ k a s1 = (Ret b, s').
Proof.
  unfold bind. destruct (c s) as [[a| |] s1]; try discriminate. eauto.
Qed.

Lemma lift_Ret {A} (o : outcome A) s a s' :
  lift o s = (Ret a, s') -> o = Ret a /\ s' = s.
Proof. unfold lift. intros H. inversion H. auto. Qed.

Lemma ret_Ret {A} (x : A) s a s' :
  ret x s = (Ret a, s') -> a = x /\ s' = s.
Proof. unfold ret. intros H. inversion H. auto. Qed.

Lemma eprint_Ret line s u s' :
  eprint line s = (Ret u, s') ->
  s' = {| stderr := (stderr s ++ [line])%list; sent := sent s |}.
Proof. unfold eprint. intros H. now inversion H. Qed.

(** Takes apart the hypotheses that say that a computation returned. *)
Ltac inv_run :=
  repeat
    match goal with
    | H : bind _ _ _ = (Ret _, _) |- _ =>
        apply bind_Ret in H as (? & ? & ? & H)
    | H : lift _ _ = (Ret _, _) |- _ => apply lift_Ret in H as [H ->]
    | H : ret _ _ = (Ret _, _) |- _ => apply ret_Ret in H as [-> ->]
    | H : eprint _ _ = (Ret _, _) |- _ => apply eprint_Ret in H as ->
    | H : (if ?b then _ else _) _ = (Ret _, _) |- _ => destruct b eqn:?
    end.

Lemma item_name_of key item v name :
  Py.subscript item key = Ret v -> Py.hash v = Ret name ->
  item_name key item = Ret name.
Proof. unfold item_name. now intros ->. Qed.

Ltac name_item :=
  match goal with
  | Hs : Py.subscript _ _ = Ret ?v, Hh : Py.hash ?v = Ret ?n |- _ =>
      exists n; split; [exact (item_name_of _ _ Hs Hh)|]
  end.

Ltac finish_step :=
  repeat match goal with
         | E : negb ?b = true |- _ => apply negb_true_iff in E; subst b
         | E : negb ?b = false |- _ => apply negb_false_iff in E; subst b
         end;
  try match goal with
      | |- context [if any_version ?v then _ else _] =>
          destruct (any_version v)
      end;
  try match goal with
      | E : any_version _ = true |- _ => clear E
      end;
  first [ solve [apply step_seen; auto]
        | solve [apply step_rejected; auto]
        | solve [apply step_marked; auto]
        | solve [eapply step_recorded; eauto] ].

Lemma branch_step_result w repo_url ns a item s a' s' :
  branch_step w repo_url ns a item s = (Ret a', s') ->
  exists name,
    item_name "name" item = Ret name
    /\ step_result ns as_is always name a a'.
Proof.
  unfold branch_step. intros H. inv_run; name_item; finish_step.
Qed.

Lemma release_step_result w repo_url ns a item s a' s' :
  release_step w repo_url ns a item s = (Ret a', s') ->
  exists name,
    item_name "tag_name" item = Ret name
    /\ step_result ns normalize_value always name a a'.
Proof.
  unfold release_step. intros H. inv_run; name_item; finish_step.
Qed.

Lemma tag_step_result w repo_url ns a item s a' s' :
  tag_step w repo_url ns a item s = (Ret a', s') ->
  exists name,
    item_name "name" item = Ret name
    /\ step_result ns normalize_value tag_allowed_value name a a'.
Proof.
  unfold tag_step. intros H. inv_run; name_item; finish_step.
Qed.

Lemma py_eqb_spec x y : Py.eqb x y = true <-> as_number x = as_number y.
Proof.
  destruct x as [|[|]|n|s], y as [|[|]|k|t]; cbn [Py.eqb as_number Bool.eqb];
    split; intros H; try reflexivity; try discriminate;
    try (apply Z.eqb_eq in H; congruence);
    try (inversion H; subst; apply Z.eqb_refl);
    try (apply String.eqb_eq in H; congruence);
    try (inversion H; subst; apply String.eqb_refl).
Qed.

Lemma py_eqb_refl x : Py.eqb x x = true.
Proof. now apply py_eqb_spec. Qed.

Lemma py_mem_spec x l :
  Py.mem x l = true <-> exists y, In y l /\ as_number x = as_number y.
Proof.
  unfold Py.mem. rewrite existsb_exists.
  split; intros (y & Hy & E); exists y; split; auto; now apply py_eqb_spec.
Qed.

Lemma py_mem_In x l : In x l -> Py.mem x l = true.
Proof. intros H. apply py_mem_spec. eauto. Qed.

(** A name outside a set is outside every list the set covers. *)
Lemma py_mem_covered x (listed processed : list scalar) :
  Py.mem x processed = false ->
  (forall y, In y listed -> Py.mem y processed = true) ->
  Py.mem x listed = false.
Proof.
  intros Hx Hc. destruct (Py.mem x listed) eqn:E; [|reflexivity].
  apply py_mem_spec in E as (y & Hy & Exy).
  apply Hc, py_mem_spec in Hy as (z & Hz & Eyz).
  assert (Py.mem x processed = true)
    by (apply py_mem_spec; exists z; split; congruence).
  congruence.
Qed.

Lemma make_entry_fields d v n :
  proxy_version (make_entry d v n) = d /\ note (make_entry d v n) = n.
Proof. destruct v as [[g r] s]. split; reflexivity. Qed.

Lemma phase_result {body : acc -> json -> M acc} {key ns shown check} :
  (forall a item s a' s',
      body a item s = (Ret a', s') ->
      exists name, item_name key item = Ret name
                   /\ step_result ns shown check name a a') ->
  forall items a s a' s',
    for_each body items a s = (Ret a', s') ->
    exists raws es,
      phase_spec ns shown check (names key items) a a' raws es.
Proof.
  intros Hbody. induction items as [|item items IH]; intros a s a' s' H.
  - apply ret_Ret in H as [-> ->]. exists [], [].
    constructor; simpl; auto using app_nil_r, NoDup_nil; try tauto.
  - cbn [for_each] in H. apply bind_Ret in H as (a1 & s1 & H1 & H).
    apply Hbody in H1 as (name & Hname & Hstep).
    apply IH in H as (raws & es & [Hd Hr Hn Hnew Hmono Hkeep Hmark Hcov]).
    cbn [names]. rewrite Hname.
    assert (Hsame : a1 = a ->
              (Py.mem name (processed_refs a) = true \/ check name = Ret false) ->
              exists raws es,
                phase_spec ns shown check (name :: names key items) a a'
                           raws es).
    { intros -> Hwhy. exists raws, es. constructor; auto.
      - intros x Hx. destruct (Hnew x Hx) as (? & ? & ?). simpl. auto.
      - intros y [<-|Hy] Hc; [|now apply Hcov].
        destruct Hwhy as [Hseen|Hrej]; [now apply Hmono|congruence]. }
    destruct Hstep as [Hseen ->|Hno Hrej ->|Hno Hok ->|d v Hno Hok Hshown ->];
      [now apply Hsame; auto|now apply Hsame; auto| |].
    + exists raws, es. cbn [add_processed processed_refs version_data] in *.
      constructor; auto.
      * intros x Hx. destruct (Hnew x Hx) as (Hl & Hm & Hc). simpl in Hm.
        apply orb_false_iff in Hm as [_ Hm]. simpl. auto.
      * intros y Hy. apply Hmono. simpl. rewrite Hy. apply orb_true_r.
      * intros y Hy. apply Hkeep. now right.
      * intros y [<-|Hy] Hc; [|now apply Hcov].
        apply Hmono. simpl. now rewrite py_eqb_refl.
    + exists (name :: raws),
        (make_entry d v (notes_get ns name) :: es).
      cbn [add_processed append_entry processed_refs version_data] in *.
      constructor; auto.
      * rewrite Hd, <- app_assoc. reflexivity.
      * constructor; [|exact Hr].
        destruct (make_entry_fields d v (notes_get ns name)) as [-> ->].
        auto.
      * constructor; [|exact Hn]. intros Hin.
        destruct (Hnew name Hin) as (_ & Hm & _). simpl in Hm.
        now rewrite py_eqb_refl in Hm.
      * intros x [<-|Hx]; [simpl; auto|].
        destruct (Hnew x Hx) as (Hl & Hm & Hc). simpl in Hm.
        apply orb_false_iff in Hm as [_ Hm]. simpl. auto.
      * intros y Hy. apply Hmono. simpl. rewrite Hy. apply orb_true_r.
      * intros y Hy. apply Hkeep. now right.
      * intros x [<-|Hx]; [apply Hkeep; now left|now apply Hmark].
      * intros y [<-|Hy] Hc; [|now apply Hcov].
        apply Hmono. simpl. now rewrite py_eqb_refl.
Qed.

Lemma main_phase_result w repo_url a s a' s' :
  main_phase w repo_url a s = (Ret a', s') ->
  processed_refs a' = SStr "main" :: processed_refs a
  /\ (version_data a' = version_data a
      \/ exists v,
          version_data a'
          = (version_data a ++ [make_entry (SStr "main") v ""])%list).
Proof.
  unfold main_phase. intros H. inv_run.
  match goal with
  | |- context [if any_version ?v then _ else _] =>
      destruct (any_version v); (split; [reflexivity|]);
      [right; now exists v|now left]
  end.
Qed.

Lemma marked_not_fresh x (processed : list scalar) :
  In x processed -> Py.mem x processed = false -> False.
Proof. intros H E. apply py_mem_In in H. congruence. Qed.

Lemma first_items_of n v v' l :
  Py.slice_to n v = Ret v' -> Py.iter v' = Ret l -> first_items n v = l.
Proof. unfold first_items. now intros -> ->. Qed.

Lemma run_phases_assembly w repo_url ns branches releases tags s a s' :
  run_phases w repo_url ns branches releases tags s = (Ret a, s') ->
  exists pm pb pr pt em eb er et,
    assembly ns branches releases tags a pm pb pr pt em eb er et.
Proof.
  unfold run_phases. intros H. inv_run.
  repeat match goal with
         | Hs : Py.slice_to ?n ?v = Ret ?v', Hi : Py.iter ?v' = Ret ?l |- _ =>
             pose proof (first_items_of _ _ Hs Hi) as <-; clear Hs Hi
         end.
  match goal with
  | Hm : main_phase _ _ _ _ = _ |- _ =>
      apply main_phase_result in Hm as [Hp1 Hv1]
  end.
  repeat match goal with
         | Hf : for_each (branch_step _ _ _) _ _ _ = _ |- _ =>
             apply (phase_result (@branch_step_result _ _ _)) in Hf
               as (pb & eb & B)
         | Hf : for_each (release_step _ _ _) _ _ _ = _ |- _ =>
             apply (phase_result (@release_step_result _ _ _)) in Hf
               as (pr & er & Rl)
         | Hf : for_each (tag_step _ _ _) _ _ _ = _ |- _ =>
             apply (phase_result (@tag_step_result _ _ _)) in Hf
               as (pt & et & T)
         end.
  cbn [version_data processed_refs] in Hp1, Hv1.
  match type of B with
  | phase_spec _ _ _ _ ?p ?q _ _ => rename p into a1; rename q into a2
  end.
  match type of Rl with
  | phase_spec _ _ _ _ _ ?q _ _ => rename q into a3
  end.
  assert (Hm : exists pm em,
             version_data a1 = em
             /\ Forall2 (fun x e => proxy_version e = x /\ note e = "") pm em
             /\ incl pm [SStr "main"] /\ NoDup pm).
  { destruct Hv1 as [->|[v ->]].
    - exists [], []. repeat split; auto using NoDup_nil, incl_nil_l.
    - exists [SStr "main"], [make_entry (SStr "main") v ""].
      destruct (make_entry_fields (SStr "main") v "") as [E1 E2].
      repeat split; auto using incl_refl.
      repeat constructor; auto. }
  destruct Hm as (pm & em & Hem & Hfm & Hincl & Hndm).
  exists pm, pb, pr, pt, em, eb, er, et.
  assert (Hmain2 : In (SStr "main") (processed_refs a2))
    by (apply (ph_keep B); rewrite Hp1; now left).
  assert (Hcov2 : forall y, In y (SStr "main" :: names "name" branches) ->
                    Py.mem y (processed_refs a2) = true).
  { intros y [<-|Hy]; [now apply py_mem_In|now apply (ph_covered B)]. }
  assert (Hcov3 : forall y,
             In y (SStr "main" :: names "name" branches
                   ++ names "tag_name" (first_items 10 releases))%list ->
             Py.mem y (processed_refs a3) = true).
  { intros y Hy. change (In y ((SStr "main" :: names "name" branches)
                  ++ names "tag_name" (first_items 10 releases))%list) in Hy.
    apply in_app_or in Hy as [Hy|Hy].
    - apply (ph_mono Rl). now apply Hcov2.
    - now apply (ph_covered Rl). }
  constructor.
  - rewrite (ph_data T), (ph_data Rl), (ph_data B), Hem.
    now rewrite <- !app_assoc.
  - exact Hfm.
  - exact (ph_records B).
  - exact (ph_records Rl).
  - exact (ph_records T).
  - apply NoDup_app; [exact Hndm| |].
    + apply NoDup_app; [exact (ph_nodup B)| |].
      * apply NoDup_app; [exact (ph_nodup Rl)|exact (ph_nodup T)|].
        intros y Hy Hy'. apply (ph_marked Rl) in Hy.
        apply (ph_new T) in Hy' as (_ & Hy' & _).
        eauto using marked_not_fresh.
      * intros y Hy Hy'. apply (ph_marked B) in Hy.
        apply in_app_or in Hy' as [Hy'|Hy'].
        -- apply (ph_new Rl) in Hy' as (_ & Hy' & _).
           eauto using marked_not_fresh.
        -- apply (ph_new T) in Hy' as (_ & Hy' & _).
           apply (ph_keep Rl) in Hy. eauto using marked_not_fresh.
    + intros y Hy Hy'. apply Hincl in Hy as [<-|[]].
      apply in_app_or in Hy' as [Hy'|Hy'];
        [|apply in_app_or in Hy' as [Hy'|Hy']].
      * apply (ph_new B) in Hy' as (_ & Hy' & _). rewrite Hp1 in Hy'.
        simpl in Hy'. discriminate.
      * apply (ph_new Rl) in Hy' as (_ & Hy' & _).
        eauto using marked_not_fresh.
      * apply (ph_new T) in Hy' as (_ & Hy' & _).
        apply (ph_keep Rl) in Hmain2. eauto using marked_not_fresh.
  - exact Hincl.
  - intros y Hy. apply (ph_new B) in Hy as (Hl & Hf & _).
    rewrite Hp1 in Hf. auto.
  - intros y Hy. apply (ph_new Rl) in Hy as (Hl & Hf & _).
    split; [exact Hl|]. eapply py_mem_covered; eauto.
  - intros y Hy. apply (ph_new T) in Hy as (Hl & Hf & Hc).
    split; [exact Hl|]. split; [exact Hc|].
    eapply py_mem_covered; eauto.
Qed.

(* ================================================================== *)
(** ** A run, for illustration *)

Example demo_run :
  fst (generate_version_table demo_world 3 demo_repo start)
  = Ret (table_header
         ++ "| main | 1.22 |  |  |  |" ++ nl
         ++ "| release-4.18 | 1.20 |  | v1.0.0 | maintained |" ++ nl
         ++ "| 1.2.3 | 1.20 |  |  | first |" ++ nl
         ++ "| 1.2.3 | 1.21 |  | v0.1.0 |  |" ++ nl).
Proof. vm_compute. reflexivity. Qed.

Example demo_notes_loaded :
  fst (load_version_notes demo_world "version-notes.txt" start) = Ret demo_notes.
Proof. reflexivity. Qed.

(* ================================================================== *)
(** ** Deduplication and notes *)

Lemma item_name_inv key item name :
  item_name key item = Ret name ->
  exists v, Py.subscript item key = Ret v /\ Py.hash v = Ret name.
Proof.
  unfold item_name. destruct (Py.subscript item key); try discriminate.
  eauto.
Qed.

(** A turn for a name that is already processed changes nothing and
    fetches nothing. *)
Lemma steps_skip_processed w repo_url ns a item name s :
  Py.mem name (processed_refs a) = true ->
  (item_name "name" item = Ret name ->
   branch_step w repo_url ns a item s = (Ret a, s)
   /\ tag_step w repo_url ns a item s = (Ret a, s))
  /\ (item_name "tag_name" item = Ret name ->
      release_step w repo_url ns a item s = (Ret a, s)).
Proof.
  intros Hm. unfold branch_step, tag_step, release_step.
  split; [intros Hn; split|intros Hn].
  all: apply item_name_inv in Hn as (v & Hv & Hh).
  all: unfold bind, lift; now rewrite Hv, Hh, Hm.
Qed.

(** C1: in every run of the four phases, whatever the lists of branches,
    releases and tags and the manifests, the records are those of four
    lists of raw ref names, one list per phase in the order main, branches,
    releases, tags; no raw name occurs twice in them; a name with a record
    from a phase is listed in that phase and in no earlier one; and a turn
    for a name already marked processed leaves the records, the processed
    set, the diagnostics and the requests as they are. *)
Theorem each_ref_recorded_once :
  (forall w repo_url ns branches releases tags s a s',
      run_phases w repo_url ns branches releases tags s = (Ret a, s') ->
      exists pm pb pr pt em eb er et,
        version_data a = (em ++ eb ++ er ++ et)%list
        /\ Forall2 (fun x e => proxy_version e = x) pm em
        /\ Forall2 (fun x e => proxy_version e = x) pb eb
        /\ Forall2 (fun x e => normalize_value x = Ret (proxy_version e)) pr er
        /\ Forall2 (fun x e => normalize_value x = Ret (proxy_version e)) pt et
        /\ NoDup (pm ++ pb ++ pr ++ pt)
        /\ incl pm [SStr "main"]
        /\ (forall x, In x pb ->
              In x (names "name" branches)
              /\ Py.mem x [SStr "main"] = false)
        /\ (forall x, In x pr ->
              In x (names "tag_name" (first_items 10 releases))
              /\ Py.mem x (SStr "main" :: names "name" branches) = false)
        /\ (forall x, In x pt ->
              In x (names "name" (first_items 20 tags))
              /\ Py.mem x (SStr "main" :: names "name" branches
                           ++ names "tag_name" (first_items 10 releases))%list
                 = false))
  /\ (forall w repo_url ns a item name s,
         Py.mem name (processed_refs a) = true ->
         (item_name "name" item = Ret name ->
          branch_step w repo_url ns a item s = (Ret a, s)
          /\ tag_step w repo_url ns a item s = (Ret a, s))
         /\ (item_name "tag_name" item = Ret name ->
             release_step w repo_url ns a item s = (Ret a, s))).
Proof.
  split; [|exact steps_skip_processed].
  intros w repo_url ns branches releases tags s a s' H.
  apply run_phases_assembly in H
    as (pm & pb & pr & pt & em & eb & er & et & A).
  exists pm, pb, pr, pt, em, eb, er, et.
  destruct A as [Hd Hm Hb Hr Ht Hn Hi Hbn Hrn Htn].
  repeat (split; [first [ assumption
                        | eapply Forall2_impl; [|eassumption];
                          cbv beta; unfold as_is; intros ? ? [E _];
                          congruence ]|]).
  intros x Hx. destruct (Htn x Hx) as (? & _ & ?). auto.
Qed.

Lemma each_ref_recorded_once_witness :
  exists a s',
    run_phases demo_world demo_repo demo_notes demo_branches demo_releases
               demo_tags start = (Ret a, s')
    /\ exists pm pb pr pt em eb er et,
        version_data a = (em ++ eb ++ er ++ et)%list
        /\ Forall2 (fun x e => proxy_version e = x) pm em
        /\ Forall2 (fun x e => proxy_version e = x) pb eb
        /\ Forall2 (fun x e => normalize_value x = Ret (proxy_version e)) pr er
        /\ Forall2 (fun x e => normalize_value x = Ret (proxy_version e)) pt et
        /\ NoDup (pm ++ pb ++ pr ++ pt)
        /\ incl pm [SStr "main"]
        /\ (forall x, In x pb ->
              In x (names "name" demo_branches)
              /\ Py.mem x [SStr "main"] = false)
        /\ (forall x, In x pr ->
              In x (names "tag_name" (first_items 10 demo_releases))
              /\ Py.mem x (SStr "main" :: names "name" demo_branches) = false)
        /\ (forall x, In x pt ->
              In x (names "name" (first_items 20 demo_tags))
              /\ Py.mem x (SStr "main" :: names "name" demo_branches
                           ++ names "tag_name"
                                (first_items 10 demo_releases))%list
                 = false).
Proof.
  eexists. eexists. split; [vm_compute; reflexivity|].
  eapply (proj1 each_ref_recorded_once demo_world demo_repo demo_notes
           demo_branches demo_releases demo_tags start).
  vm_compute. reflexivity.
Defined.

(** Phase 1 reads the manifest of the main branch and nothing else: its
    record, if the manifest yields a version, is made of these versions
    and the empty note. *)
Lemma main_phase_record w repo_url a s a' s' :
  main_phase w repo_url a s = (Ret a', s') ->
  exists v,
    get_main_branch_info w repo_url (logged "Processing main branch..." s)
    = (Ret v, s')
    /\ a' = add_processed
              (if any_version v
               then append_entry a (make_entry (SStr "main") v "")
               else a)
              (SStr "main").
Proof.
  unfold main_phase, bind, eprint, ret, logged. intros H.
  destruct (get_main_branch_info w repo_url _) as [[v| |] s1];
    try discriminate H.
  inversion H; subst. now exists v.
Qed.

Lemma not_main_later x (a a' : acc) :
  (forall y, Py.mem y (processed_refs a) = true ->
             Py.mem y (processed_refs a') = true) ->
  Py.mem x (processed_refs a') = false ->
  Py.mem x (processed_refs a) = false.
Proof.
  intros Hmono Hx. destruct (Py.mem x (processed_refs a)) eqn:E; [|reflexivity].
  apply Hmono in E. congruence.
Qed.

(** The records of a run: those of phase 1, then those of the names that
    the later phases took up, none of which is [main]. *)
Lemma run_phases_records w repo_url ns branches releases tags s a s' :
  run_phases w repo_url ns branches releases tags s = (Ret a, s') ->
  exists v s1 pb pr pt eb er et,
    get_main_branch_info w repo_url (logged "Processing main branch..." s)
    = (Ret v, s1)
    /\ version_data a
       = ((if any_version v then [make_entry (SStr "main") v ""] else [])
          ++ eb ++ er ++ et)%list
    /\ Forall2 (fun x e => as_is x = Ret (proxy_version e)
                           /\ note e = notes_get ns x) pb eb
    /\ Forall2 (fun x e => normalize_value x = Ret (proxy_version e)
                           /\ note e = notes_get ns x) pr er
    /\ Forall2 (fun x e => normalize_value x = Ret (proxy_version e)
                           /\ note e = notes_get ns x) pt et
    /\ (forall x, In x pb ->
          In x (names "name" branches) /\ Py.mem x [SStr "main"] = false)
    /\ (forall x, In x pr ->
          In x (names "tag_name" (first_items 10 releases))
          /\ Py.mem x [SStr "main"] = false)
    /\ (forall x, In x pt ->
          In x (names "name" (first_items 20 tags))
          /\ Py.mem x [SStr "main"] = false).
Proof.
  unfold run_phases. intros H. inv_run.
  repeat match goal with
         | Hs : Py.slice_to ?n ?v = Ret ?v', Hi : Py.iter ?v' = Ret ?l |- _ =>
             pose proof (first_items_of _ _ Hs Hi) as <-; clear Hs Hi
         end.
  match goal with
  | Hm : main_phase _ _ _ _ = _ |- _ =>
      apply main_phase_record in Hm as (v & Hv & Ea1)
  end.
  repeat match goal with
         | Hf : for_each (branch_step _ _ _) _ _ _ = _ |- _ =>
             apply (phase_result (@branch_step_result _ _ _)) in Hf
               as (pb & eb & B)
         | Hf : for_each (release_step _ _ _) _ _ _ = _ |- _ =>
             apply (phase_result (@release_step_result _ _ _)) in Hf
               as (pr & er & Rl)
         | Hf : for_each (tag_step _ _ _) _ _ _ = _ |- _ =>
             apply (phase_result (@tag_step_result _ _ _)) in Hf
               as (pt & et & T)
         end.
  match type of B with
  | phase_spec _ _ _ _ ?p ?q _ _ => rename p into a1; rename q into a2
  end.
  match type of Rl with
  | phase_spec _ _ _ _ _ ?q _ _ => rename q into a3
  end.
  assert (Hp1 : processed_refs a1 = [SStr "main"])
    by (rewrite Ea1; now destruct (any_version v)).
  assert (Hv1 : version_data a1
                = if any_version v then [make_entry (SStr "main") v ""]
                  else [])
    by (rewrite Ea1; now destruct (any_version v)).
  exists v. eexists. exists pb, pr, pt, eb, er, et.
  split; [exact Hv|]. split.
  { rewrite (ph_data T), (ph_data Rl), (ph_data B), Hv1.
    now rewrite <- !app_assoc. }
  split; [exact (ph_records B)|]. split; [exact (ph_records Rl)|].
  split; [exact (ph_records T)|].
  split; [|split]; intros x Hx.
  - apply (ph_new B) in Hx as (Hl & Hf & _). rewrite Hp1 in Hf. auto.
  - apply (ph_new Rl) in Hx as (Hl & Hf & _). split; [exact Hl|].
    rewrite <- Hp1. exact (@not_main_later x a1 a2 (ph_mono B) Hf).
  - apply (ph_new T) in Hx as (Hl & Hf & _). split; [exact Hl|].
    rewrite <- Hp1.
    exact (@not_main_later x a1 a2 (ph_mono B)
             (@not_main_later x a2 a3 (ph_mono Rl) Hf)).
Qed.

(** C8: in every run of the four phases, whatever the notes map holds,
    also under the key [main], the records begin with the record of
    phase 1 exactly when the manifest of the main branch yields a version;
    that record is named [main], carries these versions and has the empty
    note.  The records after it are those of the branch, release and tag
    phases in this order: each has the note that the map gives for its raw
    ref name (the empty text without one), and none of these raw names is
    [main], also when [main] is among the branches. *)
Theorem main_record_has_no_note w repo_url ns branches releases tags s a s' :
  run_phases w repo_url ns branches releases tags s = (Ret a, s') ->
  exists g r sd s1 pb pr pt eb er et,
    get_main_branch_info w repo_url (logged "Processing main branch..." s)
    = (Ret (g, r, sd), s1)
    /\ version_data a
       = ((if any_version (g, r, sd)
           then [{| proxy_version := SStr "main";
                    golang := or_empty g;
                    rest_api := or_empty r;
                    sdk_go := or_empty sd;
                    note := "" |}]
           else [])
          ++ eb ++ er ++ et)%list
    /\ Forall2 (fun x e => proxy_version e = x
                           /\ note e = notes_get ns x) pb eb
    /\ Forall2 (fun x e => normalize_value x = Ret (proxy_version e)
                           /\ note e = notes_get ns x) pr er
    /\ Forall2 (fun x e => normalize_value x = Ret (proxy_version e)
                           /\ note e = notes_get ns x) pt et
    /\ (forall x, In x pb ->
          In x (names "name" branches) /\ Py.mem x [SStr "main"] = false)
    /\ (forall x, In x pr ->
          In x (names "tag_name" (first_items 10 releases))
          /\ Py.mem x [SStr "main"] = false)
    /\ (forall x, In x pt ->
          In x (names "name" (first_items 20 tags))
          /\ Py.mem x [SStr "main"] = false).
Proof.
  intros H.
  apply run_phases_records in H
    as ([[g r] sd] & s1 & pb & pr & pt & eb & er & et
        & Hv & Hd & Hb & Hr & Ht & Hbn & Hrn & Htn).
  exists g, r, sd, s1, pb, pr, pt, eb, er, et.
  split; [exact Hv|]. split; [exact Hd|].
  split; [|auto].
  eapply Forall2_impl; [|exact Hb]. unfold as_is. intros ? ? [E ?].
  split; congruence.
Qed.

Lemma main_record_has_no_note_witness :
  notes_get demo_notes (SStr "main") = "the trunk"
  /\ In (SStr "main") (names "name" demo_branches)
  /\ exists a s',
      run_phases demo_world demo_repo demo_notes demo_branches demo_releases
                 demo_tags start = (Ret a, s')
      /\ exists g r sd s1 pb pr pt eb er et,
          get_main_branch_info demo_world demo_repo
                               (logged "Processing main branch..." start)
          = (Ret (g, r, sd), s1)
          /\ version_data a
             = ((if any_version (g, r, sd)
                 then [{| proxy_version := SStr "main";
                          golang := or_empty g;
                          rest_api := or_empty r;
                          sdk_go := or_empty sd;
                          note := "" |}]
                 else [])
                ++ eb ++ er ++ et)%list
          /\ Forall2 (fun x e => proxy_version e = x
                                 /\ note e = notes_get demo_notes x) pb eb
          /\ Forall2 (fun x e => normalize_value x = Ret (proxy_version e)
                                 /\ note e = notes_get demo_notes x) pr er
          /\ Forall2 (fun x e => normalize_value x = Ret (proxy_version e)
                                 /\ note e = notes_get demo_notes x) pt et
          /\ (forall x, In x pb ->
                In x (names "name" demo_branches)
                /\ Py.mem x [SStr "main"] = false)
          /\ (forall x, In x pr ->
                In x (names "tag_name" (first_items 10 demo_releases))
                /\ Py.mem x [SStr "main"] = false)
          /\ (forall x, In x pt ->
                In x (names "name" (first_items 20 demo_tags))
                /\ Py.mem x [SStr "main"] = false).
Proof.
  split; [reflexivity|]. split; [now left|].
  eexists. eexists. split; [vm_compute; reflexivity|].
  eapply (@main_record_has_no_note demo_world demo_repo demo_notes
           demo_branches demo_releases demo_tags start).
  vm_compute. reflexivity.
Defined.

(** C9: with the release [v1.2.3] and the separate tag [1.2.3], both with
    manifests that yield versions, the two refs are distinct for the
    deduplication and the table has two rows whose ref-name column is the
    same text [1.2.3]. *)
Theorem normalized_names_can_collide :
  Py.mem (SStr "1.2.3") [SStr "v1.2.3"] = false
  /\ exists a s' e1 e2 i j,
      collect_version_data demo_world 3 demo_repo start = (Ret a, s')
      /\ i <> j
      /\ nth_error (version_data a) i = Some e1
      /\ nth_error (version_data a) j = Some e2
      /\ e1 <> e2
      /\ Py.str (proxy_version e1) = "1.2.3"
      /\ Py.str (proxy_version e2) = "1.2.3"
      /\ fst (generate_version_table demo_world 3 demo_repo start)
         = Ret (table_header
                ++ "| main | 1.22 |  |  |  |" ++ nl
                ++ "| release-4.18 | 1.20 |  | v1.0.0 | maintained |" ++ nl
                ++ "| 1.2.3 | 1.20 |  |  | first |" ++ nl
                ++ "| 1.2.3 | 1.21 |  | v0.1.0 |  |" ++ nl).
Proof.
  split; [reflexivity|].
  eexists. eexists. eexists. eexists. exists 2, 3.
  split; [vm_compute; reflexivity|].
  split; [discriminate|].
  split; [reflexivity|]. split; [reflexivity|].
  split; [discriminate|].
  split; [reflexivity|]. split; [reflexivity|].
  vm_compute. reflexivity.
Qed.

(* ================================================================== *)
(** ** Runs that return *)

Lemma returns_ret {A} (a : A) s (Q : A -> io -> Prop) :
  Q a s -> returns (ret a) s Q.
Proof. intros H. exists a, s. auto. Qed.

Lemma returns_bind {A B} (c : M A) (k : A -> M B) s (Q : B -> io -> Prop) :
  returns c s (fun a s1 => returns (k a) s1 Q) -> returns (bind c k) s Q.
Proof.
  intros (a & s1 & Hc & b & s2 & Hk & HQ). exists b, s2.
  unfold bind. rewrite Hc. auto.
Qed.

Lemma returns_lift {A} (a : A) s (Q : A -> io -> Prop) :
  Q a s -> returns (lift (Ret a)) s Q.
Proof. intros H. exists a, s. auto. Qed.

Lemma returns_eprint line s (Q : unit -> io -> Prop) :
  Q tt {| stderr := (stderr s ++ [line])%list; sent := sent s |} ->
  returns (eprint line) s Q.
Proof. intros H. eexists. eexists. split; [reflexivity|exact H]. Qed.

Lemma returns_http_get w rq s (Q : response -> io -> Prop) :
  Q (http w (sent s) rq)
    {| stderr := stderr s; sent := (sent s ++ [rq])%list |} ->
  returns (http_get w rq) s Q.
Proof. intros H. eexists. eexists. split; [reflexivity|exact H]. Qed.

Lemma returns_weaken {A} (c : M A) s (Q Q' : A -> io -> Prop) :
  returns c s Q -> (forall a s', Q a s' -> Q' a s') -> returns c s Q'.
Proof. intros (a & s' & H & HQ) Himp. exists a, s'. auto. Qed.

Lemma returns_for_each {A S} (body : S -> A -> M S) (P : A -> Prop)
      (I : S -> Prop) l :
  (forall a x s, P x -> I a -> returns (body a x) s (fun a' _ => I a')) ->
  Forall P l ->
  forall a s, I a -> returns (for_each body l a) s (fun a' _ => I a').
Proof.
  intros Hbody. induction 1 as [|x l Hx Hl IH]; intros a s Ha.
  - now apply returns_ret.
  - cbn [for_each]. apply returns_bind.
    eapply returns_weaken; [now apply Hbody|].
    cbv beta. intros a' s' Ha'. now apply IH.
Qed.

Ltac run_step :=
  first [ apply returns_bind
        | apply returns_eprint
        | apply returns_http_get
        | apply returns_lift
        | apply returns_ret ].

Lemma decode_content_ok w cd :
  content_ok w (Body cd) = true ->
  exists c, decode_content w cd = Ret c /\ parsable c = true.
Proof.
  destruct cd as [| | | |l|f]; try discriminate.
  cbn [content_ok]. unfold decode_content. cbn [Py.get Py.subscript].
  destruct (Py.lookup "encoding" f) as [e|];
    (destruct (is_base64 _);
     [destruct (Py.lookup "content" f) as [[| | |c| |]|]; try discriminate;
      destruct (b64decode_utf8 w c); try discriminate
     |destruct (Py.lookup "content" f)]);
    intros H; eexists; (split; [reflexivity|]);
    first [exact H|apply orb_true_r].
Qed.

Lemma parsable_parses c :
  parsable c = true -> exists v, parse_go_mod c = Ret v.
Proof.
  unfold parsable, parse_go_mod. destruct (negb (Py.truthy c)); [eauto|].
  destruct c; try discriminate. eauto.
Qed.

Section WellShaped.
Variables (w : world) (repo_url : string).
Hypothesis Hw : well_shaped w repo_url.

Lemma get_go_mod_content_parsable name s :
  returns (get_go_mod_content w repo_url (SStr name)) s
          (fun c _ => parsable c = true).
Proof.
  unfold get_go_mod_content. repeat run_step.
  pose proof (ws_contents Hw (sent s) name) as Hc.
  destruct (http w (sent s) (go_mod_request repo_url (SStr name)))
    as [msg|cd].
  - repeat run_step. reflexivity.
  - apply decode_content_ok in Hc as (c & -> & Hc). now run_step.
Qed.

(** Fetching and parsing the manifest of a named ref returns. *)
Ltac fetch_and_parse :=
  run_step;
  (eapply returns_weaken; [apply get_go_mod_content_parsable|]);
  cbv beta;
  let c := fresh "c" in
  let Hc := fresh "Hc" in
  let v := fresh "v" in
  intros c ? Hc; apply parsable_parses in Hc as [v ->].

Lemma named_item_name key item :
  named_item key item = true ->
  exists name, Py.subscript item key = Ret (JStr name).
Proof.
  unfold named_item.
  destruct (Py.subscript item key) as [[| | |name| |]| |];
    try discriminate.
  eauto.
Qed.

Lemma main_phase_returns a s :
  returns (main_phase w repo_url a) s (fun _ _ => True).
Proof.
  unfold main_phase, get_main_branch_info. do 3 run_step.
  fetch_and_parse. repeat run_step. exact I.
Qed.

Lemma branch_step_returns ns a item s :
  named_item "name" item = true ->
  returns (branch_step w repo_url ns a item) s (fun _ _ => True).
Proof.
  intros H. apply named_item_name in H as [name H].
  unfold branch_step. rewrite H. do 2 run_step. cbn [Py.hash].
  do 2 run_step. destruct (Py.mem _ _); [now run_step|].
  do 2 run_step. fetch_and_parse. repeat run_step. exact I.
Qed.

Lemma release_step_returns ns a item s :
  named_item "tag_name" item = true ->
  returns (release_step w repo_url ns a item) s (fun _ _ => True).
Proof.
  intros H. apply named_item_name in H as [name H].
  unfold release_step. rewrite H. do 2 run_step. cbn [Py.hash].
  do 2 run_step. destruct (Py.mem _ _); [now run_step|].
  do 2 run_step. fetch_and_parse. repeat run_step.
  destruct (any_version v); repeat run_step; exact I.
Qed.

Lemma tag_step_returns ns a item s :
  named_item "name" item = true ->
  returns (tag_step w repo_url ns a item) s (fun _ _ => True).
Proof.
  intros H. apply named_item_name in H as [name H].
  unfold tag_step. rewrite H. do 2 run_step. cbn [Py.hash].
  do 2 run_step. destruct (Py.mem _ _); [now run_step|].
  cbn [tag_allowed_value]. do 2 run_step.
  destruct (negb (tag_allowed name)); [now run_step|].
  do 2 run_step. fetch_and_parse. repeat run_step.
  destruct (any_version v); repeat run_step; exact I.
Qed.

Lemma tag_to_release_item_returns d item s :
  named_item "tag_name" item = true ->
  returns (tag_to_release_item d item) s (fun _ _ => True).
Proof.
  intros H. apply named_item_name in H as [name H].
  unfold tag_to_release_item. rewrite H. repeat run_step. exact I.
Qed.

Lemma listing_of_answer key r :
  listing_ok key r = true ->
  match r with
  | RequestException _ => True
  | Body j => listing key j
  end.
Proof.
  destruct r as [msg|[| | | |l|f]]; try discriminate; [trivial|].
  cbn [listing_ok]. intros H. exists l. split; [reflexivity|].
  now apply Forall_forall, forallb_forall.
Qed.

Lemma listing_empty key : listing key (JArr []).
Proof. exists []. split; [reflexivity|constructor]. Qed.

Lemma get_releases_returns s :
  returns (get_releases w repo_url) s (fun j _ => listing "tag_name" j).
Proof.
  unfold get_releases. do 2 run_step.
  pose proof (listing_of_answer _ _ (ws_releases Hw (sent s))) as H.
  destruct (http w (sent s) (releases_request repo_url)).
  - repeat run_step. apply listing_empty.
  - now run_step.
Qed.

Lemma get_tags_returns s :
  returns (get_tags w repo_url) s (fun j _ => listing "name" j).
Proof.
  unfold get_tags. do 2 run_step.
  pose proof (listing_of_answer _ _ (ws_tags Hw (sent s))) as H.
  destruct (http w (sent s) (tags_request repo_url)).
  - repeat run_step. apply listing_empty.
  - now run_step.
Qed.

Lemma first_items_listing key n j :
  listing key j ->
  exists l,
    Py.slice_to n j = Ret (JArr l)
    /\ Forall (fun i => named_item key i = true) l.
Proof.
  intros (l & -> & Hl). exists (firstn n l). split; [reflexivity|].
  rewrite <- (firstn_skipn n l) in Hl. now apply Forall_app in Hl.
Qed.

(** The paging loop ends at page [n + 1] at the latest. *)
Lemma get_branches_from_returns n :
  pages_end w repo_url n ->
  forall fuel page all_branches s,
    page <= S n -> S n - page < fuel ->
    Forall (fun i => named_item "name" i = true) all_branches ->
    returns (get_branches_from w repo_url fuel page all_branches) s
            (fun l _ => Forall (fun i => named_item "name" i = true) l).
Proof.
  intros Hend. induction fuel as [|fuel IH];
    intros page all_branches s Hp Hf Hall; [lia|].
  cbn [get_branches_from]. do 2 run_step.
  pose proof (listing_of_answer _ _ (ws_branches Hw (sent s) page)) as H.
  pose proof (Hend (sent s)) as He.
  destruct (http w (sent s) (branches_request repo_url page))
    as [msg|j] eqn:E.
  - repeat run_step. constructor.
  - destruct H as (l & -> & Hl).
    destruct l as [|b l]; cbn [Py.truthy negb]; [now run_step|].
    cbn [Py.iter]. do 2 run_step.
    assert (page <> S n).
    { intros ->. rewrite E in He. discriminate He. }
    apply IH; [lia|lia|]. apply Forall_app. auto.
Qed.

Lemma load_version_notes_returns name s :
  returns (load_version_notes w name) s (fun _ _ => True).
Proof.
  unfold load_version_notes.
  destruct (notes_file w) as [|lines [e|]]; repeat run_step; exact I.
Qed.

Lemma build_tag_to_release_returns j s :
  listing "tag_name" j ->
  returns (build_tag_to_release j) s (fun _ _ => True).
Proof.
  intros (l & -> & Hl). unfold build_tag_to_release. cbn [Py.iter].
  do 2 run_step.
  apply (@returns_for_each _ _ _ (fun i => named_item "tag_name" i = true)
                              (fun _ => True)); auto.
  intros d x s0 Hx _. now apply tag_to_release_item_returns.
Qed.

Lemma run_phases_returns ns branches releases tags s :
  Forall (fun i => named_item "name" i = true) branches ->
  listing "tag_name" releases -> listing "name" tags ->
  returns (run_phases w repo_url ns branches releases tags) s
          (fun _ _ => True).
Proof.
  intros Hb Hr Ht. unfold run_phases. run_step.
  eapply returns_weaken; [apply main_phase_returns|].
  cbv beta. intros a1 s1 _. do 3 run_step.
  eapply returns_weaken;
    [apply (@returns_for_each _ _ _ (fun i => named_item "name" i = true)
                              (fun _ => True)); auto;
     intros; now apply branch_step_returns|].
  cbv beta. intros a2 s2 _. do 2 run_step.
  destruct (first_items_listing 10 Hr) as (rl & -> & Hrl).
  do 3 run_step. cbn [Py.iter]. run_step. run_step.
  eapply returns_weaken;
    [apply (@returns_for_each _ _ _ (fun i => named_item "tag_name" i = true)
                              (fun _ => True)); auto;
     intros; now apply release_step_returns|].
  cbv beta. intros a3 s3 _. do 2 run_step.
  destruct (first_items_listing 20 Ht) as (tl & -> & Htl).
  do 3 run_step. cbn [Py.iter]. run_step.
  apply (@returns_for_each _ _ _ (fun i => named_item "name" i = true)
                              (fun _ => True)); auto.
  intros; now apply tag_step_returns.
Qed.

Lemma generate_version_table_returns n fuel s :
  pages_end w repo_url n ->
  returns (generate_version_table w (S n + fuel) repo_url) s
          (fun _ _ => True).
Proof.
  intros Hend. unfold generate_version_table, collect_version_data.
  do 4 run_step. unfold get_branches.
  eapply returns_weaken;
    [apply (get_branches_from_returns Hend); [lia|lia|constructor]|].
  cbv beta. intros branches s1 Hb. run_step.
  eapply returns_weaken; [apply get_releases_returns|].
  cbv beta. intros releases s2 Hr. run_step.
  eapply returns_weaken; [apply get_tags_returns|].
  cbv beta. intros tags s3 Ht. run_step.
  eapply returns_weaken; [apply load_version_notes_returns|].
  cbv beta. intros ns s4 _. run_step.
  eapply returns_weaken; [now apply build_tag_to_release_returns|].
  cbv beta. intros d s5 _.
  eapply returns_weaken; [now apply run_phases_returns|].
  cbv beta. intros a s6 _. now run_step.
Qed.
End WellShaped.

(* ================================================================== *)
(** ** Completion *)

(** C2, as stated, fails: a release without [tag_name] raises [KeyError]
    out of [generate_version_table], and the process ends with status 1
    and nothing on standard output. *)
Lemma nameless_release_raises :
  ~ (forall w argv,
        exists fuel table,
          run_stdout (main w fuel argv) = [table]
          /\ exit_code (main w fuel argv) = Some 0%Z).
Proof.
  intros H.
  destruct (H nameless_release_world ["generate_version_table.py"; demo_repo])
    as (fuel & table & _ & E).
  destruct fuel; vm_compute in E; discriminate E.
Qed.

Example nameless_release_run :
  fst (generate_version_table nameless_release_world 1 demo_repo start)
  = Raise KeyError
  /\ exit_code (main nameless_release_world 1
                     ["generate_version_table.py"; demo_repo]) = Some 1%Z.
Proof. split; vm_compute; reflexivity. Qed.

(** C2 (amended): when the answers of the server have the expected shapes
    (a listing is a failed request or a list of objects with a text under
    [name], for releases [tag_name]; a contents answer is a failed request
    or an object whose content is absent, a text or empty, and decodable
    when marked base64) and some page of branches is empty or fails, then,
    whatever the argument and the notes file, [generate_version_table]
    returns a string; [main] prints that string and ends with status 0
    when standard output can encode it, and otherwise prints nothing and
    ends with status 1, [print] having raised [UnicodeEncodeError]. *)
Theorem well_shaped_run_completes w argv n fuel :
  well_shaped w (repo_url_of argv) ->
  pages_end w (repo_url_of argv) n ->
  (forall s, exists table s',
      generate_version_table w (S n + fuel) (repo_url_of argv) s
      = (Ret table, s'))
  /\ exists table s',
      generate_version_table w (S n + fuel) (repo_url_of argv) (main_start argv)
      = (Ret table, s')
      /\ main w (S n + fuel) argv
         = if encodable w table
           then {| run_stdout := [table]; run_stderr := stderr s';
                   exit_code := Some 0%Z |}
           else {| run_stdout := []; run_stderr := stderr s';
                   exit_code := Some 1%Z |}.
Proof.
  intros Hw Hend.
  assert (Hg : forall s, exists table s',
               generate_version_table w (S n + fuel) (repo_url_of argv) s
               = (Ret table, s')).
  { intros s.
    destruct (generate_version_table_returns Hw fuel s Hend)
      as (table & s' & E & _).
    eauto. }
  split; [exact Hg|].
  destruct (Hg (main_start argv)) as (table & s' & E).
  exists table, s'. split; [exact E|].
  unfold main, bind, eprint. unfold main_start in E.
  cbn [stderr sent app]. rewrite E. unfold print.
  destruct (encodable w table); reflexivity.
Qed.

Lemma answer_cases table rq :
  answer table rq = RequestException "404 Client Error: Not Found"
  \/ exists q, In (q, answer table rq) table /\ request_eqb q rq = true.
Proof.
  induction table as [|[q r] table IH]; [now left|].
  cbn [answer]. destruct (request_eqb q rq) eqn:E.
  - right. exists q. split; [now left|exact E].
  - destruct IH as [IH|(q' & Hin & E')]; [now left|].
    right. exists q'. split; [now right|exact E'].
Qed.

Lemma demo_world_well_shaped : well_shaped demo_world demo_repo.
Proof.
  constructor.
  - intros h [|[|[|page]]]; reflexivity.
  - intros h. reflexivity.
  - intros h. reflexivity.
  - intros h name. cbn [demo_world http].
    match goal with
    | |- content_ok _ (answer ?t ?rq) = true =>
        destruct (answer_cases t rq) as [->|(q & Hin & E)];
          [reflexivity|];
        destruct (answer t rq) as [msg|cd]; [reflexivity|]
    end.
    cbn [In] in Hin.
    repeat (destruct Hin as [Hin|Hin]; [inversion Hin; subst q cd; clear Hin|]);
      try (vm_compute in E; discriminate E); try reflexivity.
    destruct Hin.
Qed.

Lemma ascii_stdout_world_well_shaped : well_shaped ascii_stdout_world demo_repo.
Proof.
  constructor.
  - intros h [|[|[|page]]]; reflexivity.
  - intros h. reflexivity.
  - intros h. reflexivity.
  - intros h name. cbn [ascii_stdout_world http].
    match goal with
    | |- content_ok _ (answer ?t ?rq) = true =>
        destruct (answer_cases t rq) as [->|(q & Hin & E)];
          [reflexivity|];
        destruct (answer t rq) as [msg|cd]; [reflexivity|]
    end.
    cbn [In] in Hin.
    repeat (destruct Hin as [Hin|Hin]; [inversion Hin; subst q cd; clear Hin|]);
      try (vm_compute in E; discriminate E); try reflexivity.
    destruct Hin.
Qed.

(** A run in which every answer has the expected shape, the paging ends,
    and the table names a branch with a letter that standard output cannot
    encode: [generate_version_table] returns the table, [print] raises
    [UnicodeEncodeError], nothing is printed and the status is 1. *)
Example unencodable_name_run :
  well_shaped ascii_stdout_world demo_repo
  /\ pages_end ascii_stdout_world demo_repo 1
  /\ fst (generate_version_table ascii_stdout_world 2 demo_repo start)
     = Ret (table_header ++ "| " ++ cafe ++ " | 1.22 |  |  |  |" ++ nl)
  /\ print ascii_stdout_world
           (table_header ++ "| " ++ cafe ++ " | 1.22 |  |  |  |" ++ nl)
     = Raise UnicodeEncodeError
  /\ main ascii_stdout_world 2 ["generate_version_table.py"; demo_repo]
     = {| run_stdout := [];
          run_stderr :=
            ["Generating version table for " ++ demo_repo ++ "...";
             "Fetching branches, releases and tags...";
             "Warning: version-notes.txt not found";
             "Processing main branch...";
             "Error fetching go.mod for main: 404 Client Error: Not Found";
             "Processing 1 branches...";
             "Processing branch " ++ cafe ++ "...";
             "Processing releases...";
             "Processing tags..."];
          exit_code := Some 1%Z |}.
Proof.
  split; [exact ascii_stdout_world_well_shaped|].
  split; [intros h; reflexivity|].
  repeat split; vm_compute; reflexivity.
Qed.

Lemma well_shaped_run_completes_witness :
  (forall s, exists table s',
      generate_version_table demo_world 3 demo_repo s = (Ret table, s'))
  /\ exists table s',
      generate_version_table
        demo_world 3 demo_repo
        (main_start ["generate_version_table.py"; demo_repo])
      = (Ret table, s')
      /\ main demo_world 3 ["generate_version_table.py"; demo_repo]
         = if encodable demo_world table
           then {| run_stdout := [table]; run_stderr := stderr s';
                   exit_code := Some 0%Z |}
           else {| run_stdout := []; run_stderr := stderr s';
                   exit_code := Some 1%Z |}.
Proof.
  apply (@well_shaped_run_completes demo_world
           ["generate_version_table.py"; demo_repo] 1 1).
  - exact demo_world_well_shaped.
  - intros h. reflexivity.
Defined.

(* ================================================================== *)
(** ** The sentinel *)

Lemma parse_go_mod_nothing text :
  no_pattern_matches text ->
  parse_go_mod (JStr text) = Ret (None, None, None).
Proof.
  intros (Hg & Hr & Hs). unfold parse_go_mod.
  destruct (negb (Py.truthy (JStr text))); [reflexivity|].
  unfold parse_go_mod_text. now rewrite Hg, Hr, Hs.
Qed.

Section NoData.
Variables (w : world) (repo_url : string).
Hypothesis no_branches :
  forall h, http w h (branches_request repo_url 1) = Body (JArr []).
Hypothesis no_releases :
  forall h, http w h (releases_request repo_url) = Body (JArr []).
Hypothesis no_tags :
  forall h, http w h (tags_request repo_url) = Body (JArr []).
Hypothesis main_manifest :
  forall h, exists text,
    manifest_of w (http w h (go_mod_request repo_url (SStr "main"))) text
    /\ no_pattern_matches text.

Lemma run_phases_nothing ns s :
  returns (run_phases w repo_url ns [] (JArr []) (JArr [])) s
          (fun a _ => version_data a = []).
Proof.
  unfold run_phases, main_phase, get_main_branch_info, get_go_mod_content.
  do 7 run_step. cbn [sent].
  destruct (main_manifest (sent s)) as (text & (cd & -> & Hd) & Hn).
  rewrite Hd. run_step. rewrite (parse_go_mod_nothing Hn).
  repeat run_step. reflexivity.
Qed.

Lemma collect_nothing fuel s :
  returns (collect_version_data w (S fuel) repo_url) s
          (fun a _ => version_data a = []).
Proof.
  unfold collect_version_data, get_branches, get_releases, get_tags.
  cbn [get_branches_from]. do 5 run_step. rewrite no_branches.
  cbn [Py.truthy negb]. do 4 run_step. rewrite no_releases.
  do 4 run_step. rewrite no_tags. do 2 run_step.
  eapply returns_weaken; [apply load_version_notes_returns|].
  cbv beta. intros ns s1 _. unfold build_tag_to_release.
  cbn [Py.iter for_each]. do 4 run_step. apply run_phases_nothing.
Qed.
End NoData.

(** C4: when the four phases produce no record, [generate_version_table]
    returns exactly the text [No version data found.]; this is so in
    particular with no branches, no releases, no tags and a manifest of
    the main branch in which none of the three patterns matches. *)
Theorem no_data_sentinel :
  (forall w fuel repo_url s a s',
      collect_version_data w fuel repo_url s = (Ret a, s') ->
      version_data a = [] ->
      generate_version_table w fuel repo_url s
      = (Ret "No version data found.", s'))
  /\ (forall w fuel repo_url s,
         (forall h, http w h (branches_request repo_url 1) = Body (JArr [])) ->
         (forall h, http w h (releases_request repo_url) = Body (JArr [])) ->
         (forall h, http w h (tags_request repo_url) = Body (JArr [])) ->
         (forall h, exists text,
             manifest_of w (http w h (go_mod_request repo_url (SStr "main")))
                         text
             /\ no_pattern_matches text) ->
         exists s',
           generate_version_table w (S fuel) repo_url s
           = (Ret "No version data found.", s')).
Proof.
  split.
  - intros w fuel repo_url s a s' Hc Hv.
    unfold generate_version_table, bind. now rewrite Hc, Hv.
  - intros w fuel repo_url s Hb Hr Ht Hm.
    destruct (@collect_nothing w repo_url Hb Hr Ht Hm fuel s)
      as (a & s' & Hc & Hv).
    exists s'. unfold generate_version_table, bind. now rewrite Hc, Hv.
Qed.

Lemma no_data_sentinel_witness :
  exists s',
    generate_version_table quiet_world 1 demo_repo start
    = (Ret "No version data found.", s').
Proof.
  apply (proj2 no_data_sentinel quiet_world 0 demo_repo start).
  - intros h. reflexivity.
  - intros h. reflexivity.
  - intros h. reflexivity.
  - intros h. exists ("module m" ++ nl). split.
    + eexists. split; reflexivity.
    + repeat split; reflexivity.
Defined.

Lemma get_branches_paging_witness :
  get_branches demo_world (1 + 1) demo_repo start
  = (Ret demo_branches, after_pages demo_repo 1 2 start)
  /\ nth_error (sent (after_pages demo_repo 1 2 start)) (0 + 1)
     = Some {| url := api_url demo_repo ++ "/branches";
               params := [("page", 1 + 1); ("per_page", 100)] |}.
Proof.
  assert (H : serves_pages demo_world demo_repo 1 [demo_branches] start).
  { intros [|[|i]] page Hi; inversion Hi; subst page.
    split; [discriminate|reflexivity]. }
  split.
  - apply (proj1 (get_branches_paging 0 H)). reflexivity.
  - apply (proj2 (proj2 (get_branches_paging 0 H)) 1). simpl. lia.
Defined.


(* ================================================================== *)
(** ** What [parse_go_mod] returns *)

(** A search that succeeds found the first position at which the pattern
    matches. *)
Lemma search_from_split ml r s :
  forall prev g,
    search_from ml r prev s = Some g ->
    exists pre rest,
      s = pre ++ rest
      /\ no_match_before ml r prev s (String.length pre) = true
      /\ match_at ml r (last_char pre prev) rest = Some g.
Proof.
  induction s as [|c s IH]; intros prev g H; cbn [search_from] in H.
  - destruct (match_at ml r prev "") as [g0|] eqn:E; [|discriminate].
    exists "", "". split; [reflexivity|]. split; [reflexivity|].
    cbn [last_char]. congruence.
  - destruct (match_at ml r prev (String c s)) as [g0|] eqn:E.
    + exists "", (String c s). split; [reflexivity|]. split; [reflexivity|].
      cbn [last_char]. congruence.
    + apply IH in H as (pre & rest & -> & Hn & Hm).
      exists (String c pre), rest. split; [reflexivity|].
      split; [|exact Hm].
      cbn [String.length no_match_before append]. now rewrite E.
Qed.

(** The parts of a text at which the go directive pattern matches. *)
Lemma go_match_parts prev s g :
  match_at true go_pattern prev s = Some g ->
  exists ws v post,
    s = "go" ++ ws ++ v ++ post
    /\ at_bol true prev = true
    /\ run_of is_space ws = true
    /\ g = Some v /\ dotted_2_or_3 v = true.
Proof.
  unfold match_at, go_pattern. cbn [Cat m].
  destruct (at_bol true prev); [|discriminate].
  rewrite m_Lit. destruct (String.prefix "go" s) eqn:Hp; [|discriminate].
  apply prefix_split in Hp. intros H.
  apply plus_cls_inv in H as (ws & r0 & Hs & Hws & H).
  rewrite Hs in Hp. clear Hs.
  apply plus_cls_inv in H as (d1 & r1 & -> & Hd1 & H).
  destruct r1 as [|c r1]; [discriminate|].
  destruct (Ascii.eqb_spec "." c) as [<-|]; [|discriminate].
  apply plus_cls_inv in H as (d2 & r2 & -> & Hd2 & H).
  match type of H with
  | match ?inner with _ => _ end = _ => destruct inner as [x|] eqn:Hin
  end.
  - destruct r2 as [|c2 r2]; [discriminate|].
    destruct (Ascii.eqb_spec "." c2) as [<-|]; [|discriminate].
    apply plus_cls_inv in Hin as (d3 & r3 & -> & Hd3 & Hin).
    inversion H; subst g. inversion Hin; subst x.
    assert (E : d1 ++ String "." (d2 ++ String "." (d3 ++ r3))
                = (d1 ++ String "." (d2 ++ String "." d3)) ++ r3)
      by (rewrite !append_assoc'; simpl; rewrite !append_assoc'; reflexivity).
    rewrite E in *. rewrite take_append_exact.
    exists ws, (d1 ++ String "." (d2 ++ String "." d3)), r3.
    repeat split; auto. now apply dotted_three.
  - inversion H; subst g.
    assert (E : d1 ++ String "." (d2 ++ r2) = (d1 ++ String "." d2) ++ r2)
      by (rewrite append_assoc'; reflexivity).
    rewrite E in *. rewrite take_append_exact.
    exists ws, (d1 ++ String "." d2), r2.
    repeat split; auto. now apply dotted_two.
Qed.

(** The parts of a text at which a dependency pattern matches. *)
Lemma dep_match_parts (path : string) prev s g :
  match_at true
    (Cat [Lit path; Plus is_space; Grp (Cat [Chr "v"; Plus is_digit_or_dot])])
    prev s = Some g ->
  exists ws ver post,
    s = path ++ ws ++ "v" ++ ver ++ post
    /\ run_of is_space ws = true
    /\ run_of is_digit_or_dot ver = true
    /\ g = Some ("v" ++ ver).
Proof.
  unfold match_at. cbn [Cat m]. rewrite m_Lit.
  destruct (String.prefix path s) eqn:Hp; [|discriminate].
  apply prefix_split in Hp. intros H.
  apply plus_cls_inv in H as (ws & r0 & Hs & Hws & H).
  rewrite Hs in Hp. clear Hs.
  destruct r0 as [|c r0]; [discriminate|].
  destruct (Ascii.eqb_spec "v" c) as [<-|]; [|discriminate].
  apply plus_cls_inv in H as (ver & post & -> & Hver & H).
  change (String "v" (ver ++ post)) with (String "v" ver ++ post) in H.
  rewrite take_append_exact in H. inversion H; subst g.
  exists ws, ver, post. repeat split; auto.
Qed.

Lemma parse_go_mod_text_of content vs :
  parse_go_mod content = Ret vs ->
  vs = (None, None, None)
  \/ exists text, content = JStr text /\ vs = parse_go_mod_text text.
Proof.
  unfold parse_go_mod. destruct (negb (Py.truthy content)).
  - intros H. left. congruence.
  - destruct content; try discriminate. intros H. right.
    eexists. split; [reflexivity|congruence].
Qed.

Lemma group1_search ml r text v :
  group1 (search ml r text) = Some v ->
  exists pre rest,
    text = pre ++ rest
    /\ no_match_before ml r None text (String.length pre) = true
    /\ match_at ml r (last_char pre None) rest = Some (Some v).
Proof.
  unfold search. destruct (search_from ml r None text) as [g|] eqn:E;
    [|discriminate].
  cbn [group1]. intros ->. now apply search_from_split.
Qed.

(** X1: a runtime version that [parse_go_mod] returns stands in the
    manifest: at the start of the text or right after a newline comes [go],
    then whitespace, then the version; and no earlier position matches. *)
Theorem runtime_version_stands_in_a_go_directive content v r s :
  parse_go_mod content = Ret (Some v, r, s) ->
  exists pre ws post,
    content = JStr (pre ++ "go" ++ ws ++ v ++ post)
    /\ at_bol true (last_char pre None) = true
    /\ run_of is_space ws = true
    /\ no_match_before true go_pattern None (pre ++ "go" ++ ws ++ v ++ post)
                       (String.length pre) = true.
Proof.
  intros H. apply parse_go_mod_text_of in H as [H|(text & -> & H)];
    [discriminate|].
  unfold parse_go_mod_text in H. inversion H as [[Hg Hr Hs]].
  symmetry in Hg. apply group1_search in Hg as (pre & rest & -> & Hn & Hm).
  apply go_match_parts in Hm as (ws & v' & post & -> & Hb & Hws & E & _).
  inversion E; subst v'. exists pre, ws, post. auto.
Qed.

Lemma runtime_version_stands_in_a_go_directive_witness :
  exists pre ws post,
    JStr ("module m" ++ nl ++ "go   1.22.4" ++ nl)
    = JStr (pre ++ "go" ++ ws ++ "1.22.4" ++ post)
    /\ at_bol true (last_char pre None) = true
    /\ run_of is_space ws = true
    /\ no_match_before true go_pattern None
         (pre ++ "go" ++ ws ++ "1.22.4" ++ post) (String.length pre) = true.
Proof.
  apply (@runtime_version_stands_in_a_go_directive
           (JStr ("module m" ++ nl ++ "go   1.22.4" ++ nl)) "1.22.4" None None).
  reflexivity.
Defined.

(** X2: a dependency version that [parse_go_mod] returns stands in the
    manifest after the module path and whitespace, and is [v] followed by
    a non-empty run of digits and dots; this holds for rest-api and for
    sdk-go. *)
Theorem dependency_versions_stand_after_their_paths content g r s :
  parse_go_mod content = Ret (g, r, s) ->
  (forall v, r = Some v ->
     exists pre ws ver post,
       content = JStr (pre ++ "github.com/redhat-cne/rest-api" ++ ws
                       ++ v ++ post)
       /\ run_of is_space ws = true
       /\ v = "v" ++ ver /\ run_of is_digit_or_dot ver = true)
  /\ (forall v, s = Some v ->
        exists pre ws ver post,
          content = JStr (pre ++ "github.com/redhat-cne/sdk-go" ++ ws
                          ++ v ++ post)
          /\ run_of is_space ws = true
          /\ v = "v" ++ ver /\ run_of is_digit_or_dot ver = true).
Proof.
  intros H. apply parse_go_mod_text_of in H as [H|(text & -> & H)].
  - inversion H. split; intros v Hv; discriminate.
  - unfold parse_go_mod_text in H. inversion H as [[Hg Hr Hs]].
    split; intros v Hv; subst.
    + apply group1_search in Hv as (pre & rest & -> & _ & Hm).
      apply dep_match_parts in Hm as (ws & ver & post & -> & Hws & Hver & E).
      inversion E; subst v. exists pre, ws, ver, post. auto.
    + apply group1_search in Hv as (pre & rest & -> & _ & Hm).
      apply dep_match_parts in Hm as (ws & ver & post & -> & Hws & Hver & E).
      inversion E; subst v. exists pre, ws, ver, post. auto.
Qed.

Lemma dependency_versions_stand_after_their_paths_witness :
  exists pre ws ver post,
    JStr ("require github.com/redhat-cne/sdk-go v1.0.1-0.2023" ++ nl)
    = JStr (pre ++ "github.com/redhat-cne/sdk-go" ++ ws ++ "v1.0.1" ++ post)
    /\ run_of is_space ws = true
    /\ "v1.0.1" = "v" ++ ver /\ run_of is_digit_or_dot ver = true.
Proof.
  apply (proj2 (@dependency_versions_stand_after_their_paths
                  (JStr ("require github.com/redhat-cne/sdk-go v1.0.1-0.2023"
                         ++ nl))
                  None None (Some "v1.0.1") eq_refl)).
  reflexivity.
Defined.

Lemma parse_go_mod_fields_not_empty content g r s :
  parse_go_mod content = Ret (g, r, s) ->
  forall v, In (Some v) [g; r; s] -> v <> "".
Proof.
  intros H. apply parse_go_mod_text_of in H as [H|(text & -> & H)].
  - inversion H. intros v [E|[E|[E|[]]]]; discriminate.
  - unfold parse_go_mod_text in H. inversion H as [[Hg Hr Hs]].
    intros v [E|[E|[E|[]]]];
      apply group1_search in E as (pre & rest & _ & _ & Hm).
    + apply go_match_parts in Hm as (_ & v' & _ & _ & _ & _ & E & Hv).
      inversion E; subst v'. intros ->. discriminate.
    + apply dep_match_parts in Hm as (_ & ver & _ & _ & _ & _ & E).
      inversion E. discriminate.
    + apply dep_match_parts in Hm as (_ & ver & _ & _ & _ & _ & E).
      inversion E. discriminate.
Qed.

(** X3: no field that [parse_go_mod] returns is the empty text, so the test
    [golang_ver or rest_api_ver or sdk_go_ver] holds exactly when one of
    the three patterns matched. *)
Theorem versions_found_iff_a_pattern_matched content g r s :
  parse_go_mod content = Ret (g, r, s) ->
  (forall v, In (Some v) [g; r; s] -> v <> "")
  /\ (any_version (g, r, s) = true <-> (g, r, s) <> (None, None, None)).
Proof.
  intros H. pose proof (parse_go_mod_fields_not_empty _ H) as Hne.
  split; [exact Hne|].
  cbn [any_version]. split.
  - intros Ha E. inversion E; subst. discriminate.
  - intros Hn.
    destruct g as [[|? ?]|]; [destruct (Hne ""); simpl; auto|reflexivity|].
    destruct r as [[|? ?]|]; [destruct (Hne ""); simpl; auto|reflexivity|].
    destruct s as [[|? ?]|]; [destruct (Hne ""); simpl; auto|reflexivity|].
    contradiction.
Qed.

Lemma versions_found_iff_a_pattern_matched_witness :
  (forall v, In (Some v) [None; None; Some "v0.1.0"] -> v <> "")
  /\ (any_version (None, None, Some "v0.1.0") = true
      <-> (None, None, Some "v0.1.0") <> (None : option string, None : option string, None : option string)).
Proof.
  apply (@versions_found_iff_a_pattern_matched
           (JStr "github.com/redhat-cne/sdk-go v0.1.0")).
  reflexivity.
Defined.

(* ================================================================== *)
(** ** Names *)

Lemma digits_are_digits_or_dots s :
  all_chars is_digit s = true -> all_chars is_digit_or_dot s = true.
Proof.
  induction s as [|c s IH]; [reflexivity|]. cbn [all_chars]. intros H.
  apply andb_true_iff in H as [Hc Hs]. rewrite (IH Hs).
  unfold is_digit_or_dot. now rewrite Hc.
Qed.

(** X4: the third alternative of the tag pattern, [4\.\d+], accepts nothing
    that the first does not: the test of the tag loop is the same without
    it. *)
Theorem tag_pattern_third_alternative_is_covered s :
  tag_allowed s = is_some (match_ tag_pattern_without_third s).
Proof.
  rewrite tag_allowed_chomp.
  unfold match_, match_at, tag_pattern_without_third.
  cbn [Cat m at_bol]. rewrite !is_some_orelse, !m_Lit.
  unfold spec_tag_allowed.
  pose proof (chomp_literal "v" s (run_of is_digit_or_dot) eq_refl) as L1.
  pose proof (chomp_literal "release-" s (run_of is_digit_or_dot) eq_refl)
    as L2.
  pose proof (chomp_literal "4." s (run_of is_digit) eq_refl) as L3.
  cbn [String.length] in L1, L2, L3 |- *. rewrite L1, L2, L3. clear L1 L2 L3.
  unfold startswith.
  rewrite (optional_v_is_some s
             (fun s' => plus_cls is_digit_or_dot s' None _)).
  rewrite !is_some_if, !plus_eol_is_some by reflexivity.
  assert (H4 : String.prefix "4." s && run_of is_digit (chomp (drop 2 s))
               = true ->
               run_of is_digit_or_dot (chomp s) = true).
  { intros H. apply andb_true_iff in H as [Hp Hr].
    apply prefix_split in Hp. cbn [String.length] in Hp.
    rewrite Hp, chomp_append by reflexivity.
    apply run_all, digits_are_digits_or_dots in Hr. exact Hr. }
  destruct (String.prefix "4." s && run_of is_digit (chomp (drop 2 s)));
    [rewrite H4 by reflexivity|];
    destruct (String.prefix "v" s), (String.prefix "release-" s),
      (run_of is_digit_or_dot (chomp s)),
      (run_of is_digit_or_dot (chomp (drop 1 s))),
      (run_of is_digit_or_dot (chomp (drop 8 s))); reflexivity.
Qed.

(** X5: two names that [normalize_version_name] shows alike are the same
    name, or one of them is the other with a [v] put before it. *)
Theorem normalize_version_name_collisions s t :
  normalize_version_name s = normalize_version_name t ->
  s = t \/ s = "v" ++ t \/ t = "v" ++ s.
Proof.
  unfold normalize_version_name, startswith.
  destruct (String.prefix "v" s) eqn:Hs, (String.prefix "v" t) eqn:Ht;
    try (apply prefix_split in Hs; cbn [String.length] in Hs);
    try (apply prefix_split in Ht; cbn [String.length] in Ht);
    intros E.
  - left. congruence.
  - right. left. congruence.
  - right. right. congruence.
  - now left.
Qed.

Lemma normalize_version_name_collisions_witness :
  "v1.2.3" = "1.2.3" \/ "v1.2.3" = "v" ++ "1.2.3" \/ "1.2.3" = "v" ++ "v1.2.3".
Proof.
  apply (@normalize_version_name_collisions "v1.2.3" "1.2.3"). reflexivity.
Defined.

(* ================================================================== *)
(** ** The address of the API *)

Lemma prefix_length l s :
  String.prefix l s = true -> String.length l <= String.length s.
Proof.
  intros H. rewrite (prefix_split _ _ H), length_append. lia.
Qed.

Lemma prefix_snoc_slash l s :
  all_chars (fun c => negb (Ascii.eqb c "/")) l = true ->
  l <> "" ->
  String.prefix l (s ++ "/") = String.prefix l s.
Proof.
  revert s. induction l as [|a l IH]; intros s Hl Hne; [contradiction|].
  cbn [all_chars] in Hl. apply andb_true_iff in Hl as [Ha Hl].
  destruct s as [|c s]; cbn [append String.prefix].
  - destruct (ascii_dec a "/") as [->|]; [discriminate|reflexivity].
  - destruct (ascii_dec a c); [|reflexivity].
    destruct l as [|b l]; [now destruct s|].
    apply IH; [exact Hl|discriminate].
Qed.

Lemma replace_from_snoc_slash (old new : string) :
  all_chars (fun c => negb (Ascii.eqb c "/")) old = true ->
  old <> "" ->
  forall s k,
    k <= String.length s ->
    replace_from old new k (s ++ "/") = replace_from old new k s ++ "/".
Proof.
  intros Hold Hne. induction s as [|c s IH]; intros k Hk.
  - cbn [String.length] in Hk. assert (k = 0) as -> by lia.
    pose proof (@prefix_snoc_slash old "" Hold Hne) as Hp.
    cbn [append replace_from] in Hp |- *. rewrite Hp.
    destruct old; [contradiction|reflexivity].
  - cbn [append replace_from]. destruct k as [|k].
    + change (String c (s ++ "/")) with (String c s ++ "/").
      rewrite (@prefix_snoc_slash old (String c s) Hold Hne).
      destruct (String.prefix old (String c s)) eqn:Hp.
      * apply prefix_length in Hp. cbn [String.length] in Hp.
        rewrite IH by lia. now rewrite append_assoc'.
      * cbn [append]. rewrite IH by lia. reflexivity.
    + cbn [String.length] in Hk. apply IH. lia.
Qed.

Lemma rstrip_by_snoc p s c :
  p c = true -> rstrip_by p (s ++ String c "") = rstrip_by p s.
Proof.
  intros Hc. induction s as [|d s IH]; cbn [append rstrip_by].
  - now rewrite Hc.
  - now rewrite IH.
Qed.

Lemma rstrip_by_last p s c :
  last_char (rstrip_by p s) None = Some c -> p c = false.
Proof.
  assert (G : forall s prev, rstrip_by p s <> "" ->
            last_char (rstrip_by p s) prev = Some c -> p c = false).
  { clear s. induction s as [|d s IH]; intros prev Hne H;
      [contradiction|].
    cbn [rstrip_by] in *. destruct (rstrip_by p s) as [|e r] eqn:E.
    - destruct (p d) eqn:Hd; [contradiction|].
      cbn [last_char] in H. congruence.
    - cbn [last_char] in H. apply (IH (Some d)); [discriminate|].
      exact H. }
  intros H. destruct (rstrip_by p s) eqn:E; [discriminate|].
  apply (G s None); [congruence|]. now rewrite E.
Qed.

(** X6: the API address computed from a repository URL never ends with a
    slash, and a slash put after the URL does not change it. *)
Theorem api_url_ignores_trailing_slash repo_url :
  last_char (api_url repo_url) None <> Some "/"%char
  /\ api_url (repo_url ++ "/") = api_url repo_url.
Proof.
  split.
  - intros H. apply rstrip_by_last in H. discriminate.
  - unfold api_url, replace, rstrip_slash.
    rewrite replace_from_snoc_slash by (try reflexivity; try discriminate; lia).
    now apply rstrip_by_snoc.
Qed.

(* ================================================================== *)
(** ** The notes file *)

Lemma lstrip_blank ws s :
  all_chars is_space ws = true -> lstrip (ws ++ s) = lstrip s.
Proof.
  induction ws as [|c ws IH]; [reflexivity|]. cbn [all_chars append lstrip].
  intros H. apply andb_true_iff in H as [-> H]. auto.
Qed.

Lemma lstrip_at_word c s : is_space c = false -> lstrip (String c s) = String c s.
Proof. intros H. cbn [lstrip]. now rewrite H. Qed.

Lemma rstrip_by_blank p ws :
  all_chars p ws = true -> forall s, rstrip_by p (s ++ ws) = rstrip_by p s.
Proof.
  induction ws as [|c ws IH]; intros H s; [now rewrite append_nil_r|].
  cbn [all_chars] in H. apply andb_true_iff in H as [Hc H].
  change (String c ws) with (String c "" ++ ws).
  rewrite <- append_assoc', IH by exact H. now apply rstrip_by_snoc.
Qed.

Lemma rstrip_by_kept p s :
  forall prev c,
    s <> "" -> last_char s prev = Some c -> p c = false ->
    rstrip_by p s = s.
Proof.
  induction s as [|d s IH]; intros prev c Hne Hl Hc; [contradiction|].
  cbn [rstrip_by last_char] in *. destruct s as [|e s].
  - cbn [rstrip_by last_char] in *. inversion Hl; subst. now rewrite Hc.
  - rewrite (IH (Some d) c); [reflexivity|discriminate|exact Hl|exact Hc].
Qed.

Lemma last_char_append a b prev :
  b <> "" -> last_char (a ++ b) prev = last_char b None.
Proof.
  revert prev. induction a as [|c a IH]; intros prev Hb; cbn [append last_char].
  - destruct b; [contradiction|reflexivity].
  - now apply IH.
Qed.

Lemma span_word_at_space key rest :
  all_chars (fun c => negb (is_space c)) key = true ->
  match rest with String c _ => is_space c = true | EmptyString => True end ->
  span_word (key ++ rest) = (key, rest).
Proof.
  intros Hk Hr. induction key as [|c key IH]; cbn [append].
  - destruct rest as [|c r]; [reflexivity|]. cbn [span_word]. now rewrite Hr.
  - cbn [all_chars] in Hk. apply andb_true_iff in Hk as [Hc Hk].
    apply negb_true_iff in Hc. cbn [span_word]. now rewrite Hc, IH.
Qed.

Lemma trimmed_parts v :
  trimmed v = true ->
  exists c r d,
    v = String c r /\ is_space c = false
    /\ last_char v None = Some d /\ is_space d = false.
Proof.
  destruct v as [|c r]; [discriminate|]. unfold trimmed.
  destruct (last_char (String c r) None) as [d|] eqn:E;
    intros H; apply andb_true_iff in H as [Hc Hd]; [|discriminate].
  apply negb_true_iff in Hc, Hd. exists c, r, d. auto.
Qed.

Lemma strip_note_line lead key sep value trail :
  all_chars is_space lead = true -> word key = true ->
  run_of is_space sep = true -> trimmed value = true ->
  all_chars is_space trail = true ->
  strip (lead ++ key ++ sep ++ value ++ trail) = key ++ sep ++ value.
Proof.
  intros Hl Hk Hs Hv Ht. unfold strip. rewrite lstrip_blank by exact Hl.
  destruct (run_head _ _ Hk) as (c & key' & -> & Hc).
  apply negb_true_iff in Hc. cbn [append]. rewrite lstrip_at_word by exact Hc.
  change (String c (key' ++ sep ++ value ++ trail))
    with (String c key' ++ sep ++ value ++ trail).
  rewrite <- !append_assoc'. rewrite rstrip_by_blank by exact Ht.
  destruct (trimmed_parts _ Hv) as (e & r & d & Ev & He & Hd & Hds).
  apply (@rstrip_by_kept _ _ None d); [discriminate| |exact Hds].
  rewrite last_char_append; [exact Hd|]. rewrite Ev. discriminate.
Qed.

Lemma split_note_line key sep value :
  word key = true -> run_of is_space sep = true -> trimmed value = true ->
  split_maxsplit1 (key ++ sep ++ value) = [key; value].
Proof.
  intros Hk Hs Hv. unfold split_maxsplit1.
  destruct (run_head _ _ Hk) as (c & key' & Ek & Hc).
  apply negb_true_iff in Hc.
  assert (El : lstrip (key ++ sep ++ value) = key ++ sep ++ value)
    by (rewrite Ek; cbn [append]; now apply lstrip_at_word).
  rewrite El. destruct (key ++ sep ++ value) eqn:E;
    [rewrite Ek in E; discriminate|]. rewrite <- E.
  rewrite span_word_at_space.
  - rewrite lstrip_blank by now apply run_all.
    destruct (trimmed_parts _ Hv) as (e & r & d & -> & He & _).
    now rewrite lstrip_at_word.
  - now apply run_all.
  - destruct (run_head _ _ Hs) as (e & sep' & -> & He). exact He.
Qed.

Lemma blank_line_has_no_parts line :
  all_chars is_space line = true -> split_maxsplit1 (strip line) = [].
Proof.
  intros H. unfold strip, split_maxsplit1.
  assert (E : lstrip line = "").
  { induction line as [|c l IH]; [reflexivity|]. cbn [all_chars] in H.
    apply andb_true_iff in H as [Hc H]. cbn [lstrip]. rewrite Hc. auto. }
  now rewrite E.
Qed.

Lemma word_alone_is_one_part lead key trail :
  all_chars is_space lead = true -> word key = true ->
  all_chars is_space trail = true ->
  split_maxsplit1 (strip (lead ++ key ++ trail)) = [key].
Proof.
  intros Hl Hk Ht. unfold strip. rewrite lstrip_blank by exact Hl.
  destruct (run_head _ _ Hk) as (c & key' & Ek & Hc).
  apply negb_true_iff in Hc.
  assert (Elast : exists d, last_char key None = Some d /\ is_space d = false).
  { assert (G : forall s prev,
               all_chars (fun c => negb (is_space c)) s = true ->
               match prev with
               | Some p => is_space p = false
               | None => s <> ""
               end ->
               exists d, last_char s prev = Some d /\ is_space d = false).
    { induction s as [|x s IH]; intros prev H Hp; cbn [last_char].
      - destruct prev; [eauto|contradiction].
      - cbn [all_chars] in H. apply andb_true_iff in H as [Hx H].
        apply negb_true_iff in Hx. now apply IH. }
    apply G; [now apply run_all|]. rewrite Ek. discriminate. }
  destruct Elast as (d & Hd & Hds).
  assert (E : rstrip_by is_space (lstrip (key ++ trail)) = key).
  { rewrite Ek. cbn [append]. rewrite lstrip_at_word by exact Hc.
    change (String c (key' ++ trail)) with (String c key' ++ trail).
    rewrite rstrip_by_blank by exact Ht. rewrite <- Ek.
    apply (@rstrip_by_kept _ _ None d); auto. rewrite Ek. discriminate. }
  rewrite E. unfold split_maxsplit1.
  assert (El : lstrip key = key).
  { rewrite Ek. apply lstrip_at_word. exact Hc. }
  rewrite El. rewrite Ek at 1. rewrite <- Ek.
  rewrite <- (append_nil_r key) at 1.
  rewrite span_word_at_space; [reflexivity|now apply run_all|exact I].
Qed.

(** X7: how a line of the notes file is read.  A line of a word, whitespace
    and a text, with any whitespace before and after, binds the word to the
    text, inner whitespace of the text kept; a blank line and a line of one
    word bind nothing. *)
Theorem notes_line_reading ns :
  (forall lead key sep value trail,
      all_chars is_space lead = true -> word key = true ->
      run_of is_space sep = true -> trimmed value = true ->
      all_chars is_space trail = true ->
      add_note_line ns (lead ++ key ++ sep ++ value ++ trail)
      = (key, value) :: ns)
  /\ (forall line, all_chars is_space line = true -> add_note_line ns line = ns)
  /\ (forall lead key trail,
         all_chars is_space lead = true -> word key = true ->
         all_chars is_space trail = true ->
         add_note_line ns (lead ++ key ++ trail) = ns).
Proof.
  split; [|split].
  - intros lead key sep value trail Hl Hk Hs Hv Ht. unfold add_note_line.
    now rewrite strip_note_line, split_note_line.
  - intros line H. unfold add_note_line.
    now rewrite blank_line_has_no_parts.
  - intros lead key trail Hl Hk Ht. unfold add_note_line.
    now rewrite word_alone_is_one_part.
Qed.

Lemma notes_line_reading_witness :
  add_note_line [] (("  " ++ "release-4.18" ++ (" " ++ " ")
                     ++ "end of  life" ++ nl))
  = [("release-4.18", "end of  life")]
  /\ add_note_line [("a", "b")] ("  " ++ nl) = [("a", "b")]
  /\ add_note_line [("a", "b")] ("" ++ "lonely" ++ nl) = [("a", "b")].
Proof.
  split; [|split].
  - apply (proj1 (notes_line_reading [])
             "  " "release-4.18" "  " "end of  life" nl); reflexivity.
  - apply (proj1 (proj2 (notes_line_reading [("a", "b")]))). reflexivity.
  - apply (proj2 (proj2 (notes_line_reading [("a", "b")]))
             "" "lonely" nl); reflexivity.
Defined.

Lemma add_note_line_cases ns line :
  add_note_line ns line = (add_note_line [] line ++ ns)%list.
Proof.
  unfold add_note_line.
  destruct (split_maxsplit1 (strip line)) as [|k [|v [|x l]]]; reflexivity.
Qed.

Lemma add_note_line_binding line :
  add_note_line [] line = []
  \/ exists k v, add_note_line [] line = [(k, v)].
Proof.
  unfold add_note_line.
  destruct (split_maxsplit1 (strip line)) as [|k [|v [|x l]]]; eauto.
Qed.

Lemma notes_get_after_lines key lines :
  Forall (fun l => forall v, add_note_line [] l <> [(key, v)]) lines ->
  forall ns,
    notes_get (fold_left add_note_line lines ns) (SStr key)
    = notes_get ns (SStr key).
Proof.
  induction 1 as [|l lines Hl _ IH]; intros ns; [reflexivity|].
  cbn [fold_left]. rewrite IH, add_note_line_cases.
  destruct (add_note_line_binding l) as [->|(k & v & E)]; [reflexivity|].
  rewrite E. cbn [app notes_get Py.eqb].
  destruct (String.eqb_spec k key) as [->|]; [|reflexivity].
  now destruct (Hl v).
Qed.

(** X8: the note of a key is the text of the last line of the file that
    binds the key, whatever the lines before it. *)
Theorem last_note_line_wins w before line after err key value name s :
  notes_file w = FileLines (before ++ line :: after) err ->
  add_note_line [] line = [(key, value)] ->
  Forall (fun l => forall v, add_note_line [] l <> [(key, v)]) after ->
  exists ns s',
    load_version_notes w name s = (Ret ns, s')
    /\ notes_get ns (SStr key) = value.
Proof.
  intros Hf Hl Ha.
  assert (G : notes_get (fold_left add_note_line (before ++ line :: after) [])
                        (SStr key) = value).
  { rewrite fold_left_app. cbn [fold_left].
    rewrite notes_get_after_lines by exact Ha.
    rewrite add_note_line_cases, Hl. cbn [app notes_get Py.eqb].
    now rewrite String.eqb_refl. }
  unfold load_version_notes. rewrite Hf.
  destruct err; unfold bind, eprint, ret; eauto.
Qed.

Lemma last_note_line_wins_witness :
  exists ns s',
    load_version_notes
      {| http := http demo_world;
         notes_file := FileLines (["main old" ++ nl] ++ ("main  new" ++ nl)
                                    :: ["v1 other"; "main"]) None;
         b64decode_utf8 := b64decode_utf8 demo_world;
         stdout_charset := fun _ => true |}
      "version-notes.txt" start = (Ret ns, s')
    /\ notes_get ns (SStr "main") = "new".
Proof.
  eapply (@last_note_line_wins _ ["main old" ++ nl] ("main  new" ++ nl)
            ["v1 other"; "main"] None "main" "new").
  - reflexivity.
  - reflexivity.
  - repeat constructor; intros v H; vm_compute in H; discriminate H.
Defined.

Lemma span_word_parts s :
  s = fst (span_word s) ++ snd (span_word s)
  /\ all_chars (fun c => negb (is_space c)) (fst (span_word s)) = true.
Proof.
  induction s as [|c s [IH1 IH2]]; [now split|].
  cbn [span_word]. destruct (is_space c) eqn:E; [now split|].
  destruct (span_word s) as [w r]. cbn [fst snd] in *. split.
  - cbn [append]. now rewrite <- IH1.
  - cbn [all_chars]. now rewrite E, IH2.
Qed.

Lemma lstrip_parts s :
  exists ws, s = ws ++ lstrip s
             /\ match lstrip s with
                | String c _ => is_space c = false
                | EmptyString => True
                end.
Proof.
  induction s as [|c s (ws & IH1 & IH2)]; [now exists ""|].
  cbn [lstrip]. destruct (is_space c) eqn:E.
  - exists (String c ws). cbn [append]. now rewrite <- IH1.
  - exists "". now split.
Qed.

Lemma rstrip_by_head p c s :
  p c = false -> exists r, rstrip_by p (String c s) = String c r.
Proof.
  intros H. cbn [rstrip_by]. destruct (rstrip_by p s); [|eauto].
  rewrite H. eauto.
Qed.

Lemma strip_parts line :
  strip line = ""
  \/ exists c r d,
      strip line = String c r /\ is_space c = false
      /\ last_char (strip line) None = Some d /\ is_space d = false.
Proof.
  unfold strip. destruct (lstrip_parts line) as (ws & _ & H).
  destruct (lstrip line) as [|c s]; [now left|]. right.
  destruct (rstrip_by_head is_space c s H) as [r E].
  destruct (last_char (rstrip_by is_space (String c s)) None) as [d|] eqn:L.
  - exists c, r, d. repeat split; auto. now apply rstrip_by_last in L.
  - rewrite E in L. cbn [last_char] in L.
    assert (G : forall s prev, last_char s (Some prev) <> None).
    { clear. induction s; intros prev; cbn [last_char]; [discriminate|auto]. }
    destruct (G _ _ L).
Qed.

Lemma split_parts line k v :
  split_maxsplit1 (strip line) = [k; v] ->
  word k = true /\ trimmed v = true.
Proof.
  destruct (strip_parts line) as [->|(c & r & d & E & Hc & Hl & Hd)];
    [discriminate|].
  unfold split_maxsplit1. rewrite E. rewrite (@lstrip_at_word c r Hc). cbv iota.
  rewrite <- E.
  destruct (span_word_parts (strip line)) as [P1 P2].
  destruct (span_word (strip line)) as [w rest] eqn:S. cbn [fst snd] in P1, P2.
  destruct (lstrip_parts rest) as (ws & R1 & R2).
  destruct (lstrip rest) as [|e v'] eqn:L; [discriminate|].
  intros H. inversion H; subst k v. clear H. split.
  - unfold word, run_of. destruct w as [|x w]; [|exact P2].
    rewrite E in S. cbn [span_word] in S. rewrite Hc in S.
    destruct (span_word r). discriminate.
  - unfold trimmed. rewrite R2. cbn [negb andb].
    assert (X : last_char (String e v') None = Some d).
    { rewrite <- Hl, P1, R1, <- append_assoc'.
      rewrite last_char_append; [reflexivity|discriminate]. }
    now rewrite X, Hd.
Qed.

Lemma add_note_line_keeps (P : string * string -> Prop) ns line :
  (forall k v, split_maxsplit1 (strip line) = [k; v] -> P (k, v)) ->
  Forall P ns -> Forall P (add_note_line ns line).
Proof.
  intros Hp Hn. unfold add_note_line.
  destruct (split_maxsplit1 (strip line)) as [|k [|v [|x l]]]; auto.
Qed.

Lemma notes_of_lines lines :
  forall ns,
    Forall note_binding ns ->
    Forall note_binding (fold_left add_note_line lines ns).
Proof.
  induction lines as [|line lines IH]; intros ns H; [exact H|].
  cbn [fold_left]. apply IH. apply add_note_line_keeps; [|exact H].
  intros k v E. now apply split_parts in E.
Qed.

Lemma notes_get_of_words ns :
  Forall note_binding ns ->
  (forall x, word x = false -> notes_get ns (SStr x) = "")
  /\ (forall x, notes_get ns x = "" \/ trimmed (notes_get ns x) = true).
Proof.
  induction 1 as [|[k v] ns [Hk Hv] _ [IH1 IH2]]; [split; auto|].
  cbn [fst snd] in Hk, Hv. split.
  - intros x Hx. cbn [notes_get Py.eqb].
    destruct (String.eqb_spec k x) as [->|]; [congruence|auto].
  - intros x. cbn [notes_get]. destruct (Py.eqb (SStr k) x); auto.
Qed.

(** X9: whatever the notes file holds and however reading it ends,
    [load_version_notes] returns, sends no request and prints at most one
    diagnostic; every key of the map it returns is a word (not empty, no
    whitespace) and every note a text that is not empty and has no
    whitespace around it.  So a name that is empty or holds whitespace
    never has a note, and a note that is looked up is empty or such a
    text. *)
Theorem notes_bind_words_to_trimmed_texts w name s :
  exists ns tail,
    load_version_notes w name s
    = (Ret ns, {| stderr := (stderr s ++ tail)%list; sent := sent s |})
    /\ (List.length tail <= 1)%nat
    /\ Forall note_binding ns
    /\ (forall x, word x = false -> notes_get ns (SStr x) = "")
    /\ (forall x, notes_get ns x = "" \/ trimmed (notes_get ns x) = true).
Proof.
  assert (Hl : forall lines,
             Forall note_binding (fold_left add_note_line lines []))
    by (intros lines; apply notes_of_lines; constructor).
  assert (Hs : s = {| stderr := (stderr s ++ [])%list; sent := sent s |})
    by (destruct s; simpl; now rewrite app_nil_r).
  unfold load_version_notes.
  destruct (notes_file w) as [|lines [e|]]; eexists;
    [eexists [_]|eexists [_]|exists []].
  - split; [reflexivity|]. split; [simpl; lia|].
    split; [constructor|]. apply notes_get_of_words. constructor.
  - split; [reflexivity|]. split; [simpl; lia|].
    split; [apply Hl|]. apply notes_get_of_words, Hl.
  - split; [unfold ret; now rewrite <- Hs|]. split; [simpl; lia|].
    split; [apply Hl|]. apply notes_get_of_words, Hl.
Qed.

(* ================================================================== *)
(** ** The table *)

Lemma fold_rows vd :
  forall table,
    fold_left (fun table e => table ++ table_row e) vd table
    = table ++ table_rows vd.
Proof.
  induction vd as [|e vd IH]; intros table; cbn [fold_left table_rows].
  - now rewrite append_nil_r.
  - now rewrite IH, append_assoc'.
Qed.

Lemma table_header_starts_with_bar : exists t, table_header = String "|" t.
Proof. eexists. vm_compute. reflexivity. Qed.

(** X10: a non-empty [version_data] is rendered as the two header lines
    followed by one row per record in the order of the list, and the
    sentinel is returned for the empty list only. *)
Theorem render_table_rows vd :
  (vd <> [] -> render_table vd = table_header ++ table_rows vd)
  /\ (render_table vd = "No version data found." <-> vd = []).
Proof.
  destruct vd as [|e vd].
  - split; [contradiction|]. split; reflexivity.
  - assert (E : render_table (e :: vd) = table_header ++ table_rows (e :: vd))
      by (unfold render_table; apply fold_rows).
    split; [intros _; exact E|]. rewrite E.
    destruct table_header_starts_with_bar as [t ->].
    split; discriminate.
Qed.

Lemma render_table_rows_witness :
  render_table [make_entry (SStr "main") (Some "1.20", None, None) "";
                make_entry (SStr "1.0") (None, Some "v1", None) "n"]
  = table_header ++ "| main | 1.20 |  |  |  |" ++ nl
    ++ "| 1.0 |  | v1 |  | n |" ++ nl.
Proof.
  rewrite (proj1 (render_table_rows _)) by discriminate.
  reflexivity.
Defined.

(* ================================================================== *)
(** ** Bounds of a run *)

Lemma names_length key items :
  List.length (names key items) <= List.length items.
Proof.
  induction items as [|i items IH]; [reflexivity|]. cbn [names List.length].
  destruct (item_name key i); cbn [List.length]; lia.
Qed.

Lemma chars_length s : List.length (Py.chars s) = String.length s.
Proof. induction s; cbn [Py.chars List.length String.length]; congruence. Qed.

Lemma take_length n s : String.length (take n s) <= n.
Proof.
  revert s. induction n as [|n IH]; intros [|c s];
    cbn [take String.length]; try lia.
  specialize (IH s). lia.
Qed.

Lemma first_items_length n v : List.length (first_items n v) <= n.
Proof.
  unfold first_items.
  destruct v; cbn [Py.slice_to Py.iter List.length]; try lia.
  - rewrite chars_length. apply take_length.
  - apply firstn_le_length.
Qed.

(** X11: a run of the four phases leaves at most one record for the main
    branch, one per listed branch, ten for the releases and twenty for the
    tags. *)
Theorem version_data_is_bounded w repo_url ns branches releases tags s a s' :
  run_phases w repo_url ns branches releases tags s = (Ret a, s') ->
  List.length (version_data a) <= 1 + List.length branches + 10 + 20.
Proof.
  intros H.
  apply run_phases_assembly in H
    as (pm & pb & pr & pt & em & eb & er & et & A).
  destruct A as [Hd Hm Hb Hr Ht Hn Hi Hbn Hrn Htn].
  rewrite Hd, !length_app.
  rewrite <- (Forall2_length Hm), <- (Forall2_length Hb),
    <- (Forall2_length Hr), <- (Forall2_length Ht).
  pose proof (NoDup_app_remove_l _ _ Hn) as Hn1.
  pose proof (NoDup_app_remove_l _ _ Hn1) as Hn2.
  assert (Lm : List.length pm <= 1)
    by (apply (NoDup_incl_length (NoDup_app_remove_r _ _ Hn) Hi)).
  assert (Lb : List.length pb <= List.length branches).
  { etransitivity; [|apply (names_length "name")].
    apply NoDup_incl_length; [exact (NoDup_app_remove_r _ _ Hn1)|].
    intros x Hx. now apply Hbn. }
  assert (Lr : List.length pr <= 10).
  { etransitivity; [|apply (first_items_length 10 releases)].
    etransitivity; [|apply (names_length "tag_name")].
    apply NoDup_incl_length; [exact (NoDup_app_remove_r _ _ Hn2)|].
    intros x Hx. now apply Hrn. }
  assert (Lt : List.length pt <= 20).
  { etransitivity; [|apply (first_items_length 20 tags)].
    etransitivity; [|apply (names_length "name")].
    apply NoDup_incl_length; [exact (NoDup_app_remove_l _ _ Hn2)|].
    intros x Hx. now apply Htn. }
  lia.
Qed.

Lemma version_data_is_bounded_witness :
  exists a s',
    run_phases demo_world demo_repo demo_notes demo_branches demo_releases
               demo_tags start = (Ret a, s')
    /\ List.length (version_data a) <= 1 + List.length demo_branches + 10 + 20.
Proof.
  eexists. eexists. split; [vm_compute; reflexivity|].
  eapply (@version_data_is_bounded demo_world demo_repo demo_notes
            demo_branches demo_releases demo_tags start).
  vm_compute. reflexivity.
Defined.

Lemma firstn_exact {A} (l more : list A) :
  firstn (List.length l) (l ++ more) = firstn (List.length l) l.
Proof.
  rewrite firstn_app, Nat.sub_diag, firstn_O, app_nil_r. reflexivity.
Qed.

(** X12: the phases look at the first ten releases and the first twenty
    tags only: whatever the listings hold after them changes nothing, not
    even the requests sent. *)
Theorem phases_ignore_later_releases_and_tags
        w repo_url ns branches rl more_releases tl more_tags s :
  List.length rl = 10 -> List.length tl = 20 ->
  run_phases w repo_url ns branches (JArr (rl ++ more_releases))
             (JArr (tl ++ more_tags)) s
  = run_phases w repo_url ns branches (JArr rl) (JArr tl) s.
Proof.
  intros Hr Ht. unfold run_phases. cbn [Py.slice_to].
  assert (Er : firstn 10 (rl ++ more_releases) = firstn 10 rl)
    by (rewrite <- Hr; apply firstn_exact).
  assert (Et : firstn 20 (tl ++ more_tags) = firstn 20 tl)
    by (rewrite <- Ht; apply firstn_exact).
  now rewrite Er, Et.
Qed.

Lemma phases_ignore_later_releases_and_tags_witness :
  run_phases demo_world demo_repo demo_notes demo_branches
             (JArr (repeat (named "tag_name" "v1.2.3") 10
                    ++ [named "tag_name" "v0.0.1"]))
             (JArr (repeat (named "name" "1.2.3") 20 ++ [JNull])) start
  = run_phases demo_world demo_repo demo_notes demo_branches
               (JArr (repeat (named "tag_name" "v1.2.3") 10))
               (JArr (repeat (named "name" "1.2.3") 20)) start.
Proof.
  apply phases_ignore_later_releases_and_tags; reflexivity.
Defined.

(* ================================================================== *)
(** ** Listings and manifests *)

Lemma for_each_app {A S} (body : S -> A -> M S) l1 l2 a s :
  for_each body (l1 ++ l2) a s
  = bind (for_each body l1 a) (for_each body l2) s.
Proof.
  revert a s. induction l1 as [|x l1 IH]; intros a s; cbn [app for_each].
  - reflexivity.
  - unfold bind. destruct (body a x s) as [[a'| |] s1]; try reflexivity.
    rewrite IH. reflexivity.
Qed.

Lemma tag_to_release_items_return good :
  Forall (fun i => named_item "tag_name" i = true) good ->
  forall d s, exists d',
    for_each tag_to_release_item good d s = (Ret d', s).
Proof.
  induction 1 as [|i good Hi _ IH]; intros d s; cbn [for_each].
  - eexists. reflexivity.
  - unfold named_item in Hi.
    destruct (Py.subscript i "tag_name") as [[| | |n| |]| |] eqn:E;
      try discriminate.
    unfold bind, tag_to_release_item, lift. rewrite E. cbn. apply IH.
Qed.

(** X13: [tag_to_release] is built from every release of the listing, not
    from the ten that are processed: the first release whose [tag_name]
    cannot be read or hashed, wherever it stands, ends the run with its
    exception, nothing logged and nothing requested. *)
Theorem every_release_needs_a_tag_name good bad rest e s :
  Forall (fun i => named_item "tag_name" i = true) good ->
  item_name "tag_name" bad = Raise e ->
  build_tag_to_release (JArr (good ++ bad :: rest)) s = (Raise e, s).
Proof.
  intros Hg Hb. unfold build_tag_to_release.
  unfold bind at 1, lift at 1. cbn [Py.iter].
  rewrite for_each_app. unfold bind at 1.
  destruct (tag_to_release_items_return Hg [] s) as [d ->].
  cbn [for_each]. unfold tag_to_release_item, lift, bind.
  unfold item_name in Hb.
  destruct (Py.subscript bad "tag_name") as [v| |]; try discriminate.
  - now rewrite Hb.
  - congruence.
Qed.

Lemma every_release_needs_a_tag_name_witness :
  build_tag_to_release
    (JArr (repeat (named "tag_name" "v1") 10 ++ JObj [] :: [])) start
  = (Raise KeyError, start).
Proof.
  apply every_release_needs_a_tag_name.
  - repeat constructor.
  - reflexivity.
Defined.

(* ================================================================== *)
(** ** The requests of a run *)

Section SendsOnly.
Variable P : request -> Prop.

Lemma sends_only_lift {A} (o : outcome A) : sends_only P (lift o).
Proof. intros s. exists []. now rewrite app_nil_r. Qed.

Lemma sends_only_ret {A} (a : A) : sends_only P (ret a).
Proof. intros s. exists []. now rewrite app_nil_r. Qed.

Lemma sends_only_eprint line : sends_only P (eprint line).
Proof. intros s. exists []. cbn. now rewrite app_nil_r. Qed.

Lemma sends_only_http_get w rq : P rq -> sends_only P (http_get w rq).
Proof. intros H s. exists [rq]. cbn. auto. Qed.

Lemma sends_only_bind {A B} (c : M A) (k : A -> M B) :
  sends_only P c -> (forall a, sends_only P (k a)) ->
  sends_only P (bind c k).
Proof.
  intros Hc Hk s. unfold bind. destruct (Hc s) as (r1 & E1 & F1).
  destruct (c s) as [[a| |] s1]; cbn [snd] in *; eauto.
  destruct (Hk a s1) as (r2 & E2 & F2). exists (r1 ++ r2)%list.
  rewrite E2, E1, app_assoc. split; [reflexivity|].
  apply Forall_app. auto.
Qed.

Lemma sends_only_for_each {A S} (body : S -> A -> M S) l :
  (forall a x, sends_only P (body a x)) ->
  forall a, sends_only P (for_each body l a).
Proof.
  intros Hb. induction l as [|x l IH]; intros a; cbn [for_each].
  - apply sends_only_ret.
  - apply sends_only_bind; auto.
Qed.
End SendsOnly.

Ltac api_case :=
  first [ left; eexists; reflexivity
        | right; left; reflexivity
        | right; right; left; reflexivity
        | right; right; right; eexists; reflexivity ].

Ltac sends :=
  repeat first
    [ apply sends_only_ret
    | apply sends_only_lift
    | apply sends_only_eprint
    | apply sends_only_http_get; api_case
    | apply sends_only_for_each; intros ? ?
    | match goal with
      | IH : forall page acc, sends_only _ (get_branches_from _ _ _ page acc)
        |- _ => apply IH
      end
    | apply sends_only_bind; [|intros ?]
    | match goal with
      | |- sends_only _ (if ?b then _ else _) => destruct b
      | |- sends_only _ (match ?r with RequestException _ => _ | Body _ => _ end)
        => destruct r
      | |- sends_only _ (match ?n with FileNotFound => _ | FileLines _ _ => _ end)
        => destruct n
      | |- sends_only _ (match ?e with Some _ => _ | None => _ end)
        => destruct e
      end ].

Lemma get_branches_from_sends w repo_url fuel :
  forall page acc,
    sends_only (api_request repo_url)
               (get_branches_from w repo_url fuel page acc).
Proof.
  induction fuel as [|fuel IH]; intros page acc; cbn [get_branches_from];
    sends.
Qed.

Lemma generate_version_table_sends w fuel repo_url :
  sends_only (api_request repo_url) (generate_version_table w fuel repo_url).
Proof.
  unfold generate_version_table, collect_version_data, get_branches.
  apply sends_only_bind; [|intros ?; sends].
  apply sends_only_bind; [sends|intros _].
  apply sends_only_bind; [apply get_branches_from_sends|intros branches].
  unfold get_releases, get_tags, load_version_notes, build_tag_to_release,
    run_phases, main_phase, get_main_branch_info, get_go_mod_content.
  sends.
  all: unfold tag_to_release_item, branch_step, release_step, tag_step,
         get_go_mod_content; sends.
Qed.

Lemma api_request_url repo_url rq :
  api_request repo_url rq ->
  prefix (api_url repo_url ++ "/") (url rq) = true.
Proof.
  intros [[page ->]|[->|[->|[ref ->]]]]; cbn [url branches_request
    releases_request tags_request go_mod_request].
  - change "/branches" with ("/" ++ "branches"). rewrite <- append_assoc'.
    apply prefix_append.
  - change "/releases" with ("/" ++ "releases"). rewrite <- append_assoc'.
    apply prefix_append.
  - change "/tags" with ("/" ++ "tags"). rewrite <- append_assoc'.
    apply prefix_append.
  - change ("/contents/go.mod?ref=" ++ Py.str ref)
      with ("/" ++ "contents/go.mod?ref=" ++ Py.str ref).
    rewrite <- append_assoc'. apply prefix_append.
Qed.

(** X14: however a run of [generate_version_table] ends (with a table,
    with an exception that nothing catches, or still paging), each request
    it has sent is one of four for the repository of the argument: a page
    of its branches, its releases, its tags, or the manifest [go.mod] at a
    ref.  All of them go below the API address of the repository, and only
    the requests for branches carry parameters. *)
Theorem requests_stay_with_the_repository w fuel repo_url s :
  exists rqs,
    sent (snd (generate_version_table w fuel repo_url s))
    = (sent s ++ rqs)%list
    /\ Forall (api_request repo_url) rqs
    /\ Forall (fun rq => prefix (api_url repo_url ++ "/") (url rq) = true) rqs
    /\ Forall (fun rq =>
                 params rq = []
                 \/ exists page,
                     rq = branches_request repo_url page
                     /\ params rq = [("page", page); ("per_page", 100)]) rqs.
Proof.
  destruct (generate_version_table_sends w fuel repo_url s) as (rqs & E & F).
  exists rqs. split; [exact E|]. split; [exact F|].
  split; (eapply Forall_impl; [|exact F]); intros rq H.
  - now apply api_request_url.
  - destruct H as [[page ->]|[->|[->|[ref ->]]]]; eauto.
Qed.

(* ================================================================== *)
(** ** Paging *)

(** X16: the paging of [get_branches] ends at the first body that Python
    takes for false, whatever its type ([[]], [{}], [null], [0], the empty
    text), and returns the pages before it; a body that is true and cannot
    be iterated, such as a number, raises [TypeError], which is not
    caught. *)
Theorem get_branches_ends_at_a_false_body w repo_url pages fuel s j :
  serves_pages w repo_url 1 pages s ->
  http w (sent (after_pages repo_url 1 (List.length pages) s))
       (branches_request repo_url (1 + List.length pages)) = Body j ->
  (Py.truthy j = false ->
   get_branches w (List.length pages + S fuel) repo_url s
   = (Ret (concat pages), after_pages repo_url 1 (S (List.length pages)) s))
  /\ (Py.truthy j = true -> Py.iter j = Raise TypeError ->
      get_branches w (List.length pages + S fuel) repo_url s
      = (Raise TypeError, after_pages repo_url 1 (S (List.length pages)) s)).
Proof.
  intros H Hl.
  assert (Hs : {| stderr := stderr (after_pages repo_url 1 (List.length pages) s);
                  sent := (sent (after_pages repo_url 1 (List.length pages) s)
                           ++ [branches_request repo_url
                                 (1 + List.length pages)])%list |}
               = after_pages repo_url 1 (S (List.length pages)) s).
  { unfold after_pages. cbn [sent stderr]. f_equal.
    rewrite seq_S, map_app, app_assoc. reflexivity. }
  assert (E : get_branches w (List.length pages + S fuel) repo_url s
              = (if negb (Py.truthy j) then ret (concat pages)
                 else
                   items <- lift (Py.iter j) ;;
                   get_branches_from w repo_url fuel
                     (S (1 + List.length pages)) (concat pages ++ items)%list)
                  (after_pages repo_url 1 (S (List.length pages)) s)).
  { unfold get_branches.
    rewrite (@get_branches_from_pages w repo_url pages (S fuel) 1 [] s H).
    cbn [get_branches_from]. unfold bind at 1, http_get at 1.
    now rewrite Hl, Hs. }
  rewrite E. split.
  - intros Ht. now rewrite Ht.
  - intros Ht Hi. rewrite Ht. cbn [negb]. unfold bind, lift.
    now rewrite Hi.
Qed.

Lemma get_branches_ends_at_a_false_body_witness :
  get_branches
    {| http := fun _ =>
         answer [(branches_request demo_repo 1, Body (JArr demo_branches));
                 (branches_request demo_repo 2, Body (JObj []))];
       notes_file := FileNotFound;
       b64decode_utf8 := fun _ => None;
       stdout_charset := fun _ => true |}
    (1 + 1) demo_repo start
  = (Ret demo_branches, after_pages demo_repo 1 2 start).
Proof.
  apply (@get_branches_ends_at_a_false_body _ demo_repo [demo_branches] 0
           start (JObj [])).
  - intros [|[|i]] page Hi; inversion Hi; subst page.
    split; [discriminate|reflexivity].
  - reflexivity.
  - reflexivity.
Defined.

Lemma bind_eprint {B} line (k : unit -> M B) s :
  bind (eprint line) k s
  = k tt {| stderr := (stderr s ++ [line])%list; sent := sent s |}.
Proof. reflexivity. Qed.

Lemma bind_out_of_fuel {A B} (c : M A) (k : A -> M B) s :
  fst (c s) = OutOfFuel -> fst (bind c k s) = OutOfFuel.
Proof.
  unfold bind. destruct (c s) as [[a| |] s']; cbn [fst]; congruence.
Qed.

(** X17: when every page of branches that is asked for is a non-empty list,
    [get_branches] does not return: no amount of fuel suffices, and [main]
    never gets to print a table. *)
Theorem get_branches_never_ends_on_full_pages w argv :
  (forall h page, exists b l,
      http w h (branches_request (repo_url_of argv) page)
      = Body (JArr (b :: l))) ->
  forall fuel,
    (forall s, fst (get_branches w fuel (repo_url_of argv) s) = OutOfFuel)
    /\ exit_code (main w fuel argv) = None
    /\ run_stdout (main w fuel argv) = [].
Proof.
  intros H fuel.
  assert (G : forall fuel page all_branches s,
             fst (get_branches_from w (repo_url_of argv) fuel page
                                    all_branches s) = OutOfFuel).
  { clear fuel. induction fuel as [|fuel IH]; intros page all_branches s;
      [reflexivity|].
    cbn [get_branches_from]. unfold bind at 1, http_get at 1.
    destruct (H (sent s) page) as (b & l & ->).
    cbn [Py.truthy negb]. unfold bind at 1, lift at 1. cbn [Py.iter].
    apply IH. }
  split; [intros s; apply G|].
  assert (E : fst ((eprint ("Generating version table for "
                            ++ repo_url_of argv ++ "...") ;;;
                    generate_version_table w fuel (repo_url_of argv)) start)
              = OutOfFuel).
  { rewrite bind_eprint. unfold generate_version_table.
    apply bind_out_of_fuel. unfold collect_version_data.
    rewrite bind_eprint. apply bind_out_of_fuel. apply G. }
  unfold main. cbv zeta. fold start.
  destruct ((eprint ("Generating version table for "
                     ++ repo_url_of argv ++ "...") ;;;
             generate_version_table w fuel (repo_url_of argv)) start)
    as [o s1].
  cbn [fst] in E. subst o. split; reflexivity.
Qed.

Lemma get_branches_never_ends_on_full_pages_witness :
  exit_code
    (main {| http := fun _ _ => Body (JArr demo_branches);
             notes_file := FileNotFound;
             b64decode_utf8 := fun _ => None;
             stdout_charset := fun _ => true |}
          1000 ["generate_version_table.py"]) = None.
Proof.
  apply (@get_branches_never_ends_on_full_pages
           {| http := fun _ _ => Body (JArr demo_branches);
              notes_file := FileNotFound;
              b64decode_utf8 := fun _ => None;
              stdout_charset := fun _ => true |}
           ["generate_version_table.py"]).
  intros h page. eexists. eexists. reflexivity.
Defined.

(* ================================================================== *)
(** ** Items that cannot be read *)

(** X18: a listed item whose name cannot be read (not an object: [TypeError];
    no such key: [KeyError]) or cannot be hashed (a list or an object:
    [TypeError]) raises out of the loop it is in before anything is logged,
    requested or recorded; and a tag whose name is hashable but not a text
    raises [TypeError] at the pattern test, also before any request. *)
Theorem unreadable_items_raise w repo_url ns a item s :
  (forall e,
      item_name "name" item = Raise e ->
      branch_step w repo_url ns a item s = (Raise e, s)
      /\ tag_step w repo_url ns a item s = (Raise e, s))
  /\ (forall e,
         item_name "tag_name" item = Raise e ->
         release_step w repo_url ns a item s = (Raise e, s))
  /\ (forall name,
         item_name "name" item = Ret name ->
         (forall t, name <> SStr t) ->
         Py.mem name (processed_refs a) = false ->
         tag_step w repo_url ns a item s = (Raise TypeError, s))
  /\ (forall key,
         (forall f, item <> JObj f) -> item_name key item = Raise TypeError)
  /\ (forall key f,
         item = JObj f -> Py.lookup key f = None ->
         item_name key item = Raise KeyError)
  /\ (forall key f v,
         item = JObj f -> Py.lookup key f = Some v ->
         (exists l, v = JArr l) \/ (exists g, v = JObj g) ->
         item_name key item = Raise TypeError).
Proof.
  assert (R : forall key e,
             item_name key item = Raise e ->
             forall B (k : scalar -> M B),
               bind (lift (Py.subscript item key))
                    (fun b => bind (lift (Py.hash b)) k) s
               = (Raise e, s)).
  { intros key e H B k. unfold item_name in H. unfold bind, lift.
    destruct (Py.subscript item key) as [v| |]; try discriminate.
    - now rewrite H.
    - congruence. }
  split; [|split; [|split; [|split; [|split]]]].
  - intros e H. split; [apply (R _ _ H)|apply (R _ _ H)].
  - intros e H. apply (R _ _ H).
  - intros name H Hn Hm. apply item_name_inv in H as (v & Hv & Hh).
    unfold tag_step, bind, lift. rewrite Hv, Hh, Hm.
    destruct name; try reflexivity. now destruct (Hn s0).
  - intros key H. unfold item_name.
    destruct item; try reflexivity. now destruct (H fields).
  - intros key f -> H. unfold item_name. cbn [Py.subscript]. now rewrite H.
  - intros key f v -> H Hv. unfold item_name. cbn [Py.subscript]. rewrite H.
    destruct Hv as [[l ->]|[g ->]]; reflexivity.
Qed.

Lemma unreadable_items_raise_witness :
  release_step demo_world demo_repo demo_notes
               {| version_data := []; processed_refs := [] |}
               (JObj [("name", JStr "v1")]) start
  = (Raise KeyError, start)
  /\ tag_step demo_world demo_repo demo_notes
              {| version_data := []; processed_refs := [] |}
              (JObj [("name", JNum 4)]) start
     = (Raise TypeError, start).
Proof.
  split.
  - apply (proj1 (proj2 (unreadable_items_raise demo_world demo_repo
                           demo_notes _ (JObj [("name", JStr "v1")]) start))).
    reflexivity.
  - apply (proj1 (proj2 (proj2 (unreadable_items_raise demo_world demo_repo
                           demo_notes _ (JObj [("name", JNum 4)]) start)))
             (SInt 4)).
    + reflexivity.
    + discriminate.
    + reflexivity.
Defined.

(* ================================================================== *)
(** ** A network that is down *)

Lemma load_version_notes_keeps_requests w name s :
  returns (load_version_notes w name) s (fun _ s' => sent s' = sent s).
Proof.
  unfold load_version_notes.
  destruct (notes_file w) as [|lines [e|]]; repeat run_step; reflexivity.
Qed.

Section NetworkDown.
Variables (w : world) (repo_url : string).
Hypothesis down :
  forall h rq, exists msg, http w h rq = RequestException msg.

Ltac fail_request :=
  match goal with
  | |- context [http w ?h ?rq] =>
      let msg := fresh "msg" in
      let E := fresh "E" in
      destruct (down h rq) as [msg E]; rewrite E; clear E
  end.

Lemma collect_when_down fuel s :
  returns (collect_version_data w (S fuel) repo_url) s
          (fun a s' =>
             version_data a = []
             /\ sent s'
                = (sent s
                   ++ [branches_request repo_url 1; releases_request repo_url;
                       tags_request repo_url;
                       go_mod_request repo_url (SStr "main")])%list).
Proof.
  unfold collect_version_data, get_branches, get_releases, get_tags.
  cbn [get_branches_from]. do 5 run_step.
  fail_request. cbn [sent stderr]. do 6 run_step.
  fail_request. cbn [sent stderr]. do 6 run_step.
  fail_request. cbn [sent stderr]. do 4 run_step.
  eapply returns_weaken; [apply load_version_notes_keeps_requests|].
  cbv beta. cbn [sent]. intros ns s1 Hs1.
  unfold build_tag_to_release, run_phases, main_phase, get_main_branch_info,
    get_go_mod_content.
  cbn [Py.iter for_each]. do 11 run_step. fail_request.
  repeat run_step. split; [reflexivity|]. cbn [sent]. rewrite Hs1.
  now rewrite <- !app_assoc.
Qed.
End NetworkDown.

(** X19: when every request fails, the run still ends well: exactly four
    requests are sent (page 1 of the branches, the releases, the tags and
    the manifest of [main]), [generate_version_table] returns the sentinel,
    and [main] prints it and ends with status 0. *)
Theorem network_down_gives_the_sentinel w argv fuel s :
  (forall h rq, exists msg, http w h rq = RequestException msg) ->
  let repo_url := repo_url_of argv in
  (exists s',
      generate_version_table w (S fuel) repo_url s
      = (Ret "No version data found.", s')
      /\ sent s'
         = (sent s
            ++ [branches_request repo_url 1; releases_request repo_url;
                tags_request repo_url;
                go_mod_request repo_url (SStr "main")])%list)
  /\ run_stdout (main w (S fuel) argv) = ["No version data found."]
  /\ exit_code (main w (S fuel) argv) = Some 0%Z.
Proof.
  intros down repo_url.
  assert (G : forall s0, exists s',
             generate_version_table w (S fuel) repo_url s0
             = (Ret "No version data found.", s')
             /\ sent s'
                = (sent s0
                   ++ [branches_request repo_url 1; releases_request repo_url;
                       tags_request repo_url;
                       go_mod_request repo_url (SStr "main")])%list).
  { intros s0.
    destruct (@collect_when_down w repo_url down fuel s0)
      as (a & s' & Hc & Hv & Hs).
    exists s'. unfold generate_version_table, bind. rewrite Hc, Hv.
    split; [reflexivity|exact Hs]. }
  split; [apply G|].
  unfold main. cbv zeta. rewrite bind_eprint. fold repo_url.
  match goal with
  | |- context [generate_version_table _ _ _ ?s0] =>
      destruct (G s0) as (s' & -> & _)
  end.
  split; reflexivity.
Qed.

Lemma network_down_gives_the_sentinel_witness :
  run_stdout
    (main {| http := fun _ _ => RequestException "connection refused";
             notes_file := FileNotFound;
             b64decode_utf8 := fun _ => None;
             stdout_charset := fun _ => true |}
          1 ["generate_version_table.py"])
  = ["No version data found."].
Proof.
  apply (proj1 (proj2
           (@network_down_gives_the_sentinel
              {| http := fun _ _ => RequestException "connection refused";
                 notes_file := FileNotFound;
                 b64decode_utf8 := fun _ => None;
                 stdout_charset := fun _ => true |}
              ["generate_version_table.py"] 0 start
              (fun _ _ => ex_intro _ "connection refused" eq_refl)))).
Defined.

(* ================================================================== *)
(** ** A repository with a main branch only *)

Section OnlyMain.
Variables (w : world) (repo_url : string) (v : versions).
Hypothesis no_branches :
  forall h, http w h (branches_request repo_url 1) = Body (JArr []).
Hypothesis no_releases :
  forall h, http w h (releases_request repo_url) = Body (JArr []).
Hypothesis no_tags :
  forall h, http w h (tags_request repo_url) = Body (JArr []).
Hypothesis main_manifest :
  forall h, exists text,
    manifest_of w (http w h (go_mod_request repo_url (SStr "main"))) text
    /\ parse_go_mod (JStr text) = Ret v.
Hypothesis found : any_version v = true.

Lemma run_phases_only_main ns s :
  returns (run_phases w repo_url ns [] (JArr []) (JArr [])) s
          (fun a _ => version_data a = [make_entry (SStr "main") v ""]).
Proof.
  unfold run_phases, main_phase, get_main_branch_info, get_go_mod_content.
  do 7 run_step. cbn [sent].
  destruct (main_manifest (sent s)) as (text & (cd & -> & Hd) & Hp).
  rewrite Hd. run_step. rewrite Hp. run_step. rewrite found.
  repeat run_step. reflexivity.
Qed.

Lemma collect_only_main fuel s :
  returns (collect_version_data w (S fuel) repo_url) s
          (fun a _ => version_data a = [make_entry (SStr "main") v ""]).
Proof.
  unfold collect_version_data, get_branches, get_releases, get_tags.
  cbn [get_branches_from]. do 5 run_step. rewrite no_branches.
  cbn [Py.truthy negb]. do 4 run_step. rewrite no_releases.
  do 4 run_step. rewrite no_tags. do 2 run_step.
  eapply returns_weaken; [apply load_version_notes_returns|].
  cbv beta. intros ns s1 _. unfold build_tag_to_release.
  cbn [Py.iter for_each]. do 4 run_step. apply run_phases_only_main.
Qed.
End OnlyMain.

(** X20: with no branches, no releases and no tags, and a manifest of the
    main branch that yields versions, the table has exactly one row: it is
    named [main], shows the three versions, the empty text for a missing
    one, and has an empty note whatever the notes file holds. *)
Theorem only_main_gives_one_row w fuel repo_url s g r sd :
  (forall h, http w h (branches_request repo_url 1) = Body (JArr [])) ->
  (forall h, http w h (releases_request repo_url) = Body (JArr [])) ->
  (forall h, http w h (tags_request repo_url) = Body (JArr [])) ->
  (forall h, exists text,
      manifest_of w (http w h (go_mod_request repo_url (SStr "main"))) text
      /\ parse_go_mod (JStr text) = Ret (g, r, sd)) ->
  (g, r, sd) <> (None, None, None) ->
  exists s',
    generate_version_table w (S fuel) repo_url s
    = (Ret (table_header ++ "| main | " ++ or_empty g ++ " | " ++ or_empty r
            ++ " | " ++ or_empty sd ++ " |  |" ++ nl),
       s').
Proof.
  intros Hb Hr Ht Hm Hv.
  assert (Hf : any_version (g, r, sd) = true).
  { destruct (Hm []) as (text & _ & Hp).
    pose proof (parse_go_mod_fields_not_empty _ Hp) as Hne.
    cbn [any_version].
    destruct g as [[|? ?]|]; [destruct (Hne ""); simpl; auto|reflexivity|].
    destruct r as [[|? ?]|]; [destruct (Hne ""); simpl; auto|reflexivity|].
    destruct sd as [[|? ?]|]; [destruct (Hne ""); simpl; auto|reflexivity|].
    contradiction. }
  destruct (@collect_only_main w repo_url (g, r, sd) Hb Hr Ht Hm Hf fuel s)
    as (a & s' & Hc & Ha).
  exists s'. unfold generate_version_table, bind. rewrite Hc, Ha.
  unfold ret, render_table. cbn [fold_left make_entry]. unfold table_row.
  cbn [proxy_version golang rest_api sdk_go note Py.str append].
  reflexivity.
Qed.

(** A repository with a main branch only, whose manifest has a go
    directive and no dependency line. *)
Lemma only_main_gives_one_row_witness :
  exists s',
    generate_version_table
      {| http := fun _ =>
           answer
             [ (branches_request demo_repo 1, Body (JArr []));
               (releases_request demo_repo, Body (JArr []));
               (tags_request demo_repo, Body (JArr []));
               (go_mod_request demo_repo (SStr "main"),
                Body (JObj [("content", JStr ("go 1.20" ++ nl))])) ];
         notes_file := FileLines ["main trunk"] None;
         b64decode_utf8 := fun _ => None;
         stdout_charset := fun _ => true |}
      1 demo_repo start
    = (Ret (table_header ++ "| main | " ++ or_empty (Some "1.20") ++ " | "
            ++ or_empty None ++ " | " ++ or_empty None ++ " |  |" ++ nl),
       s').
Proof.
  apply only_main_gives_one_row; try (intros h; reflexivity);
    [|discriminate].
  intros h. exists ("go 1.20" ++ nl). split; [|reflexivity].
  eexists. split; reflexivity.
Defined.
